(** * todo-app: the OIDC login flows, the auth guards and the todo routes

    A shallow embedding of the repository's three backends (bearer token,
    no authentication, session cookie) and of the browser-side auth module
    of the bearer design, with the properties its specification states. *)

From Stdlib Require Import ZArith String Ascii List Bool Lia Sorted.
From stdpp Require Import gmap strings list fin_maps.

Local Open Scope string_scope.
Local Open Scope Z_scope.

(* ===================================================================== *)
(** ** JavaScript values, as far as the code inspects them *)
(* ===================================================================== *)

Module Js.

(** JSON numbers are kept to the integers (the NumericDate claims of a
    token); [NaN] is what arithmetic on a missing claim yields. *)
Inductive jsnum :=
| NaN
| Num (z : Z).

#[warnings="-register-all"] Inductive jsval :=
| JUndefined
| JNull
| JBool (b : bool)
| JNum (z : Z)
| JStr (s : string)
| JObj (fields : list (string * jsval)).

(** ToBoolean. *)
Definition truthy (v : jsval) : bool :=
  match v with
  | JUndefined | JNull => false
  | JBool b => b
  | JNum z => negb (z =? 0)
  | JStr s => negb (String.eqb s "")
  | JObj _ => true
  end.

(** Truthiness of a [string | null] (or [string | undefined]) variable. *)
Definition truthyS (o : option string) : bool :=
  match o with
  | Some s => negb (String.eqb s "")
  | None => false
  end.

(** [a || b]. *)
Definition or_else (a b : jsval) : jsval := if truthy a then a else b.

(** [v !== s] for a string [s]. *)
Definition strict_neq_str (v : jsval) (s : string) : bool :=
  match v with
  | JStr s' => negb (String.eqb s' s)
  | _ => true
  end.

Fixpoint assoc (k : string) (l : list (string * jsval)) : jsval :=
  match l with
  | [] => JUndefined
  | (k', v) :: l' => if String.eqb k k' then v else assoc k l'
  end.

(** [v.k]: a TypeError on null and undefined, [undefined] on a primitive. *)
Definition prop (v : jsval) (k : string) : option jsval :=
  match v with
  | JUndefined | JNull => None
  | JObj fs => Some (assoc k fs)
  | _ => Some JUndefined
  end.

Section Numbers.
(** StringToNumber, the built-in conversion of a string operand. *)
Variable stringToNumber : string -> jsnum.

(** ToNumber. *)
Definition toNumber (v : jsval) : jsnum :=
  match v with
  | JUndefined => NaN
  | JNull => Num 0
  | JBool b => Num (if b then 1 else 0)
  | JNum z => Num z
  | JStr s => stringToNumber s
  | JObj _ => NaN
  end.
End Numbers.

Definition mul (a : jsnum) (k : Z) : jsnum :=
  match a with
  | NaN => NaN
  | Num z => Num (z * k)
  end.

(** [a < b]; every comparison with NaN is false. *)
Definition lt (a : jsnum) (b : Z) : bool :=
  match a with
  | NaN => false
  | Num z => z <? b
  end.

(** A text is held as its UTF-8 bytes. White space is what
    [String.prototype.trim] removes: the WhiteSpace and LineTerminator
    code points of ECMAScript, one byte each for U+0009 to U+000D and
    U+0020. *)
Definition is_space (c : ascii) : bool :=
  let n := nat_of_ascii c in
  ((9 <=? n) && (n <=? 13))%nat || (n =? 32)%nat.

(** U+00A0, in two bytes. *)
Definition is_space2 (a b : ascii) : bool :=
  ((nat_of_ascii a =? 194) && (nat_of_ascii b =? 160))%nat.

(** U+1680, U+2000 to U+200A, U+2028, U+2029, U+202F, U+205F, U+3000 and
    U+FEFF, in three bytes. *)
Definition is_space3 (a b c : ascii) : bool :=
  let x := nat_of_ascii a in
  let y := nat_of_ascii b in
  let z := nat_of_ascii c in
  ((x =? 225) && (y =? 154) && (z =? 128)
   || (x =? 226) && (y =? 128) &&
        ((128 <=? z) && (z <=? 138) || (z =? 168) || (z =? 169) || (z =? 175))
   || (x =? 226) && (y =? 129) && (z =? 159)
   || (x =? 227) && (y =? 128) && (z =? 128)
   || (x =? 239) && (y =? 187) && (z =? 191))%nat.

(** The text after one leading white-space character, when there is one. *)
Definition white_space (s : string) : option string :=
  match s with
  | String a s1 =>
      if is_space a then Some s1 else
      match s1 with
      | String b s2 =>
          if is_space2 a b then Some s2 else
          match s2 with
          | String c s3 => if is_space3 a b c then Some s3 else None
          | EmptyString => None
          end
      | EmptyString => None
      end
  | EmptyString => None
  end.

Fixpoint trim_start (s : string) : string :=
  match s with
  | String a s1 =>
      if is_space a then trim_start s1 else
      match s1 with
      | String b s2 =>
          if is_space2 a b then trim_start s2 else
          match s2 with
          | String c s3 => if is_space3 a b c then trim_start s3 else s
          | EmptyString => s
          end
      | EmptyString => s
      end
  | EmptyString => s
  end.

(** The text is cut where only white space follows. *)
Fixpoint trim_end (s : string) : string :=
  match s with
  | EmptyString => EmptyString
  | String c s' =>
      match trim_start s with
      | EmptyString => EmptyString
      | _ => String c (trim_end s')
      end
  end.

Definition trim (s : string) : string := trim_end (trim_start s).

(** [s.split(sep)[1]] for a one-character separator. *)
Fixpoint after_sep (sep : ascii) (s : string) : option string :=
  match s with
  | EmptyString => None
  | String c s' => if Ascii.eqb c sep then Some s' else after_sep sep s'
  end.

Fixpoint until_sep (sep : ascii) (s : string) : string :=
  match s with
  | EmptyString => EmptyString
  | String c s' => if Ascii.eqb c sep then EmptyString else String c (until_sep sep s')
  end.

Definition split_second (sep : ascii) (s : string) : option string :=
  match after_sep sep s with
  | Some rest => Some (until_sep sep rest)
  | None => None
  end.

(** [s.startsWith(p)] and [s.slice(n)]. *)
Fixpoint startsWith (p s : string) : bool :=
  match p, s with
  | EmptyString, _ => true
  | String a p', String b s' => Ascii.eqb a b && startsWith p' s'
  | String _ _, EmptyString => false
  end.

Fixpoint slice (n : nat) (s : string) : string :=
  match n, s with
  | O, _ => s
  | S n', String _ s' => slice n' s'
  | S _, EmptyString => EmptyString
  end.

End Js.

(* ===================================================================== *)
(** ** Effects: module state and exceptions *)
(* ===================================================================== *)

Module Eff.

Inductive Res (A : Type) :=
| Val (a : A)
| Throw (e : string).
Arguments Val {A} a.
Arguments Throw {A} e.

(** A computation over a world [W] that returns or throws. *)
Definition M (W A : Type) : Type := W -> Res A * W.

Definition ret {W A} (a : A) : M W A := fun w => (Val a, w).

Definition bind {W A B} (m : M W A) (k : A -> M W B) : M W B :=
  fun w =>
    match m w with
    | (Val a, w') => k a w'
    | (Throw e, w') => (Throw e, w')
    end.

Definition throw {W A} (e : string) : M W A := fun w => (Throw e, w).

(** [try { m } catch { h }]. *)
Definition try_catch {W A} (m : M W A) (h : M W A) : M W A :=
  fun w =>
    match m w with
    | (Val a, w') => (Val a, w')
    | (Throw _, w') => h w'
    end.

Definition get {W} : M W W := fun w => (Val w, w).
Definition gets {W A} (f : W -> A) : M W A := fun w => (Val (f w), w).
Definition modify {W} (f : W -> W) : M W unit := fun w => (Val tt, f w).

(** A partial pure step: [None] is a thrown exception. *)
Definition lift_opt {W A} (e : string) (o : option A) : M W A :=
  match o with
  | Some a => ret a
  | None => throw e
  end.

Definition when {W} (b : bool) (m : M W unit) : M W unit :=
  if b then m else ret tt.

End Eff.

Import Eff.

Declare Scope eff_scope.
Delimit Scope eff_scope with eff.
Notation "x <- c ;; k" := (bind c (fun x => k))
  (at level 100, c at next level, right associativity) : eff_scope.
Notation "c ;;; k" := (bind c (fun _ => k))
  (at level 100, right associativity) : eff_scope.

(* ===================================================================== *)
(** ** HTTP requests sent by the code, and the answers it reads *)
(* ===================================================================== *)

Module Net.

Record Request := mkRequest {
  method : string;
  url : string;
  form : list (string * string)   (* the URLSearchParams body, in order *)
}.

Record Response := mkResponse {
  status : Z;
  text : string
}.

(** [res.ok] *)
Definition ok (r : Response) : bool := (200 <=? status r) && (status r <=? 299).

Inductive FetchResult :=
| NetworkError
| Resp (r : Response).

(** The discovery document, as far as the code reads it. *)
Record OIDCConfig := mkConfig {
  authorization_endpoint : string;
  token_endpoint : string;
  end_session_endpoint : string;
  jwks_uri : string
}.

(** What [res.json()] gave for the discovery document. [null] has no
    property to read; [false], [0] and the empty string are falsy and
    every property of theirs is undefined; anything else is truthy, and
    each endpoint is held as the text of the property, which is how every
    use converts it ([undefined] for a property that is missing). *)
Inductive Document :=
| DocNull
| DocEmpty
| Doc (cfg : OIDCConfig).

(** What [if (!config)] finds cached after [config = await res.json()]. *)
Definition cached (d : Document) : option OIDCConfig :=
  match d with
  | Doc cfg => Some cfg
  | _ => None
  end.

Definition undefined_config : OIDCConfig :=
  mkConfig "undefined" "undefined" "undefined" "undefined".

(** [config.x] handed to [fetch]: a TypeError on [null], the text
    [undefined] for a property of a falsy document. *)
Definition fields (d : Document) : option OIDCConfig :=
  match d with
  | DocNull => None
  | DocEmpty => Some undefined_config
  | Doc cfg => Some cfg
  end.

(** The token endpoint's JSON answer, as far as the code reads it. *)
Record Tokens := mkTokens {
  access_token : string;
  refresh_token : option string;
  id_token : string
}.

(** A URL under construction: [new URL(base)] and [searchParams.set]. *)
Record Url := mkUrl {
  base : string;
  query : list (string * string)
}.

(** [new URL(config.x)], given [URL.canParse]: a TypeError on a [null]
    document, on a property that is undefined, and on a text that is no
    absolute URL. *)
Definition newURL (canParse : string -> bool) (d : Document)
    (x : OIDCConfig -> string) : option Url :=
  match d with
  | DocNull | DocEmpty => None
  | Doc cfg => if canParse (x cfg) then Some (mkUrl (x cfg) []) else None
  end.

Fixpoint params_set (k v : string) (q : list (string * string)) : list (string * string) :=
  match q with
  | [] => [(k, v)]
  | (k', v') :: q' => if String.eqb k k' then (k, v) :: q' else (k', v') :: params_set k v q'
  end.

Definition searchParams_set (k v : string) (u : Url) : Url :=
  mkUrl (base u) (params_set k v (query u)).

(** [URLSearchParams.get]: the first value, or null. *)
Fixpoint params_get (k : string) (q : list (string * string)) : option string :=
  match q with
  | [] => None
  | (k', v) :: q' => if String.eqb k k' then Some v else params_get k q'
  end.

End Net.

(* ===================================================================== *)
(** ** The browser-side auth module of the bearer design *)
(* ===================================================================== *)

Module Auth.
Import Js Net.

Definition OIDC_ISSUER : string := "https://auth.snir.sh/application/o/todo-app/".
Definition CLIENT_ID : string := "5QFMboN9PXKIrx5X4In59wXZlv0DpUAreYes1fql".
Definition SCOPES : string := "openid email profile".

(** What the module takes from the browser and the network. *)
Record Browser := mkBrowser {
  origin : string;                              (* window.location.origin *)
  net : nat -> Request -> FetchResult;          (* answer to the n-th request *)
  jsonConfig : string -> option Document;       (* res.json() of discovery *)
  jsonTokens : string -> option Tokens;         (* res.json() of the token endpoint *)
  atobJson : string -> option jsval;            (* JSON.parse(atob(s)); None when it throws *)
  stringToNumber : string -> jsnum;
  randomBytes : nat -> nat -> list nat;         (* crypto.getRandomValues, n-th draw *)
  sha256_base64url : string -> string;          (* base64url(await sha256(v)) *)
  canParse : string -> bool                     (* URL.canParse(s): new URL(s) returns *)
}.

Record User := mkUser {
  sub : jsval;
  email : jsval;
  name : jsval
}.

(** The module's variables, the tab's session storage and location, and
    the requests sent so far. *)
Record World := mkWorld {
  _config : option OIDCConfig;
  _accessToken : option string;
  _refreshToken : option string;
  _user : option User;
  sessionStorage : gmap string string;
  netlog : list Request;
  draws : nat;
  pathname : string;
  search : list (string * string);
  href : option Url
}.

Definition set_config (c : option OIDCConfig) (w : World) : World :=
  mkWorld c (_accessToken w) (_refreshToken w) (_user w) (sessionStorage w)
    (netlog w) (draws w) (pathname w) (search w) (href w).
Definition set_accessToken (a : option string) (w : World) : World :=
  mkWorld (_config w) a (_refreshToken w) (_user w) (sessionStorage w)
    (netlog w) (draws w) (pathname w) (search w) (href w).
Definition set_refreshToken (r : option string) (w : World) : World :=
  mkWorld (_config w) (_accessToken w) r (_user w) (sessionStorage w)
    (netlog w) (draws w) (pathname w) (search w) (href w).
Definition set_user (u : option User) (w : World) : World :=
  mkWorld (_config w) (_accessToken w) (_refreshToken w) u (sessionStorage w)
    (netlog w) (draws w) (pathname w) (search w) (href w).
Definition set_storage (s : gmap string string) (w : World) : World :=
  mkWorld (_config w) (_accessToken w) (_refreshToken w) (_user w) s
    (netlog w) (draws w) (pathname w) (search w) (href w).
Definition set_netlog (l : list Request) (w : World) : World :=
  mkWorld (_config w) (_accessToken w) (_refreshToken w) (_user w) (sessionStorage w)
    l (draws w) (pathname w) (search w) (href w).
Definition set_draws (n : nat) (w : World) : World :=
  mkWorld (_config w) (_accessToken w) (_refreshToken w) (_user w) (sessionStorage w)
    (netlog w) n (pathname w) (search w) (href w).
Definition set_location (p : string) (q : list (string * string)) (w : World) : World :=
  mkWorld (_config w) (_accessToken w) (_refreshToken w) (_user w) (sessionStorage w)
    (netlog w) (draws w) p q (href w).
Definition set_href (u : option Url) (w : World) : World :=
  mkWorld (_config w) (_accessToken w) (_refreshToken w) (_user w) (sessionStorage w)
    (netlog w) (draws w) (pathname w) (search w) u.

(** The module as it is evaluated when the page loads. *)
Definition load (storage : gmap string string) (path : string)
    (q : list (string * string)) : World :=
  mkWorld None (storage !! "access_token") (storage !! "refresh_token") None
    storage [] 0%nat path q None.

Local Open Scope eff_scope.

Definition setItem (k v : string) : M World unit :=
  modify (fun w => set_storage (<[k := v]> (sessionStorage w)) w).
Definition removeItem (k : string) : M World unit :=
  modify (fun w => set_storage (delete k (sessionStorage w)) w).
Definition getItem (k : string) : M World (option string) :=
  gets (fun w => sessionStorage w !! k).

(** [b.toString(36).padStart(2, "0")] for a byte. *)
Definition digit36 (n : nat) : ascii :=
  if (n <? 10)%nat then ascii_of_nat (48 + n) else ascii_of_nat (87 + n).
Definition byte36 (b : nat) : string :=
  String (digit36 (b / 36)) (String (digit36 (b mod 36)) EmptyString).

Fixpoint take_string (n : nat) (s : string) : string :=
  match n, s with
  | O, _ => EmptyString
  | S n', String c s' => String c (take_string n' s')
  | S _, EmptyString => EmptyString
  end.

(** The request for the discovery document. *)
Definition discovery : Request :=
  mkRequest "GET" (OIDC_ISSUER ++ ".well-known/openid-configuration") [].

Section WithBrowser.
Variable env : Browser.

Definition REDIRECT_URI : string := origin env ++ "/callback".

Definition fetch (r : Request) : M World Response := fun w =>
  let w' := set_netlog (netlog w ++ [r]) w in
  match net env (length (netlog w)) r with
  | NetworkError => (Throw "TypeError: fetch failed", w')
  | Resp res => (Val res, w')
  end.

Definition randomString (len : nat) : M World string := fun w =>
  let bytes := randomBytes env (draws w) len in
  (Val (take_string len (String.concat "" (map byte36 bytes))),
   set_draws (S (draws w)) w).

Definition createPKCE : M World (string * string) :=
  verifier <- randomString 64 ;;
  ret (verifier, sha256_base64url env verifier).

(** [_config] holds a document while the one it holds is truthy: a falsy
    one is fetched again by the next call, whichever falsy value it is. *)
Definition getOIDCConfig : M World Document :=
  c <- gets _config ;;
  match c with
  | Some cfg => ret (Doc cfg)
  | None =>
      res <- fetch discovery ;;
      d <- lift_opt "SyntaxError" (jsonConfig env (text res)) ;;
      modify (set_config (cached d)) ;;;
      ret d
  end.

(** [JSON.parse(atob(token.split(".")[1]))]; [atob(undefined)] throws. *)
Definition decodePayload (token : string) : option jsval :=
  match split_second "." token with
  | Some seg => atobJson env seg
  | None => None
  end.

Definition userOfPayload (payload : jsval) : option User :=
  match prop payload "sub", prop payload "email", prop payload "name",
        prop payload "preferred_username" with
  | Some s, Some e, Some n, Some p =>
      Some (mkUser (or_else s (JStr "")) (or_else e (JStr ""))
                   (or_else (or_else n p) (JStr "")))
  | _, _, _, _ => None
  end.

Definition storeTokens (access : string) (refresh : option string) : M World unit :=
  modify (set_accessToken (Some access)) ;;;
  setItem "access_token" access ;;;
  when (truthyS refresh)
    (modify (set_refreshToken refresh) ;;;
     setItem "refresh_token" (default "" refresh)) ;;;
  try_catch
    (payload <- lift_opt "decode" (decodePayload access) ;;
     u <- lift_opt "TypeError" (userOfPayload payload) ;;
     modify (set_user (Some u)))
    (modify (set_user None)).

Definition clearTokens : M World unit :=
  modify (set_accessToken None) ;;;
  modify (set_refreshToken None) ;;;
  modify (set_user None) ;;;
  removeItem "access_token" ;;;
  removeItem "refresh_token".

(** [now] is what [Date.now()] returns during the call. *)
Definition isTokenExpired (now : Z) (token : string) : bool :=
  match decodePayload token with
  | Some payload =>
      match prop payload "exp" with
      | Some e => lt (mul (toNumber (stringToNumber env) e) 1000) (now + 60000)
      | None => true
      end
  | None => true
  end.

(** The seven [url.searchParams.set] of [login]. *)
Definition authorize (url : Url) (state challenge : string) : Url :=
  searchParams_set "code_challenge_method" "S256"
    (searchParams_set "code_challenge" challenge
      (searchParams_set "state" state
        (searchParams_set "scope" SCOPES
          (searchParams_set "response_type" "code"
            (searchParams_set "redirect_uri" REDIRECT_URI
              (searchParams_set "client_id" CLIENT_ID url)))))).

(** The URL [login] builds over the authorization endpoint of [cfg]. *)
Definition authorizeUrl (cfg : OIDCConfig) (state challenge : string) : Url :=
  authorize (mkUrl (authorization_endpoint cfg) []) state challenge.

(** [new URL] throws once the verifier and the state are stored. *)
Definition login : M World unit :=
  config <- getOIDCConfig ;;
  pk <- createPKCE ;;
  state <- randomString 32 ;;
  setItem "pkce_verifier" (fst pk) ;;;
  setItem "auth_state" state ;;;
  url <- lift_opt "TypeError" (newURL (canParse env) config authorization_endpoint) ;;
  modify (set_href (Some (authorize url state (snd pk)))).

Definition exchangeRequest (cfg : OIDCConfig) (code verifier : string) : Request :=
  mkRequest "POST" (token_endpoint cfg)
    [("grant_type", "authorization_code");
     ("code", code);
     ("redirect_uri", REDIRECT_URI);
     ("client_id", CLIENT_ID);
     ("code_verifier", verifier)].

Definition handleCallback : M World bool :=
  params <- gets search ;;
  let code := params_get "code" params in
  let state := params_get "state" params in
  let error := params_get "error" params in
  if truthyS error then ret false else
  if negb (truthyS code) then ret false else
  storedState <- getItem "auth_state" ;;
  if negb (bool_decide (state = storedState)) then ret false else
  verifier <- getItem "pkce_verifier" ;;
  if negb (truthyS verifier) then ret false else
  config <- getOIDCConfig ;;
  cfg <- lift_opt "TypeError" (fields config) ;;
  res <- fetch (exchangeRequest cfg (default "" code) (default "" verifier)) ;;
  if negb (ok res) then ret false else
  tokens <- lift_opt "SyntaxError" (jsonTokens env (text res)) ;;
  storeTokens (access_token tokens) (refresh_token tokens) ;;;
  removeItem "pkce_verifier" ;;;
  removeItem "auth_state" ;;;
  modify (set_location "/" []) ;;;
  ret true.

Definition refreshRequest (cfg : OIDCConfig) (refresh : string) : Request :=
  mkRequest "POST" (token_endpoint cfg)
    [("grant_type", "refresh_token");
     ("refresh_token", refresh);
     ("client_id", CLIENT_ID)].

Definition refreshAccessToken : M World bool :=
  r <- gets _refreshToken ;;
  if negb (truthyS r) then ret false else
  config <- getOIDCConfig ;;
  cfg <- lift_opt "TypeError" (fields config) ;;
  res <- fetch (refreshRequest cfg (default "" r)) ;;
  if negb (ok res) then clearTokens ;;; ret false else
  tokens <- lift_opt "SyntaxError" (jsonTokens env (text res)) ;;
  storeTokens (access_token tokens) (refresh_token tokens) ;;;
  ret true.

(** [_accessToken && !isTokenExpired(_accessToken)] *)
Definition fresh (now : Z) (a : option string) : bool :=
  truthyS a && negb (isTokenExpired now (default "" a)).

Definition getAccessToken (now : Z) : M World (option string) :=
  a <- gets _accessToken ;;
  if fresh now a then ret a else
  r <- gets _refreshToken ;;
  if truthyS r then
    okr <- refreshAccessToken ;;
    if okr then gets _accessToken else ret None
  else ret None.

Definition getUser (now : Z) (w : World) : option User :=
  if negb (truthyS (_accessToken w)) then None else
  if isTokenExpired now (default "" (_accessToken w)) && negb (truthyS (_refreshToken w))
  then None
  else _user w.

Definition isAuthenticated (now : Z) (w : World) : bool :=
  truthyS (_accessToken w) &&
  (negb (isTokenExpired now (default "" (_accessToken w))) || truthyS (_refreshToken w)).

Definition logout : M World unit :=
  clearTokens ;;;
  config <- getOIDCConfig ;;
  pk <- createPKCE ;;
  state <- randomString 32 ;;
  setItem "pkce_verifier" (fst pk) ;;;
  setItem "auth_state" state ;;;
  url <- lift_opt "TypeError" (newURL (canParse env) config authorization_endpoint) ;;
  modify (set_href (Some (searchParams_set "prompt" "login"
                            (authorize url state (snd pk))))).

Definition initAuth (now : Z) : M World bool :=
  p <- gets pathname ;;
  if String.eqb p "/callback" then handleCallback else
  a <- gets _accessToken ;;
  if truthyS a then
    if negb (isTokenExpired now (default "" a)) then
      r <- gets _refreshToken ;;
      storeTokens (default "" a) (if truthyS r then r else None) ;;;
      ret true
    else
      r <- gets _refreshToken ;;
      if truthyS r then refreshAccessToken else ret false
  else ret false.

(** The polls of [getAccessToken] at the successive instants [nows]. *)
Fixpoint polls (nows : list Z) (w : World)
    : list (Res (option string)) * World :=
  match nows with
  | [] => ([], w)
  | now :: rest =>
      let (r, w') := getAccessToken now w in
      let (rs, w'') := polls rest w' in
      (r :: rs, w'')
  end.

End WithBrowser.

(** The decoded user, when there is one, is the decoding of the access
    token held. *)
Definition user_of_token (env : Browser) (w : World) : Prop :=
  match _user w with
  | None => True
  | Some u =>
      exists t p, _accessToken w = Some t /\ decodePayload env t = Some p /\
                  userOfPayload p = Some u
  end.

(** The states of the module in a tab: the page loads over whatever the
    session storage holds, then the exported functions run. *)
Inductive reachable (env : Browser) : World -> Prop :=
| reach_load storage path q : reachable env (load storage path q)
| reach_login w : reachable env w -> reachable env (snd (login env w))
| reach_handleCallback w : reachable env w -> reachable env (snd (handleCallback env w))
| reach_getAccessToken now w :
    reachable env w -> reachable env (snd (getAccessToken env now w))
| reach_logout w : reachable env w -> reachable env (snd (logout env w))
| reach_initAuth now w : reachable env w -> reachable env (snd (initAuth env now w)).

(** A computation that keeps a property of the world, however it ends. *)
Definition preserves {A} (I : World -> Prop) (m : M World A) : Prop :=
  forall w, I w -> I (snd (m w)).

End Auth.

(* ===================================================================== *)
(** ** The backends: what they share *)
(* ===================================================================== *)

Module Server.
Import Js Net.

Record Todo := mkTodo {
  id : Z;
  text : string;
  completed : bool;
  created_at : Z
}.

(** The [todos] table, its [SERIAL] sequence and the statements run so far. *)
Record Db := mkDb {
  rows : list Todo;
  next_id : Z;
  statements : list string
}.

(** What the database and its driver do with a bound parameter. *)
Record Pg := mkPg {
  number_out : Z -> string;                       (* a JS number sent as text *)
  stringify : list (string * jsval) -> string;    (* an object sent as JSON text *)
  bool_in : string -> option bool;                (* text read as BOOLEAN *)
  int4_in : string -> option Z                    (* text read as INTEGER *)
}.

Inductive Route :=
| ListTodos
| CreateTodo
| PatchTodo (id : string)
| DeleteTodo (id : string)
| AuthMe
| AuthLogin
| AuthCallback
| AuthLogout.

Record HttpRequest := mkHttpRequest {
  route : Route;
  authorization : option string;       (* the Authorization header *)
  cookies : gmap string string;
  query : list (string * string);
  json : option jsval;                 (* c.req.json(); None when it throws *)
  arrival : Z                          (* NOW() while the request is served *)
}.

Record CookieOpts := mkCookieOpts {
  httpOnly : bool;
  secure : bool;
  sameSite : string;
  maxAge : Z;
  path : string
}.

Inductive CookieOp :=
| SetCookie (name value : string) (opts : CookieOpts)
| DeleteCookie (name : string).

Inductive Body :=
| JsonError (error : string)
| JsonRows (l : list Todo)
| JsonRow (t : Todo)
| JsonOk
| JsonUser (sub email name : jsval)
| Text (s : string)
| Empty.

Record HttpResponse := mkHttpResponse {
  code : Z;
  body : Body;
  setCookies : list CookieOp;
  location : option string
}.

Definition c_json (b : Body) (st : Z) : HttpResponse := mkHttpResponse st b [] None.
Definition c_text (s : string) (st : Z) : HttpResponse := mkHttpResponse st (Text s) [] None.
Definition c_redirect (to : string) (cs : list CookieOp) : HttpResponse :=
  mkHttpResponse 302 Empty cs (Some to).

(** The user stored on the request context by [c.set("user", ...)]. *)
Record User := mkUser {
  sub : jsval;
  email : jsval;
  name : jsval
}.

Record Ctx := mkCtx {
  req : HttpRequest;
  user : option User
}.

(** The process: the pool's database, the module-level caches, the
    requests sent to the provider and the session tokens signed. *)
Record World := mkWorld {
  db : Db;
  oidcConfig : option OIDCConfig;
  jwks : option string;
  netlog : list Request;
  uuids : nat;
  minted : list User
}.

Definition set_db (d : Db) (w : World) : World :=
  mkWorld d (oidcConfig w) (jwks w) (netlog w) (uuids w) (minted w).
Definition set_oidcConfig (c : option OIDCConfig) (w : World) : World :=
  mkWorld (db w) c (jwks w) (netlog w) (uuids w) (minted w).
Definition set_jwks (j : option string) (w : World) : World :=
  mkWorld (db w) (oidcConfig w) j (netlog w) (uuids w) (minted w).
Definition set_netlog (l : list Request) (w : World) : World :=
  mkWorld (db w) (oidcConfig w) (jwks w) l (uuids w) (minted w).
Definition set_uuids (n : nat) (w : World) : World :=
  mkWorld (db w) (oidcConfig w) (jwks w) (netlog w) n (minted w).
Definition set_minted (l : list User) (w : World) : World :=
  mkWorld (db w) (oidcConfig w) (jwks w) (netlog w) (uuids w) l.

Local Open Scope eff_scope.

(** An exception that escapes a handler is answered by the framework. *)
Definition serve (h : M World HttpResponse) (w : World) : HttpResponse * World :=
  match h w with
  | (Val r, w') => (r, w')
  | (Throw _, w') => (c_text "Internal Server Error" 500, w')
  end.

(** *** The todo routes, the same in the three backends *)

Fixpoint insert_desc (t : Todo) (l : list Todo) : list Todo :=
  match l with
  | [] => [t]
  | t' :: l' => if created_at t' <? created_at t then t :: l
                else t' :: insert_desc t l'
  end.

(** [ORDER BY created_at DESC] *)
Definition order_desc (l : list Todo) : list Todo := foldr insert_desc [] l.

Definition run (sql : string) : M World unit :=
  modify (fun w => set_db (mkDb (rows (db w)) (next_id (db w))
                                (statements (db w) ++ [sql])) w).

Definition set_rows (l : list Todo) : M World unit :=
  modify (fun w => set_db (mkDb l (next_id (db w)) (statements (db w))) w).

Definition nextval : M World Z := fun w =>
  (Val (next_id (db w)),
   set_db (mkDb (rows (db w)) (next_id (db w) + 1) (statements (db w))) w).

Definition placeholder (i : nat) : string :=
  match i with
  | 1%nat => "$1"
  | 2%nat => "$2"
  | _ => "$3"
  end.

Section Todos.
Variable pg : Pg.

(** A value bound to a TEXT column; [None] is NULL. *)
Definition text_param (v : jsval) : option string :=
  match v with
  | JUndefined | JNull => None
  | JBool b => Some (if b then "true" else "false")
  | JNum z => Some (number_out pg z)
  | JStr s => Some s
  | JObj fs => Some (stringify pg fs)
  end.

(** A value bound to a BOOLEAN column; the statement fails when the
    text is no boolean literal. *)
Definition bool_param (v : jsval) : M World (option bool) :=
  match v with
  | JUndefined | JNull => ret None
  | JBool b => ret (Some b)
  | JNum z => b <- lift_opt "invalid input syntax" (bool_in pg (number_out pg z)) ;; ret (Some b)
  | JStr s => b <- lift_opt "invalid input syntax" (bool_in pg s) ;; ret (Some b)
  | JObj fs => b <- lift_opt "invalid input syntax" (bool_in pg (stringify pg fs)) ;; ret (Some b)
  end.

Definition getTodos (c : Ctx) : M World HttpResponse :=
  run "SELECT * FROM todos ORDER BY created_at DESC" ;;;
  l <- gets (fun w => rows (db w)) ;;
  ret (c_json (JsonRows (order_desc l)) 200).

Definition postTodo (c : Ctx) : M World HttpResponse :=
  b <- lift_opt "SyntaxError" (json (req c)) ;;
  text <- lift_opt "TypeError" (prop b "text") ;;
  match text with
  | JUndefined | JNull => ret (c_json (JsonError "text is required") 400)
  | JStr s =>
      if String.eqb (trim s) "" then ret (c_json (JsonError "text is required") 400)
      else
        run "INSERT INTO todos (text) VALUES ($1) RETURNING *" ;;;
        n <- nextval ;;
        l <- gets (fun w => rows (db w)) ;;
        let t := mkTodo n (trim s) false (arrival (req c)) in
        set_rows (l ++ [t]) ;;;
        ret (c_json (JsonRow t) 201)
  | _ => throw "TypeError: text.trim is not a function"
  end.

Definition defined (v : jsval) : bool :=
  match v with
  | JUndefined => false
  | _ => true
  end.

(** The two optional assignments of the UPDATE, as [sets] and [vals]. *)
Definition update_sql (with_text with_completed : bool) : string :=
  let sets :=
    app (if with_text then ["text = " ++ placeholder 1] else [])
        (if with_completed
         then ["completed = " ++ placeholder (if with_text then 2 else 1)] else []) in
  let i := S (length sets) in
  "UPDATE todos SET " ++ String.concat ", " sets ++
  " WHERE id = " ++ placeholder i ++ " RETURNING *".

Definition apply_update (with_text : bool) (t : option string)
    (with_completed : bool) (d : option bool) (r : Todo) : option Todo :=
  match (if with_text then t else Some (text r)),
        (if with_completed then d else Some (completed r)) with
  | Some t', Some d' => Some (mkTodo (id r) t' d' (created_at r))
  | _, _ => None      (* NULL in a NOT NULL column *)
  end.

Fixpoint update_rows (f : Todo -> option Todo) (n : Z) (l : list Todo)
    : option (list Todo * list Todo) :=
  match l with
  | [] => Some ([], [])
  | r :: l' =>
      match update_rows f n l' with
      | None => None
      | Some (rest, hit) =>
          if id r =? n then
            match f r with
            | Some r' => Some (r' :: rest, r' :: hit)
            | None => None
            end
          else Some (r :: rest, hit)
      end
  end.

Definition patchTodo (ident : string) (c : Ctx) : M World HttpResponse :=
  b <- lift_opt "SyntaxError" (json (req c)) ;;
  text <- lift_opt "TypeError" (prop b "text") ;;
  done <- lift_opt "TypeError" (prop b "completed") ;;
  if negb (defined text) && negb (defined done)
  then ret (c_json (JsonError "nothing to update") 400)
  else
    run (update_sql (defined text) (defined done)) ;;;
    d <- bool_param done ;;
    n <- lift_opt "invalid input syntax" (int4_in pg ident) ;;
    l <- gets (fun w => rows (db w)) ;;
    res <- lift_opt "violates not-null constraint"
             (update_rows (apply_update (defined text) (text_param text)
                                        (defined done) d) n l) ;;
    set_rows (fst res) ;;;
    match snd res with
    | [] => ret (c_json (JsonError "not found") 404)
    | r :: _ => ret (c_json (JsonRow r) 200)
    end.

Definition deleteTodo (ident : string) (c : Ctx) : M World HttpResponse :=
  run "DELETE FROM todos WHERE id = $1" ;;;
  n <- lift_opt "invalid input syntax" (int4_in pg ident) ;;
  l <- gets (fun w => rows (db w)) ;;
  let keep := filter (fun r => bool_decide (id r ≠ n)) l in
  set_rows keep ;;;
  if (length keep =? length l)%nat
  then ret (c_json (JsonError "not found") 404)
  else ret (c_json JsonOk 200).

End Todos.

Definition not_found : HttpResponse := c_text "404 Not Found" 404.

End Server.

(* ===================================================================== *)
(** ** Backend with bearer tokens verified against the provider's keys *)
(* ===================================================================== *)

Module Bearer.
Import Js Net Server.

(** What the process takes from its environment. *)
Record Host := mkHost {
  OIDC_ISSUER : string;
  jwtVerify : string -> option jsval;
      (* jose.jwtVerify(token, getJWKS(), {issuer}); None when it throws *)
  pg : Pg
}.

Local Open Scope eff_scope.

Section WithHost.
Variable env : Host.

Definition userOf (payload : jsval) : User :=
  match payload with
  | JObj fs =>
      mkUser (assoc "sub" fs)
             (or_else (assoc "email" fs) (JStr ""))
             (or_else (or_else (assoc "name" fs) (assoc "preferred_username" fs)) (JStr ""))
  | _ => mkUser JUndefined (JStr "") (JStr "")
  end.

Definition requireAuth (c : Ctx) (next : Ctx -> M World HttpResponse)
    : M World HttpResponse :=
  match authorization (req c) with
  | Some authHeader =>
      if startsWith "Bearer " authHeader then
        let token := slice 7 authHeader in
        match jwtVerify env token with
        | Some payload => next (mkCtx (req c) (Some (userOf payload)))
        | None => ret (c_json (JsonError "invalid_token") 401)
        end
      else ret (c_json (JsonError "unauthorized") 401)
  | None => ret (c_json (JsonError "unauthorized") 401)
  end.

Definition app (r : HttpRequest) : M World HttpResponse :=
  let c := mkCtx r None in
  match route r with
  | ListTodos => requireAuth c getTodos
  | CreateTodo => requireAuth c postTodo
  | PatchTodo i => requireAuth c (patchTodo (pg env) i)
  | DeleteTodo i => requireAuth c (deleteTodo (pg env) i)
  | _ => ret not_found
  end.

Definition handle (r : HttpRequest) (w : World) : HttpResponse * World :=
  serve (app r) w.

End WithHost.

End Bearer.

(* ===================================================================== *)
(** ** Backend without authentication *)
(* ===================================================================== *)

Module Open.
Import Js Net Server.

Section WithPg.
Variable pg : Pg.

Definition app (r : HttpRequest) : M World HttpResponse :=
  let c := mkCtx r None in
  match route r with
  | ListTodos => getTodos c
  | CreateTodo => postTodo c
  | PatchTodo i => patchTodo pg i c
  | DeleteTodo i => deleteTodo pg i c
  | _ => ret not_found
  end.

Definition handle (r : HttpRequest) (w : World) : HttpResponse * World :=
  serve (app r) w.

End WithPg.

End Open.

(* ===================================================================== *)
(** ** Backend that ends the OIDC flow and issues a session cookie *)
(* ===================================================================== *)

Module Session.
Import Js Net Server.

Record Host := mkHost {
  OIDC_ISSUER : string;
  CLIENT_ID : string;
  CLIENT_SECRET : string;
  REDIRECT_URI : string;
  APP_URL : string;
  net : nat -> Request -> FetchResult;            (* answer to the n-th request *)
  jsonConfig : string -> option Document;         (* res.json() of discovery *)
  jsonTokens : string -> option Tokens;           (* tokenRes.json() *)
  jsonJwks : string -> option string;             (* res.json() of the key set *)
  createLocalJWKSet : string -> option string;    (* None when it throws *)
  verifyIdToken : string -> string -> option jsval;
      (* jose.jwtVerify(id_token, jwks, {issuer, audience}); None when it throws *)
  verifySession : string -> option jsval;
      (* jose.jwtVerify(token, sessionKey); None when it throws *)
  signSession : User -> Z -> string;              (* SignJWT(...).sign(sessionKey), 30d from now *)
  randomUUID : nat -> string;                     (* crypto.randomUUID(), n-th draw *)
  pg : Pg;
  canParse : string -> bool;                      (* URL.canParse(s): new URL(s) returns *)
  toString : Url -> string;                       (* url.toString() *)
  errorKeepsHeaders : bool
      (* whether the framework's answer to an exception carries the
         headers the handler has written on the context *)
}.

Local Open Scope eff_scope.

Definition flowCookie : CookieOpts := mkCookieOpts true true "Lax" 300 "/".
Definition sessionCookie : CookieOpts :=
  mkCookieOpts true true "Lax" (30 * 24 * 60 * 60) "/".

Section WithHost.
Variable env : Host.

Definition fetch (r : Request) : M World Response := fun w =>
  let w' := set_netlog (netlog w ++ [r]) w in
  match net env (length (netlog w)) r with
  | NetworkError => (Throw "TypeError: fetch failed", w')
  | Resp res => (Val res, w')
  end.

Definition crypto_randomUUID : M World string := fun w =>
  (Val (randomUUID env (uuids w)), set_uuids (S (uuids w)) w).

(** [oidcConfig] holds a document while the one it holds is truthy. *)
Definition getOIDCConfig : M World Document :=
  c <- gets oidcConfig ;;
  match c with
  | Some cfg => ret (Doc cfg)
  | None =>
      res <- fetch (mkRequest "GET" (OIDC_ISSUER env ++ ".well-known/openid-configuration") []) ;;
      d <- lift_opt "SyntaxError" (jsonConfig env (Net.text res)) ;;
      modify (set_oidcConfig (cached d)) ;;;
      ret d
  end.

(** The framework's answer to an exception that escapes a handler once
    the handler has written the cookies [written] on the context: the
    same 500 as [serve] gives, with those cookies when the framework
    keeps the headers of the context for its error answer. *)
Definition onError (written : list CookieOp) : HttpResponse :=
  mkHttpResponse 500 (Text "Internal Server Error")
    (if errorKeepsHeaders env then written else []) None.

Definition getJWKS : M World string :=
  j <- gets jwks ;;
  ks <- match j with
        | Some ks => ret ks
        | None =>
            config <- getOIDCConfig ;;
            cfg <- lift_opt "TypeError" (fields config) ;;
            res <- fetch (mkRequest "GET" (jwks_uri cfg) []) ;;
            ks <- lift_opt "SyntaxError" (jsonJwks env (Net.text res)) ;;
            modify (set_jwks (Some ks)) ;;;
            ret ks
        end ;;
  lift_opt "JWKSInvalid" (createLocalJWKSet env ks).

Definition getSession (c : Ctx) : option jsval :=
  let token := cookies (req c) !! "session" in
  if negb (truthyS token) then None
  else verifySession env (default "" token).

Definition claim (payload : jsval) (k : string) : jsval :=
  match payload with
  | JObj fs => assoc k fs
  | _ => JUndefined
  end.

Definition requireAuth (c : Ctx) (next : Ctx -> M World HttpResponse)
    : M World HttpResponse :=
  match getSession c with
  | None => ret (c_json (JsonError "unauthorized") 401)
  | Some u =>
      next (mkCtx (req c) (Some (mkUser (claim u "sub") (claim u "email") (claim u "name"))))
  end.

Definition me (c : Ctx) : M World HttpResponse :=
  match getSession c with
  | None => ret (c_json (JsonError "unauthorized") 401)
  | Some u => ret (c_json (JsonUser (claim u "sub") (claim u "email") (claim u "name")) 200)
  end.

(** The six [url.searchParams.set] of the login route. *)
Definition authorize (url : Url) (state nonce : string) : Url :=
  searchParams_set "nonce" nonce
    (searchParams_set "state" state
      (searchParams_set "scope" "openid email profile"
        (searchParams_set "response_type" "code"
          (searchParams_set "redirect_uri" (REDIRECT_URI env)
            (searchParams_set "client_id" (CLIENT_ID env) url))))).

(** The URL the login route builds over the authorization endpoint of [cfg]. *)
Definition authorizeUrl (cfg : OIDCConfig) (state nonce : string) : Url :=
  authorize (mkUrl (authorization_endpoint cfg) []) state nonce.

(** The TypeError of [new URL] comes after the two cookies are written:
    what the client then gets is the framework's answer to it. *)
Definition login (c : Ctx) : M World HttpResponse :=
  config <- getOIDCConfig ;;
  state <- crypto_randomUUID ;;
  nonce <- crypto_randomUUID ;;
  let written := [SetCookie "auth_state" state flowCookie;
                  SetCookie "auth_nonce" nonce flowCookie] in
  match newURL (canParse env) config authorization_endpoint with
  | None => ret (onError written)
  | Some url => ret (c_redirect (toString env (authorize url state nonce)) written)
  end.

(** [code!] inside [new URLSearchParams({...})]: a missing value is sent
    as the text of [undefined]. *)
Definition exchangeRequest (cfg : OIDCConfig) (code : option string) : Request :=
  mkRequest "POST" (token_endpoint cfg)
    [("grant_type", "authorization_code");
     ("code", default "undefined" code);
     ("redirect_uri", REDIRECT_URI env);
     ("client_id", CLIENT_ID env);
     ("client_secret", CLIENT_SECRET env)].

Definition sessionClaims (idToken : jsval) : User :=
  mkUser (claim idToken "sub")
         (or_else (claim idToken "email") (JStr ""))
         (or_else (or_else (claim idToken "name") (claim idToken "preferred_username"))
                  (JStr "")).

Definition sign (u : User) (now : Z) : M World string := fun w =>
  (Val (signSession env u now), set_minted (minted w ++ [u]) w).

Definition callback (c : Ctx) : M World HttpResponse :=
  let code := params_get "code" (Server.query (req c)) in
  let state := params_get "state" (Server.query (req c)) in
  let error := params_get "error" (Server.query (req c)) in
  if truthyS error then
    ret (c_redirect (APP_URL env ++ "?error=" ++ default "" error) [])
  else
  let storedState := cookies (req c) !! "auth_state" in
  let storedNonce := cookies (req c) !! "auth_nonce" in
  if negb (truthyS state) || negb (bool_decide (state = storedState)) then
    ret (c_text "Invalid state parameter" 400)
  else
  config <- getOIDCConfig ;;
  cfg <- lift_opt "TypeError" (fields config) ;;
  tokenRes <- fetch (exchangeRequest cfg code) ;;
  if negb (ok tokenRes) then ret (c_text "Token exchange failed" 500) else
  tokens <- lift_opt "SyntaxError" (jsonTokens env (Net.text tokenRes)) ;;
  keys <- getJWKS ;;
  match verifyIdToken env keys (id_token tokens) with
  | None => ret (c_text "ID token verification failed" 400)
  | Some idToken =>
      if truthyS storedNonce &&
         strict_neq_str (claim idToken "nonce") (default "" storedNonce)
      then ret (c_text "Invalid nonce" 400)
      else
        session <- sign (sessionClaims idToken) (arrival (req c)) ;;
        ret (c_redirect (APP_URL env)
               [SetCookie "session" session sessionCookie;
                DeleteCookie "auth_state";
                DeleteCookie "auth_nonce"])
  end.

(** The steps of [callback] up to the verification of the ID token:
    the verified payload, or nothing when the flow ends before. *)
Definition idTokenOfFlow (c : Ctx) : M World (option jsval) :=
  let code := params_get "code" (Server.query (req c)) in
  let state := params_get "state" (Server.query (req c)) in
  let error := params_get "error" (Server.query (req c)) in
  if truthyS error then ret None else
  let storedState := cookies (req c) !! "auth_state" in
  if negb (truthyS state) || negb (bool_decide (state = storedState)) then ret None
  else
  config <- getOIDCConfig ;;
  cfg <- lift_opt "TypeError" (fields config) ;;
  tokenRes <- fetch (exchangeRequest cfg code) ;;
  if negb (ok tokenRes) then ret None else
  tokens <- lift_opt "SyntaxError" (jsonTokens env (Net.text tokenRes)) ;;
  keys <- getJWKS ;;
  ret (verifyIdToken env keys (id_token tokens)).

(** The TypeError of [new URL] comes after the deletion of the session
    cookie is written: what the client then gets is the framework's answer
    to it. *)
Definition logout (c : Ctx) : M World HttpResponse :=
  config <- getOIDCConfig ;;
  let written := [DeleteCookie "session"] in
  match newURL (canParse env) config end_session_endpoint with
  | None => ret (onError written)
  | Some logoutUrl =>
      ret (c_redirect
             (toString env (searchParams_set "post_logout_redirect_uri" (APP_URL env)
                              logoutUrl))
             written)
  end.

Definition app (r : HttpRequest) : M World HttpResponse :=
  let c := mkCtx r None in
  match route r with
  | AuthMe => me c
  | AuthLogin => login c
  | AuthCallback => callback c
  | AuthLogout => logout c
  | ListTodos => requireAuth c getTodos
  | CreateTodo => requireAuth c postTodo
  | PatchTodo i => requireAuth c (patchTodo (pg env) i)
  | DeleteTodo i => requireAuth c (deleteTodo (pg env) i)
  end.

Definition handle (r : HttpRequest) (w : World) : HttpResponse * World :=
  serve (app r) w.

End WithHost.

(** The user agent's cookie jar after a response. *)
Definition store_cookie (jar : gmap string string) (op : CookieOp) : gmap string string :=
  match op with
  | SetCookie n v _ => <[n := v]> jar
  | DeleteCookie n => delete n jar
  end.

Definition receive (jar : gmap string string) (r : HttpResponse) : gmap string string :=
  foldl store_cookie jar (setCookies r).

End Session.

(* ===================================================================== *)
(** ** Concrete environments, to run the code on *)
(* ===================================================================== *)

Module Demo.
Import Js Net.

Definition cfg0 : OIDCConfig :=
  mkConfig "https://auth.snir.sh/authorize" "https://auth.snir.sh/token"
           "https://auth.snir.sh/end-session" "https://auth.snir.sh/jwks".

Definition grant (r : Request) : string := default "" (params_get "grant_type" (form r)).

(** Two token payloads: one expiring at second 2000, one at second 1030. *)
Definition payload_live : jsval :=
  JObj [("sub", JStr "u1"); ("email", JStr "u1@example.org"); ("exp", JNum 2000)].
Definition payload_soon : jsval :=
  JObj [("sub", JStr "u1"); ("email", JStr "u1@example.org"); ("exp", JNum 1030)].

Definition atob_json (seg : string) : option jsval :=
  if String.eqb seg "live" then Some payload_live
  else if String.eqb seg "soon" then Some payload_soon
  else None.

Definition json_tokens (s : string) : option Tokens :=
  if String.eqb s "tokens" then Some (mkTokens "h.live.s" (Some "r2") "id.live.s")
  else if String.eqb s "stale" then Some (mkTokens "h.soon.s" (Some "r2") "id.soon.s")
  else None.

(** A provider that answers a refresh with [refresh_status] and
    [refresh_body], and a code exchange with fresh tokens. *)
Definition provider (refresh_status : Z) (refresh_body : string)
    (n : nat) (r : Request) : FetchResult :=
  if String.eqb (grant r) "refresh_token" then Resp (mkResponse refresh_status refresh_body)
  else if String.eqb (grant r) "authorization_code" then Resp (mkResponse 200 "tokens")
  else Resp (mkResponse 200 "configuration").

Definition browser (refresh_status : Z) (refresh_body : string) : Auth.Browser :=
  Auth.mkBrowser "https://todo.snir.sh"
    (provider refresh_status refresh_body)
    (fun _ => Some (Doc cfg0))
    json_tokens
    atob_json
    (fun _ => NaN)
    (fun n len => repeat (n + 7)%nat len)
    (fun v => "challenge-of-" ++ v)
    (startsWith "https://").

(** Date.now() = 1000000 ms: second 1030 is 30 s ahead. *)
Definition now0 : Z := 1000000.

Definition user1 : Auth.User :=
  Auth.mkUser (JStr "u1") (JStr "u1@example.org") (JStr "").

(** A tab holding an access token that expires in 30 s, and a refresh token. *)
Definition tab_soon : Auth.World :=
  Auth.mkWorld (Some cfg0) (Some "h.soon.s") (Some "r1") (Some user1)
    (<["access_token" := "h.soon.s"]> (<["refresh_token" := "r1"]> ∅))
    [] 0%nat "/" [] None.

(** The same tab without a refresh token. *)
Definition tab_soon_only : Auth.World :=
  Auth.mkWorld (Some cfg0) (Some "h.soon.s") None (Some user1)
    (<["access_token" := "h.soon.s"]> ∅)
    [] 0%nat "/" [] None.

(** A tab that returns from the provider with a code and a state. *)
Definition tab_callback (state : string) : Auth.World :=
  Auth.load (<["pkce_verifier" := "verifier-1"]> (<["auth_state" := "state-1"]> ∅))
    "/callback" [("code", "code-1"); ("state", state)].

(** A freshly opened tab, the same tab once [login] has run, and the tab
    that the provider's redirect opens next, with the code and the state. *)
Definition tab_start : Auth.World := Auth.load ∅ "/" [].
Definition tab_after_login : Auth.World :=
  snd (Auth.login (browser 200 "tokens") tab_start).
Definition state0 : string := "08080808080808080808080808080808".
Definition tab_returned : Auth.World :=
  Auth.load (Auth.sessionStorage tab_after_login) "/callback"
    [("code", "code-1"); ("state", state0)].

(** A database whose INTEGER input reads the texts 1 and 2. *)
Definition pg0 : Server.Pg :=
  Server.mkPg (fun _ => "0") (fun _ => "{}") (fun _ => None)
    (fun s => if String.eqb s "1" then Some 1
              else if String.eqb s "2" then Some 2 else None).

Definition issuer0 : string := "https://auth.snir.sh/application/o/todo-app/".

(** Only the token [good] verifies. *)
Definition bearer_host : Bearer.Host :=
  Bearer.mkHost issuer0
    (fun t => if String.eqb t "good" then Some payload_live else None) pg0.

Definition id_payload : jsval :=
  JObj [("sub", JStr "u1"); ("email", JStr "u1@example.org"); ("nonce", JStr "uuid-1")].

(** A serialisation of a URL, the query left as it is. *)
Definition url_text (u : Url) : string :=
  base u ++ "?" ++
  String.concat "&" (map (fun kv => fst kv ++ "=" ++ snd kv) (Net.query u)).

(** A provider that answers the code exchange with [exchange_status]; the
    ID token it issues carries the nonce [uuid-1]. *)
Definition session_host (exchange_status : Z) : Session.Host :=
  Session.mkHost issuer0 "client-1" "secret-1"
    "https://todo.snir.sh/api/auth/callback" "https://todo.snir.sh"
    (fun n r => if String.eqb (grant r) "authorization_code"
                then Resp (mkResponse exchange_status "tokens")
                else Resp (mkResponse 200 "document"))
    (fun _ => Some (Doc cfg0))
    json_tokens
    (fun s => Some s)
    (fun s => Some s)
    (fun keys tok => if String.eqb tok "id.live.s" then Some id_payload else None)
    (fun t => if String.eqb t "session-u1" then Some payload_live else None)
    (fun u now => "session-u1")
    (fun n => match n with O => "uuid-0" | _ => "uuid-1" end)
    pg0
    (startsWith "https://")
    url_text
    true.

(** A provider whose ID token carries the nonce [uuid-9], whatever nonce
    the login sent. *)
Definition replayed_payload : jsval :=
  JObj [("sub", JStr "u1"); ("email", JStr "u1@example.org"); ("nonce", JStr "uuid-9")].

Definition replay_host : Session.Host :=
  Session.mkHost issuer0 "client-1" "secret-1"
    "https://todo.snir.sh/api/auth/callback" "https://todo.snir.sh"
    (fun n r => if String.eqb (grant r) "authorization_code"
                then Resp (mkResponse 200 "tokens")
                else Resp (mkResponse 200 "document"))
    (fun _ => Some (Doc cfg0))
    json_tokens
    (fun s => Some s)
    (fun s => Some s)
    (fun keys tok => Some replayed_payload)
    (fun t => if String.eqb t "session-u1" then Some payload_live else None)
    (fun u now => "session-u1")
    (fun n => match n with O => "uuid-0" | _ => "uuid-1" end)
    pg0
    (startsWith "https://")
    url_text
    true.

(** One todo is stored; nothing is cached yet. *)
Definition world0 : Server.World :=
  Server.mkWorld (Server.mkDb [Server.mkTodo 1 "Buy milk" false 10] 2 [])
    None None [] 0%nat [].

Definition get_todos (authorization : option string) (cookies : gmap string string)
    : Server.HttpRequest :=
  Server.mkHttpRequest Server.ListTodos authorization cookies [] None 100.

(** PATCH /api/todos/1 with the body {"text": "  "}. *)
Definition patch_blank : Server.HttpRequest :=
  Server.mkHttpRequest (Server.PatchTodo "1") None ∅ []
    (Some (JObj [("text", JStr "  ")])) 100.

(** The redirect back from the provider, after a login that issued the
    state [uuid-0] and the nonce [nonce]. *)
Definition callback_request (state nonce : string) : Server.HttpRequest :=
  Server.mkHttpRequest Server.AuthCallback None
    (<["auth_state" := "uuid-0"]> (<["auth_nonce" := nonce]> ∅))
    [("code", "code-1"); ("state", state)] None 100.

(** GET /api/auth/login, and the redirect back from the provider when
    the user agent sends the state cookie without the nonce cookie. *)
Definition login_request : Server.HttpRequest :=
  Server.mkHttpRequest Server.AuthLogin None ∅ [] None 90.

Definition callback_without_nonce : Server.HttpRequest :=
  Server.mkHttpRequest Server.AuthCallback None
    (<["auth_state" := "uuid-0"]> ∅)
    [("code", "code-1"); ("state", "uuid-0")] None 100.

End Demo.

(* ===================================================================== *)
(** ** The three backends side by side *)
(* ===================================================================== *)

Module Variants.
Import Js Net Server.

Inductive Backend :=
| BearerBackend (env : Bearer.Host)
| OpenBackend (pg : Pg)
| SessionBackend (env : Session.Host).

Definition handle (b : Backend) : HttpRequest -> World -> HttpResponse * World :=
  match b with
  | BearerBackend env => Bearer.handle env
  | OpenBackend pg => Open.handle pg
  | SessionBackend env => Session.handle env
  end.

(** The todo endpoints. *)
Definition protected (r : Route) : bool :=
  match r with
  | ListTodos | CreateTodo | PatchTodo _ | DeleteTodo _ => true
  | _ => false
  end.

(** The token of a well-formed [Authorization: Bearer <token>] header. *)
Definition bearerToken (r : HttpRequest) : option string :=
  match authorization r with
  | Some h => if startsWith "Bearer " h then Some (slice 7 h) else None
  | None => None
  end.

(** The claims of the credential a request carries, when it carries a
    valid one: a bearer token, or a session cookie, that verifies. The
    backend without authentication knows no credential. *)
Definition credential (b : Backend) (r : HttpRequest) : option jsval :=
  match b with
  | BearerBackend env =>
      match bearerToken r with
      | Some t => Bearer.jwtVerify env t
      | None => None
      end
  | OpenBackend _ => None
  | SessionBackend env =>
      match cookies r !! "session" with
      | Some t => Session.verifySession env t
      | None => None
      end
  end.

Definition unauthorized : HttpResponse := c_json (JsonError "unauthorized") 401.

(** The rejection as the specification words it. *)
Definition rejects_unauthorized (b : Backend) (r : HttpRequest) (w : World) : Prop :=
  protected (route r) = true -> credential b r = None ->
  handle b r w = (unauthorized, w).

(** Whether the backend has an auth middleware at all. *)
Definition guarded (b : Backend) : bool :=
  match b with
  | OpenBackend _ => false
  | _ => true
  end.

(** The error text of the 401 a guarded backend answers. *)
Definition rejection (b : Backend) (r : HttpRequest) : string :=
  match b, bearerToken r with
  | BearerBackend _, Some _ => "invalid_token"
  | _, _ => "unauthorized"
  end.

(** A request stripped of whatever credential it carries. *)
Definition anonymous (r : HttpRequest) : HttpRequest :=
  mkHttpRequest (route r) None ∅ (Server.query r) (json r) (arrival r).

End Variants.

(* ===================================================================== *)
(** ** The nonce check, as the specification words it *)
(* ===================================================================== *)

Module Worded.
Import Js Net Server.

(** For a login that issued the nonce [issued]: a verified ID token whose
    nonce claim differs ends the callback without a cookie and without a
    session signed. *)
Definition nonce_mismatch_is_fatal (env : Session.Host) (issued : string)
    (c : Ctx) (w : World) : Prop :=
  forall idToken w1,
    Session.idTokenOfFlow env c w = (Val (Some idToken), w1) ->
    Session.claim idToken "nonce" <> JStr issued ->
    exists r w',
      Session.callback env c w = (Val r, w') /\
      setCookies r = [] /\
      minted w' = minted w.

End Worded.

(* ===================================================================== *)
(** ** The encoding of the PKCE challenge *)
(* ===================================================================== *)

Module Pkce.

(** The alphabet of [btoa]. *)
Definition b64char (n : nat) : ascii :=
  if (n <? 26)%nat then ascii_of_nat (65 + n)
  else if (n <? 52)%nat then ascii_of_nat (71 + n)
  else if (n <? 62)%nat then ascii_of_nat (n - 4)
  else if (n =? 62)%nat then "+"%char
  else "/"%char.

(** [btoa(String.fromCharCode(...new Uint8Array(buffer)))] *)
Fixpoint btoa (bytes : list nat) : string :=
  match bytes with
  | [] => EmptyString
  | [a] =>
      String (b64char (a / 4)) (String (b64char (a mod 4 * 16)) "==")
  | [a; b] =>
      String (b64char (a / 4))
        (String (b64char (a mod 4 * 16 + b / 16))
           (String (b64char (b mod 16 * 4)) "="))
  | a :: b :: c :: rest =>
      String (b64char (a / 4))
        (String (b64char (a mod 4 * 16 + b / 16))
           (String (b64char (b mod 16 * 4 + c / 64))
              (String (b64char (c mod 64)) (btoa rest))))
  end.

(** [s.replace(/c/g, d)] for single characters. *)
Fixpoint replace_char (c d : ascii) (s : string) : string :=
  match s with
  | EmptyString => EmptyString
  | String x s' => String (if Ascii.eqb x c then d else x) (replace_char c d s')
  end.

(** [s.replace(/=+$/, "")] *)
Fixpoint strip_pad (s : string) : string :=
  match s with
  | EmptyString => EmptyString
  | String x s' =>
      match strip_pad s' with
      | EmptyString => if Ascii.eqb x "="%char then EmptyString else String x EmptyString
      | t => String x t
      end
  end.

Definition base64url (buffer : list nat) : string :=
  strip_pad (replace_char "/"%char "_"%char (replace_char "+"%char "-"%char (btoa buffer))).

(** What the two replacements make of one character. *)
Definition tr (x : ascii) : ascii :=
  let y := if Ascii.eqb x "+"%char then "-"%char else x in
  if Ascii.eqb y "/"%char then "_"%char else y.

Fixpoint map_chars (f : ascii -> ascii) (s : string) : string :=
  match s with
  | EmptyString => EmptyString
  | String x s' => String (f x) (map_chars f s')
  end.

(** The characters RFC 7636 allows in a challenge, as far as base64url
    produces them: letters, digits, [-] and [_]. *)
Definition url_safe (x : ascii) : bool :=
  let n := nat_of_ascii x in
  ((65 <=? n) && (n <=? 90) || (97 <=? n) && (n <=? 122) ||
   (48 <=? n) && (n <=? 57) || (n =? 45) || (n =? 95))%nat.

Fixpoint all_chars (p : ascii -> bool) (s : string) : bool :=
  match s with
  | EmptyString => true
  | String x s' => p x && all_chars p s'
  end.

(** The characters of [b.toString(36)]: digits and lower-case letters. *)
Definition base36 (x : ascii) : bool :=
  let n := nat_of_ascii x in
  ((48 <=? n) && (n <=? 57) || (97 <=? n) && (n <=? 122))%nat.

End Pkce.

(* ===================================================================== *)
(** ** The todo screen of the frontends *)
(* ===================================================================== *)

Module App.
Import Js Net Server.

(** A call to the API as the screen issues it: the route, the
    Authorization header, and the JSON body when there is one. *)
Record ApiCall := mkApiCall {
  call_route : Route;
  call_authorization : option string;
  call_body : option jsval
}.

(** The request the backend receives: the user agent adds its cookies. *)
Definition deliver (c : ApiCall) (jar : gmap string string) (arrival : Z) : HttpRequest :=
  mkHttpRequest (call_route c) (call_authorization c) jar [] (call_body c) arrival.

Section Screen.
(** The text of a number inside a template literal. *)
Variable show_number : Z -> string.

(** [add]: nothing is sent for a blank input. *)
Definition add (input : string) : option (Route * option jsval) :=
  if String.eqb (trim input) "" then None
  else Some (CreateTodo, Some (JObj [("text", JStr (trim input))])).

Definition toggle (t : Todo) : Route * option jsval :=
  (PatchTodo (show_number (id t)),
   Some (JObj [("completed", JBool (negb (completed t)))])).

Definition remove (ident : Z) : Route * option jsval :=
  (DeleteTodo (show_number ident), None).

Definition loadTodos : Route * option jsval := (ListTodos, None).

(** What the user does on the screen. *)
Inductive Action :=
| Add (input : string)
| Toggle (t : Todo)
| Remove (ident : Z)
| Load.

Definition request (a : Action) : option (Route * option jsval) :=
  match a with
  | Add input => add input
  | Toggle t => Some (toggle t)
  | Remove i => Some (remove i)
  | Load => Some loadTodos
  end.

(** The screens without tokens call [fetch] directly. *)
Definition plainFetch (rq : Route * option jsval) : ApiCall :=
  mkApiCall (fst rq) None (snd rq).

End Screen.

Local Open Scope eff_scope.

(** [apiFetch] of the bearer design: the token comes from the auth module. *)
Definition apiFetch (env : Auth.Browser) (now : Z) (rq : Route * option jsval)
    : M Auth.World ApiCall :=
  token <- Auth.getAccessToken env now ;;
  if negb (truthyS token) then throw "No token"
  else ret (mkApiCall (fst rq) (Some ("Bearer " ++ default "" token)) (snd rq)).

End App.

(* ===================================================================== *)
(** ** The tab without credentials *)
(* ===================================================================== *)

Module Tab.


End Tab.

(* ===================================================================== *)
(** ** Properties of the stored todos *)
(* ===================================================================== *)

Module Store.
Import Js Server.

(** Ids are unique and below the sequence. *)
Definition well_keyed (d : Db) : Prop :=
  NoDup (map id (rows d)) /\ Forall (fun r => id r < next_id d) (rows d).

(** A text as POST stores it: not empty, nothing to trim. *)
Definition tidy (t : Todo) : Prop := text t <> "" /\ trim (text t) = text t.

(** Newest first. *)
Definition newer_or_same (a b : Todo) : Prop := created_at b <= created_at a.

(** What PATCH does to one row, for a text and a flag that may be absent. *)
Definition patched (n : Z) (t : option string) (d : option bool) (r : Todo) : Todo :=
  if id r =? n
  then mkTodo (id r) (default (text r) t) (default (completed r) d) (created_at r)
  else r.

(** The database settings of a backend. *)
Definition pg_of (b : Variants.Backend) : Pg :=
  match b with
  | Variants.BearerBackend env => Bearer.pg env
  | Variants.OpenBackend pg => pg
  | Variants.SessionBackend env => Session.pg env
  end.

End Store.

(* ===================================================================== *)
(** ** Facts about the browser-side auth module *)
(* ===================================================================== *)

Module AuthFacts.
Import Js Net Auth.

Ltac eff :=
  unfold bind, ret, gets, modify, throw, when, lift_opt, try_catch in *; simpl in *.

Lemma truthyS_some (o : option string) :
  truthyS o = true -> exists s, o = Some s /\ s <> "".
Proof.
  destruct o as [s|]; simpl; [|discriminate].
  intros H. exists s. split; [reflexivity|].
  intros ->. discriminate.
Qed.


(** Discovery touches the cache and the network only. *)
Lemma getOIDCConfig_frame env w r w1 :
  getOIDCConfig env w = (r, w1) ->
  _accessToken w1 = _accessToken w /\ _refreshToken w1 = _refreshToken w /\
  _user w1 = _user w /\ sessionStorage w1 = sessionStorage w /\
  search w1 = search w /\
  (netlog w1 = netlog w \/ netlog w1 = (netlog w ++ [discovery])%list).
Proof.
  unfold getOIDCConfig, fetch. eff.
  destruct (_config w) as [cfg|].
  - intros [= <- <-]. tauto.
  - destruct (net env _ _) as [|res]; simpl.
    + intros [= <- <-]. simpl. tauto.
    + destruct (jsonConfig env (text res)); simpl; intros [= <- <-]; simpl; tauto.
Qed.

(** What a call returns is what the next call finds cached. *)
Lemma getOIDCConfig_cached env w d w1 :
  getOIDCConfig env w = (Val d, w1) -> _config w1 = cached d.
Proof.
  unfold getOIDCConfig, fetch. eff.
  destruct (_config w) as [c|] eqn:E.
  - intros [= <- <-]. exact E.
  - destruct (net env _ _) as [|res]; simpl; [discriminate|].
    destruct (jsonConfig env (text res)); simpl; [|discriminate].
    intros [= <- <-]. reflexivity.
Qed.

(** [storeTokens] never throws and always installs the access token. *)
Lemma storeTokens_spec env access refresh w :
  exists w', storeTokens env access refresh w = (Val tt, w') /\
    _accessToken w' = Some access /\
    _refreshToken w' = (if truthyS refresh then refresh else _refreshToken w) /\
    _user w' = match decodePayload env access with
               | Some p => userOfPayload p
               | None => None
               end /\
    netlog w' = netlog w /\ _config w' = _config w.
Proof.
  unfold storeTokens. eff.
  destruct (decodePayload env access) as [p|]; simpl;
    [destruct (userOfPayload p); simpl|];
    destruct (truthyS refresh); simpl; eexists; repeat split.
Qed.

Lemma isTokenExpired_undecodable env now t :
  decodePayload env t = None -> isTokenExpired env now t = true.
Proof. intros H. unfold isTokenExpired. now rewrite H. Qed.

Lemma isTokenExpired_near env now t payload e :
  decodePayload env t = Some payload ->
  prop payload "exp" = Some (JNum e) ->
  e * 1000 < now + 60000 ->
  isTokenExpired env now t = true.
Proof.
  intros Hd He Hlt. unfold isTokenExpired. rewrite Hd, He. simpl.
  apply Z.ltb_lt. exact Hlt.
Qed.

(** With nothing stored, asking for a token changes nothing. *)
Lemma getAccessToken_logged_out env now w :
  _accessToken w = None -> _refreshToken w = None ->
  getAccessToken env now w = (Val None, w).
Proof.
  intros Ha Hr. unfold getAccessToken, fresh. eff.
  rewrite Ha. simpl. rewrite Hr. reflexivity.
Qed.

(** A refresh that is answered outside 2xx logs the tab out. *)
Lemma refresh_rejected env w r d cfg w1 res :
  _refreshToken w = Some r -> r <> "" ->
  getOIDCConfig env w = (Val d, w1) ->
  fields d = Some cfg ->
  net env (length (netlog w1)) (refreshRequest cfg r) = Resp res ->
  ok res = false ->
  exists w',
    refreshAccessToken env w = (Val false, w') /\
    _accessToken w' = None /\ _refreshToken w' = None /\ _user w' = None /\
    sessionStorage w' = delete "refresh_token" (delete "access_token" (sessionStorage w)) /\
    netlog w' = (netlog w1 ++ [refreshRequest cfg r])%list.
Proof.
  intros Hr Hne Hc Hd Hn Hok.
  destruct (getOIDCConfig_frame _ _ _ _ Hc) as (_ & _ & _ & Hs & _ & _).
  unfold refreshAccessToken, clearTokens, fetch. eff.
  rewrite Hr. simpl. rewrite (proj2 (String.eqb_neq r "")) by exact Hne. simpl.
  rewrite Hc. rewrite Hd. simpl. rewrite Hn. simpl. rewrite Hok. simpl.
  eexists. repeat split. simpl. now rewrite Hs.
Qed.

(** A refresh that is answered with tokens hands out the new access token. *)
Lemma getAccessToken_refreshed env now w r d cfg w1 res toks :
  fresh env now (_accessToken w) = false ->
  _refreshToken w = Some r -> r <> "" ->
  getOIDCConfig env w = (Val d, w1) ->
  fields d = Some cfg ->
  net env (length (netlog w1)) (refreshRequest cfg r) = Resp res ->
  ok res = true ->
  jsonTokens env (text res) = Some toks ->
  fst (getAccessToken env now w) = Val (Some (access_token toks)).
Proof.
  intros Hf Hr Hne Hc Hd Hn Hok Hj.
  unfold getAccessToken. eff.
  rewrite Hf, Hr. simpl. rewrite (proj2 (String.eqb_neq r "")) by exact Hne. simpl.
  unfold refreshAccessToken, fetch. eff.
  rewrite Hr. simpl. rewrite (proj2 (String.eqb_neq r "")) by exact Hne. simpl.
  rewrite Hc, Hd. simpl. rewrite Hn. simpl. rewrite Hok. simpl. rewrite Hj. simpl.
  match goal with
  | |- context [storeTokens ?e ?a ?b ?x] =>
      destruct (storeTokens_spec e a b x) as (w' & Hst & Ha & _)
  end.
  rewrite Hst. simpl. now rewrite Ha.
Qed.

Lemma polls_logged_out env nows w :
  _accessToken w = None -> _refreshToken w = None ->
  polls env nows w = (map (fun _ => Val None) nows, w).
Proof.
  intros Ha Hr. induction nows as [|now rest IH]; simpl; [reflexivity|].
  rewrite (getAccessToken_logged_out env now w Ha Hr). now rewrite IH.
Qed.

(** *** The user never outlives the token it was decoded from *)

Section Preservation.
Context (I : World -> Prop).

Lemma preserves_ret {A} (a : A) : preserves I (ret a).
Proof. intros w H. exact H. Qed.

Lemma preserves_throw {A} (e : string) : preserves I (@throw World A e).
Proof. intros w H. exact H. Qed.

Lemma preserves_gets {A} (f : World -> A) : preserves I (gets f).
Proof. intros w H. exact H. Qed.

Lemma preserves_lift_opt {A} (e : string) (o : option A) : preserves I (lift_opt e o).
Proof. destruct o; [apply preserves_ret|apply preserves_throw]. Qed.

Lemma preserves_bind {A B} (m : M World A) (k : A -> M World B) :
  preserves I m -> (forall a, preserves I (k a)) -> preserves I (bind m k).
Proof.
  intros Hm Hk w H. unfold bind. specialize (Hm w H).
  destruct (m w) as [[a|e] w1]; simpl in *; [apply Hk; exact Hm|exact Hm].
Qed.

Lemma preserves_if {A} (b : bool) (m1 m2 : M World A) :
  preserves I m1 -> preserves I m2 -> preserves I (if b then m1 else m2).
Proof. destruct b; auto. Qed.

Lemma preserves_modify (f : World -> World) :
  (forall w, I w -> I (f w)) -> preserves I (modify f).
Proof. intros Hf w H. apply Hf. exact H. Qed.

End Preservation.

Ltac pres_step :=
  first
    [ apply preserves_bind; [|intros]
    | apply preserves_if
    | apply preserves_ret
    | apply preserves_throw
    | apply preserves_gets
    | apply preserves_lift_opt ].

Section UserOfToken.
Variable env : Browser.

(** Steps that leave the token and the user alone. *)
Lemma user_of_token_frame w w' :
  _accessToken w' = _accessToken w -> _user w' = _user w ->
  user_of_token env w -> user_of_token env w'.
Proof. unfold user_of_token. intros -> ->. auto. Qed.

Lemma fetch_keeps rq : preserves (user_of_token env) (fetch env rq).
Proof.
  intros w H. unfold fetch. destruct (net env _ _); simpl;
    apply (user_of_token_frame w); auto.
Qed.

Lemma randomString_keeps n : preserves (user_of_token env) (randomString env n).
Proof. intros w H. apply (user_of_token_frame w); auto. Qed.

Lemma setItem_keeps k v : preserves (user_of_token env) (setItem k v).
Proof. intros w H. apply (user_of_token_frame w); auto. Qed.

Lemma removeItem_keeps k : preserves (user_of_token env) (removeItem k).
Proof. intros w H. apply (user_of_token_frame w); auto. Qed.

Lemma getItem_keeps k : preserves (user_of_token env) (getItem k).
Proof. apply preserves_gets. Qed.

Lemma getOIDCConfig_keeps : preserves (user_of_token env) (getOIDCConfig env).
Proof.
  intros w H. destruct (getOIDCConfig env w) as [r w1] eqn:E.
  destruct (getOIDCConfig_frame _ _ _ _ E) as (Ha & _ & Hu & _).
  simpl. apply (user_of_token_frame w); auto.
Qed.

Lemma createPKCE_keeps : preserves (user_of_token env) (createPKCE env).
Proof.
  unfold createPKCE. pres_step; [apply randomString_keeps|pres_step].
Qed.

(** [storeTokens] installs token and user together. *)
Lemma storeTokens_establishes access refresh w :
  user_of_token env (snd (storeTokens env access refresh w)).
Proof.
  destruct (storeTokens_spec env access refresh w) as (w' & -> & Ha & _ & Hu & _).
  simpl. unfold user_of_token. rewrite Hu.
  destruct (decodePayload env access) as [p|] eqn:Hd; [|exact Logic.I].
  destruct (userOfPayload p) as [u|] eqn:Hp; [|exact Logic.I].
  exists access, p. auto.
Qed.

Lemma storeTokens_keeps access refresh :
  preserves (user_of_token env) (storeTokens env access refresh).
Proof. intros w _. apply storeTokens_establishes. Qed.

Lemma clearTokens_keeps : preserves (user_of_token env) (clearTokens).
Proof. intros w _. unfold user_of_token. reflexivity. Qed.

Lemma set_href_keeps u : preserves (user_of_token env) (modify (set_href u)).
Proof. apply preserves_modify. intros w H. apply (user_of_token_frame w); auto. Qed.

Lemma set_location_keeps p q : preserves (user_of_token env) (modify (set_location p q)).
Proof. apply preserves_modify. intros w H. apply (user_of_token_frame w); auto. Qed.

Ltac keeps :=
  repeat first
    [ apply fetch_keeps | apply randomString_keeps | apply setItem_keeps
    | apply removeItem_keeps | apply getItem_keeps | apply getOIDCConfig_keeps
    | apply createPKCE_keeps | apply storeTokens_keeps | apply clearTokens_keeps
    | apply set_href_keeps | apply set_location_keeps
    | pres_step ].

Lemma login_keeps : preserves (user_of_token env) (login env).
Proof. unfold login. keeps. Qed.

Lemma logout_keeps : preserves (user_of_token env) (logout env).
Proof. unfold logout. keeps. Qed.

Lemma handleCallback_keeps : preserves (user_of_token env) (handleCallback env).
Proof. unfold handleCallback. keeps. Qed.

Lemma refreshAccessToken_keeps : preserves (user_of_token env) (refreshAccessToken env).
Proof. unfold refreshAccessToken. keeps. Qed.

Lemma getAccessToken_keeps now : preserves (user_of_token env) (getAccessToken env now).
Proof.
  unfold getAccessToken.
  repeat first [ apply refreshAccessToken_keeps | pres_step ].
Qed.

Lemma initAuth_keeps now : preserves (user_of_token env) (initAuth env now).
Proof.
  unfold initAuth.
  repeat first [ apply handleCallback_keeps | apply refreshAccessToken_keeps
               | apply storeTokens_keeps | pres_step ].
Qed.

(** In every state the module reaches, the user is the decoding of the
    token held. *)
Lemma reachable_user_of_token w : reachable env w -> user_of_token env w.
Proof.
  induction 1 as [storage path q|w _ IH|w _ IH|now w _ IH|w _ IH|now w _ IH].
  - exact Logic.I.
  - apply login_keeps, IH.
  - apply handleCallback_keeps, IH.
  - apply getAccessToken_keeps, IH.
  - apply logout_keeps, IH.
  - apply initAuth_keeps, IH.
Qed.

(** So a held token that does not decode never comes with a user:
    whenever a refresh token is held too, the module says authenticated
    and names nobody. *)
Lemma reachable_undecodable_token now w t :
  reachable env w ->
  _accessToken w = Some t -> t <> "" ->
  decodePayload env t = None ->
  _user w = None /\
  isAuthenticated env now w = truthyS (_refreshToken w) /\
  getUser env now w = None.
Proof.
  intros Hr Ha Hne Hd.
  pose proof (reachable_user_of_token w Hr) as Hinv. unfold user_of_token in Hinv.
  assert (Hu : _user w = None).
  { destruct (_user w) as [u|]; [|reflexivity].
    destruct Hinv as (t' & p & Ht & Hp & _). congruence. }
  pose proof (isTokenExpired_undecodable env now t Hd) as Hexp.
  split; [exact Hu|]. split.
  - unfold isAuthenticated. rewrite Ha. simpl.
    rewrite (proj2 (String.eqb_neq t "")) by exact Hne. rewrite Hexp. reflexivity.
  - unfold getUser. rewrite Ha. simpl.
    rewrite (proj2 (String.eqb_neq t "")) by exact Hne.
    rewrite Hexp, Hu. simpl. destruct (negb _); reflexivity.
Qed.

End UserOfToken.

End AuthFacts.

(* ===================================================================== *)
(** ** The auth guard in the browser *)
(* ===================================================================== *)

Import Js Net.
Import AuthFacts.

(** C7. A stored access token whose expiry claim is less than 60 seconds
    ahead ([exp * 1000 < now + 60000], for instance 30 seconds ahead) is
    classified as expired and is not handed out: without a refresh token
    [getAccessToken] answers null and sends nothing; with one it is the
    silent refresh followed by reading the token the refresh left. The
    refresh is the one request sent after discovery: a POST to the token
    endpoint of the discovery document whose form is grant type
    refresh_token, the refresh token held and the client id; only a
    discovery document that is [null] ends the attempt before it. *)
Theorem C7_expiry_buffer_triggers_refresh
    (env : Auth.Browser) (now : Z) (w : Auth.World)
    (t : string) (payload : jsval) (e : Z) :
  Auth._accessToken w = Some t ->
  Auth.decodePayload env t = Some payload ->
  prop payload "exp" = Some (JNum e) ->
  e * 1000 < now + 60000 ->
  Auth.isTokenExpired env now t = true /\
  Auth.getAccessToken env now w =
    (if truthyS (Auth._refreshToken w)
     then bind (Auth.refreshAccessToken env)
               (fun okr => if okr then gets Auth._accessToken else ret None) w
     else (Val None, w)) /\
  Auth.netlog (snd (Auth.getAccessToken env now w)) =
    (if truthyS (Auth._refreshToken w)
     then match Auth.getOIDCConfig env w with
          | (Val d, w1) =>
              match fields d with
              | Some cfg =>
                  app (Auth.netlog w1)
                      [mkRequest "POST" (token_endpoint cfg)
                         [("grant_type", "refresh_token");
                          ("refresh_token", default "" (Auth._refreshToken w));
                          ("client_id", Auth.CLIENT_ID)]]
              | None => Auth.netlog w1
              end
          | (Throw _, w1) => Auth.netlog w1
          end
     else Auth.netlog w).
Proof.
  intros Ha Hd He Hlt.
  pose proof (isTokenExpired_near env now t payload e Hd He Hlt) as Hexp.
  assert (Hfresh : Auth.fresh env now (Auth._accessToken w) = false).
  { unfold Auth.fresh. rewrite Ha. simpl. rewrite Hexp. simpl. apply andb_false_r. }
  assert (Hget : Auth.getAccessToken env now w =
    (if truthyS (Auth._refreshToken w)
     then bind (Auth.refreshAccessToken env)
               (fun okr => if okr then gets Auth._accessToken else ret None) w
     else (Val None, w))).
  { unfold Auth.getAccessToken. eff. rewrite Hfresh.
    destruct (truthyS (Auth._refreshToken w)); reflexivity. }
  split; [exact Hexp|]. split; [exact Hget|].
  rewrite Hget. destruct (truthyS (Auth._refreshToken w)) eqn:Hr; [|reflexivity].
  unfold Auth.refreshAccessToken, Auth.refreshRequest, Auth.clearTokens, Auth.fetch. eff.
  rewrite Hr. simpl.
  destruct (Auth.getOIDCConfig env w) as [[d|err] w1]; [|reflexivity].
  destruct (fields d) as [cfg|]; simpl; [|reflexivity].
  destruct (Auth.net env _ _) as [|res]; simpl; [reflexivity|].
  destruct (ok res); simpl; [|reflexivity].
  destruct (Auth.jsonTokens env (text res)) as [toks|]; simpl; [|reflexivity].
  match goal with
  | |- context [Auth.storeTokens ?e ?a ?r ?x] =>
      destruct (storeTokens_spec e a r x) as (w' & Hst & _ & _ & _ & Hlog & _)
  end.
  rewrite Hst. simpl. exact Hlog.
Qed.

Lemma C7_witness :
  Auth.isTokenExpired (Demo.browser 400 "invalid_grant") Demo.now0 "h.soon.s" = true /\
  Auth.getAccessToken (Demo.browser 400 "invalid_grant") Demo.now0 Demo.tab_soon =
    (if truthyS (Auth._refreshToken Demo.tab_soon)
     then bind (Auth.refreshAccessToken (Demo.browser 400 "invalid_grant"))
               (fun okr => if okr then gets Auth._accessToken else ret None) Demo.tab_soon
     else (Val None, Demo.tab_soon)) /\
  Auth.netlog (snd (Auth.getAccessToken (Demo.browser 400 "invalid_grant")
                      Demo.now0 Demo.tab_soon)) =
    (if truthyS (Auth._refreshToken Demo.tab_soon)
     then match Auth.getOIDCConfig (Demo.browser 400 "invalid_grant") Demo.tab_soon with
          | (Val d, w1) =>
              match fields d with
              | Some cfg =>
                  app (Auth.netlog w1)
                      [mkRequest "POST" (token_endpoint cfg)
                         [("grant_type", "refresh_token");
                          ("refresh_token", default "" (Auth._refreshToken Demo.tab_soon));
                          ("client_id", Auth.CLIENT_ID)]]
              | None => Auth.netlog w1
              end
          | (Throw _, w1) => Auth.netlog w1
          end
     else Auth.netlog Demo.tab_soon).
Proof.
  apply (C7_expiry_buffer_triggers_refresh (Demo.browser 400 "invalid_grant")
           Demo.now0 Demo.tab_soon "h.soon.s" Demo.payload_soon 1030).
  - reflexivity.
  - reflexivity.
  - reflexivity.
  - unfold Demo.now0. lia.
Defined.

(** The refresh at a token 30 seconds from expiry, as it is sent. *)
Example refresh_as_sent :
  Auth.netlog (snd (Auth.getAccessToken (Demo.browser 400 "invalid_grant")
                      Demo.now0 Demo.tab_soon)) =
    [mkRequest "POST" "https://auth.snir.sh/token"
       [("grant_type", "refresh_token"); ("refresh_token", "r1");
        ("client_id", "5QFMboN9PXKIrx5X4In59wXZlv0DpUAreYes1fql")]].
Proof. reflexivity. Qed.

(** C8. When the token endpoint answers a refresh outside 2xx, the access
    token, the refresh token, the decoded user and both session-storage
    entries are gone; every later [getAccessToken], at whatever instants and
    also after a reload of the page, answers null and sends nothing. The
    refresh is sent for every discovery document but [null], a falsy one
    included. *)
Theorem C8_failed_refresh_clears_credentials
    (env : Auth.Browser) (w : Auth.World) (r : string)
    (d : Document) (cfg : OIDCConfig) (w1 : Auth.World) (res : Response) :
  Auth._refreshToken w = Some r -> r <> "" ->
  Auth.getOIDCConfig env w = (Val d, w1) ->
  fields d = Some cfg ->
  Auth.net env (length (Auth.netlog w1)) (Auth.refreshRequest cfg r) = Resp res ->
  ok res = false ->
  exists w',
    Auth.refreshAccessToken env w = (Val false, w') /\
    Auth._accessToken w' = None /\ Auth._refreshToken w' = None /\
    Auth._user w' = None /\
    Auth.sessionStorage w' !! "access_token" = None /\
    Auth.sessionStorage w' !! "refresh_token" = None /\
    (forall nows, Auth.polls env nows w' = (map (fun _ => Val None) nows, w')) /\
    (forall path q nows,
       Auth.polls env nows (Auth.load (Auth.sessionStorage w') path q) =
         (map (fun _ => Val None) nows, Auth.load (Auth.sessionStorage w') path q)).
Proof.
  intros Hr Hne Hc Hd Hn Hok.
  destruct (refresh_rejected env w r d cfg w1 res Hr Hne Hc Hd Hn Hok)
    as (w' & Hrun & Ha & Hr' & Hu & Hs & _).
  assert (Hsa : Auth.sessionStorage w' !! "access_token" = None).
  { rewrite Hs. rewrite lookup_delete_ne by discriminate. apply lookup_delete_eq. }
  assert (Hsr : Auth.sessionStorage w' !! "refresh_token" = None).
  { rewrite Hs. apply lookup_delete_eq. }
  exists w'. repeat split; try assumption.
  - intros nows. apply polls_logged_out; assumption.
  - intros path q nows. apply polls_logged_out; simpl; assumption.
Qed.

Lemma C8_witness :
  exists w',
    Auth.refreshAccessToken (Demo.browser 400 "invalid_grant") Demo.tab_soon = (Val false, w') /\
    Auth._accessToken w' = None /\ Auth._refreshToken w' = None /\
    Auth._user w' = None /\
    Auth.sessionStorage w' !! "access_token" = None /\
    Auth.sessionStorage w' !! "refresh_token" = None /\
    (forall nows, Auth.polls (Demo.browser 400 "invalid_grant") nows w'
                  = (map (fun _ => Val None) nows, w')) /\
    (forall path q nows,
       Auth.polls (Demo.browser 400 "invalid_grant") nows
                  (Auth.load (Auth.sessionStorage w') path q) =
         (map (fun _ => Val None) nows, Auth.load (Auth.sessionStorage w') path q)).
Proof.
  apply (C8_failed_refresh_clears_credentials (Demo.browser 400 "invalid_grant")
           Demo.tab_soon "r1" (Doc Demo.cfg0) Demo.cfg0 Demo.tab_soon
           (mkResponse 400 "invalid_grant")).
  - reflexivity.
  - discriminate.
  - reflexivity.
  - reflexivity.
  - reflexivity.
  - reflexivity.
Defined.

(** C10. When the access token handed to [storeTokens] has no decodable
    payload, [storeTokens] returns normally with the token stored and the
    user null, and [isTokenExpired] says expired; from then on
    [isAuthenticated] is true exactly when a refresh token is held, while
    [getUser] is null: with a refresh token the module reports an
    authenticated session without identity. No step throws. The token is a
    present one, that is, not the empty string. *)
Theorem C10_undecodable_token_authenticated_without_user
    (env : Auth.Browser) (now : Z) (access : string) (refresh : option string)
    (w : Auth.World) :
  access <> "" ->
  Auth.decodePayload env access = None ->
  exists w',
    Auth.storeTokens env access refresh w = (Val tt, w') /\
    Auth._accessToken w' = Some access /\
    Auth._user w' = None /\
    Auth.isTokenExpired env now access = true /\
    Auth.isAuthenticated env now w' = truthyS (Auth._refreshToken w') /\
    Auth.getUser env now w' = None.
Proof.
  intros Hne Hd.
  destruct (storeTokens_spec env access refresh w) as (w' & Hst & Ha & _ & Hu & _).
  rewrite Hd in Hu.
  pose proof (isTokenExpired_undecodable env now access Hd) as Hexp.
  exists w'. do 4 (split; [assumption|]). split.
  - unfold Auth.isAuthenticated. rewrite Ha. simpl.
    rewrite (proj2 (String.eqb_neq access "")) by exact Hne.
    rewrite Hexp. reflexivity.
  - unfold Auth.getUser. rewrite Ha. simpl.
    rewrite (proj2 (String.eqb_neq access "")) by exact Hne.
    rewrite Hexp, Hu. simpl. destruct (negb _); reflexivity.
Qed.

Lemma C10_witness :
  exists w',
    Auth.storeTokens (Demo.browser 200 "tokens") "not-a-jwt" (Some "r1")
      (Auth.load ∅ "/" []) = (Val tt, w') /\
    Auth._accessToken w' = Some "not-a-jwt" /\
    Auth._user w' = None /\
    Auth.isTokenExpired (Demo.browser 200 "tokens") Demo.now0 "not-a-jwt" = true /\
    Auth.isAuthenticated (Demo.browser 200 "tokens") Demo.now0 w'
      = truthyS (Auth._refreshToken w') /\
    Auth.getUser (Demo.browser 200 "tokens") Demo.now0 w' = None.
Proof.
  apply (C10_undecodable_token_authenticated_without_user
           (Demo.browser 200 "tokens") Demo.now0 "not-a-jwt" (Some "r1")
           (Auth.load ∅ "/" [])).
  - discriminate.
  - reflexivity.
Defined.

(** With a refresh token held: authenticated, and no user. *)
Example undecodable_token_with_refresh_token :
  let w' := snd (Auth.storeTokens (Demo.browser 200 "tokens") "not-a-jwt" (Some "r1")
                   (Auth.load ∅ "/" [])) in
  Auth.isAuthenticated (Demo.browser 200 "tokens") Demo.now0 w' = true /\
  Auth.getUser (Demo.browser 200 "tokens") Demo.now0 w' = None.
Proof. vm_compute. split; reflexivity. Qed.

(* ===================================================================== *)
(** ** The callback: state check, cleanup *)
(* ===================================================================== *)

(** C3. When the state in the redirect differs from the stored one, the
    callback fails and leaves everything as it was, the list of requests
    sent included: in the browser [handleCallback] answers false; on the
    server the answer is 400 "Invalid state parameter" (or, when the
    provider also reported an error, the redirect that reports it), without
    any cookie. The comparison precedes discovery and the code exchange. *)
Theorem C3_state_mismatch_fails_before_network :
  (forall (env : Auth.Browser) (w : Auth.World),
     params_get "state" (Auth.search w) <> Auth.sessionStorage w !! "auth_state" ->
     Auth.handleCallback env w = (Val false, w) /\
     Auth.netlog (snd (Auth.handleCallback env w)) = Auth.netlog w) /\
  (forall (env : Session.Host) (c : Server.Ctx) (w : Server.World),
     params_get "state" (Server.query (Server.req c))
       <> Server.cookies (Server.req c) !! "auth_state" ->
     exists r,
       Session.callback env c w = (Val r, w) /\
       Server.netlog (snd (Session.callback env c w)) = Server.netlog w /\
       Server.setCookies r = [] /\
       (r = Server.c_text "Invalid state parameter" 400 \/
        exists e, params_get "error" (Server.query (Server.req c)) = Some e /\ e <> "" /\
                  r = Server.c_redirect (Session.APP_URL env ++ "?error=" ++ e) [])).
Proof.
  split.
  - intros env w Hneq.
    assert (H : Auth.handleCallback env w = (Val false, w)).
    { unfold Auth.handleCallback, Auth.getItem. eff.
      destruct (truthyS (params_get "error" (Auth.search w))); [reflexivity|].
      destruct (truthyS (params_get "code" (Auth.search w))); [|reflexivity]. simpl.
      rewrite bool_decide_eq_false_2 by exact Hneq. reflexivity. }
    rewrite H. split; reflexivity.
  - intros env c w Hneq.
    unfold Session.callback. eff.
    destruct (truthyS (params_get "error" _)) eqn:He.
    + destruct (truthyS_some _ He) as (e & Hs & Hne).
      eexists. split; [reflexivity|]. split; [reflexivity|]. split; [reflexivity|].
      right. exists e. rewrite Hs. simpl. auto.
    + rewrite (bool_decide_eq_false_2 _ Hneq). rewrite orb_true_r.
      eexists. split; [reflexivity|]. split; [reflexivity|]. split; [reflexivity|].
      left. reflexivity.
Qed.

Lemma C3_witness :
  (Auth.handleCallback (Demo.browser 200 "tokens") (Demo.tab_callback "state-2")
     = (Val false, Demo.tab_callback "state-2") /\
   Auth.netlog (snd (Auth.handleCallback (Demo.browser 200 "tokens")
                       (Demo.tab_callback "state-2")))
     = Auth.netlog (Demo.tab_callback "state-2")) /\
  (exists r,
     Session.callback (Demo.session_host 200)
       (Server.mkCtx (Demo.callback_request "uuid-7" "uuid-1") None) Demo.world0
       = (Val r, Demo.world0) /\
     Server.netlog (snd (Session.callback (Demo.session_host 200)
                           (Server.mkCtx (Demo.callback_request "uuid-7" "uuid-1") None)
                           Demo.world0))
       = Server.netlog Demo.world0 /\
     Server.setCookies r = [] /\
     (r = Server.c_text "Invalid state parameter" 400 \/
      exists e,
        params_get "error"
          (Server.query (Server.req (Server.mkCtx (Demo.callback_request "uuid-7" "uuid-1") None)))
          = Some e /\ e <> "" /\
        r = Server.c_redirect (Session.APP_URL (Demo.session_host 200) ++ "?error=" ++ e) [])).
Proof.
  split.
  - apply (proj1 C3_state_mismatch_fails_before_network
             (Demo.browser 200 "tokens") (Demo.tab_callback "state-2")).
    vm_compute. discriminate.
  - apply (proj2 C3_state_mismatch_fails_before_network
             (Demo.session_host 200)
             (Server.mkCtx (Demo.callback_request "uuid-7" "uuid-1") None) Demo.world0).
    vm_compute. discriminate.
Defined.

(** Every failure of [handleCallback] leaves session storage as it was. *)
Lemma handleCallback_failure_keeps_storage env w w' :
  Auth.handleCallback env w = (Val false, w') ->
  Auth.sessionStorage w' = Auth.sessionStorage w.
Proof.
  unfold Auth.handleCallback, Auth.getItem, Auth.fetch. eff.
  destruct (truthyS (params_get "error" _)); [intros [= <-]; reflexivity|].
  destruct (truthyS (params_get "code" _)); simpl; [|intros [= <-]; reflexivity].
  destruct (bool_decide _); simpl; [|intros [= <-]; reflexivity].
  destruct (truthyS (Auth.sessionStorage w !! "pkce_verifier")); simpl;
    [|intros [= <-]; reflexivity].
  destruct (Auth.getOIDCConfig env w) as [[d|e] w1] eqn:Hc; [|discriminate].
  destruct (getOIDCConfig_frame _ _ _ _ Hc) as (_ & _ & _ & Hs & _ & _).
  destruct (fields d) as [cfg|]; simpl; [|discriminate].
  destruct (Auth.net env _ _) as [|res]; simpl; [discriminate|].
  destruct (ok res); simpl; [|intros [= <-]; simpl; exact Hs].
  destruct (Auth.jsonTokens env (text res)) as [toks|]; simpl; [|discriminate].
  match goal with
  | |- context [Auth.storeTokens ?e ?a ?r ?x] =>
      destruct (storeTokens_spec e a r x) as (w2 & Hst & _)
  end.
  rewrite Hst. simpl. discriminate.
Qed.

(** A successful [handleCallback] removes both flow fields. *)
Lemma handleCallback_success_cleans env w w' :
  Auth.handleCallback env w = (Val true, w') ->
  Auth.sessionStorage w' !! "pkce_verifier" = None /\
  Auth.sessionStorage w' !! "auth_state" = None.
Proof.
  unfold Auth.handleCallback, Auth.getItem, Auth.fetch, Auth.removeItem. eff.
  destruct (truthyS (params_get "error" _)); [discriminate|].
  destruct (truthyS (params_get "code" _)); simpl; [|discriminate].
  destruct (bool_decide _); simpl; [|discriminate].
  destruct (truthyS (Auth.sessionStorage w !! "pkce_verifier")); simpl; [|discriminate].
  destruct (Auth.getOIDCConfig env w) as [[d|e] w1]; [|discriminate].
  destruct (fields d) as [cfg|]; simpl; [|discriminate].
  destruct (Auth.net env _ _) as [|res]; simpl; [discriminate|].
  destruct (ok res); simpl; [|discriminate].
  destruct (Auth.jsonTokens env (text res)) as [toks|]; simpl; [|discriminate].
  match goal with
  | |- context [Auth.storeTokens ?e ?a ?r ?x] =>
      destruct (storeTokens_spec e a r x) as (w2 & Hst & _)
  end.
  rewrite Hst. simpl. intros [= <-]. simpl. split.
  - rewrite lookup_delete_ne by discriminate. apply lookup_delete_eq.
  - apply lookup_delete_eq.
Qed.

(** A callback of the session backend that does not end in the session
    redirect sends no cookie instruction at all. *)
Lemma callback_cookies env c w r w' :
  Session.callback env c w = (Val r, w') ->
  Server.setCookies r = [] \/
  exists session,
    r = Server.c_redirect (Session.APP_URL env)
          [Server.SetCookie "session" session Session.sessionCookie;
           Server.DeleteCookie "auth_state"; Server.DeleteCookie "auth_nonce"].
Proof.
  unfold Session.callback. eff.
  destruct (truthyS (params_get "error" _)); [intros [= <- _]; now left|].
  destruct (_ || _); [intros [= <- _]; now left|].
  destruct (Session.getOIDCConfig env w) as [[d|e] w1]; [|discriminate].
  destruct (fields d) as [cfg|]; simpl; [|discriminate].
  destruct (Session.fetch env _ w1) as [[res|e] w2]; [|discriminate].
  destruct (ok res); simpl; [|intros [= <- _]; now left].
  destruct (Session.jsonTokens env _); simpl; [|discriminate].
  destruct (Session.getJWKS env w2) as [[keys|e] w3]; [|discriminate].
  destruct (Session.verifyIdToken env keys _) as [idToken|]; [|intros [= <- _]; now left].
  destruct (_ && _); [intros [= <- _]; now left|].
  unfold Session.sign. simpl. intros [= <- _]. right. eexists. reflexivity.
Qed.

(** C5. The code at two failing callbacks: in the browser, a redirect
    whose state does not match leaves [auth_state] and [pkce_verifier] in
    session storage; on the server, a code exchange answered with 400 ends
    in a response that deletes neither [auth_state] nor [auth_nonce], so
    the user agent keeps both. *)
Theorem C5_failed_callback_leaves_flow_fields :
  (let out := Auth.handleCallback (Demo.browser 200 "tokens") (Demo.tab_callback "state-2") in
   fst out = Val false /\
   Auth.sessionStorage (snd out) !! "auth_state" = Some "state-1" /\
   Auth.sessionStorage (snd out) !! "pkce_verifier" = Some "verifier-1") /\
  (let rq := Demo.callback_request "uuid-0" "uuid-1" in
   let out := Session.handle (Demo.session_host 400) rq Demo.world0 in
   Server.code (fst out) = 500 /\
   Server.setCookies (fst out) = [] /\
   Session.receive (Server.cookies rq) (fst out) !! "auth_state" = Some "uuid-0" /\
   Session.receive (Server.cookies rq) (fst out) !! "auth_nonce" = Some "uuid-1").
Proof.
  split; vm_compute; repeat split; reflexivity.
Qed.

(* ===================================================================== *)
(** ** The auth guard on the server *)
(* ===================================================================== *)

Import Server Variants.

(** The claim C1 as worded fails twice: the backend without authentication
    lists the todos for a request that carries nothing, and the bearer
    backend answers a token that does not verify with the error text
    [invalid_token]. *)
Lemma C1_counterexample :
  ~ rejects_unauthorized (OpenBackend Demo.pg0) (Demo.get_todos None ∅) Demo.world0 /\
  ~ rejects_unauthorized (BearerBackend Demo.bearer_host)
      (Demo.get_todos (Some "Bearer forged") ∅) Demo.world0.
Proof.
  split; intros H; specialize (H eq_refl eq_refl); vm_compute in H; discriminate.
Qed.

Lemma session_unverified env r :
  credential (SessionBackend env) r = None ->
  Session.getSession env (mkCtx r None) = None.
Proof.
  unfold credential, Session.getSession. cbn [req].
  destruct (cookies r !! "session") as [t|]; cbn; [|reflexivity].
  intros H. destruct (negb (String.eqb t "")); [exact H|reflexivity].
Qed.

Lemma bearer_requireAuth_rejects env r next w :
  credential (BearerBackend env) r = None ->
  Bearer.requireAuth env (mkCtx r None) next w =
    (Val (c_json (JsonError (rejection (BearerBackend env) r)) 401), w).
Proof.
  unfold credential, rejection, bearerToken, Bearer.requireAuth. cbn [req].
  destruct (authorization r) as [h|]; [|reflexivity].
  destruct (startsWith "Bearer " h); [|reflexivity].
  intros ->. reflexivity.
Qed.

Lemma session_requireAuth_rejects env r next w :
  credential (SessionBackend env) r = None ->
  Session.requireAuth env (mkCtx r None) next w =
    (Val (c_json (JsonError "unauthorized") 401), w).
Proof.
  intros Hc. unfold Session.requireAuth.
  rewrite (session_unverified env r Hc). reflexivity.
Qed.

(** C1, amended. In the two backends that have an auth middleware, a
    request to a todo endpoint without a valid credential is answered 401
    with the process left as it was: no statement is run. The body is
    {"error":"unauthorized"}, except that the bearer backend answers a
    well-formed Bearer header whose token does not verify with
    {"error":"invalid_token"}. The backend without authentication answers a
    request as it answers the same request stripped of header and cookies. *)
Theorem C1_guarded_backends_reject_before_storage :
  (forall (b : Backend) (r : HttpRequest) (w : World),
     guarded b = true ->
     protected (route r) = true ->
     credential b r = None ->
     handle b r w = (c_json (JsonError (rejection b r)) 401, w)) /\
  (forall (pg : Pg) (r : HttpRequest) (w : World),
     handle (OpenBackend pg) r w = handle (OpenBackend pg) (anonymous r) w).
Proof.
  split.
  - intros [env|pg|env] r w Hg Hp Hc; [| discriminate |].
    + unfold handle, Bearer.handle, Bearer.app, serve.
      destruct (route r); try discriminate;
        rewrite (bearer_requireAuth_rejects env r _ w Hc); reflexivity.
    + unfold handle, Session.handle, Session.app, serve.
      destruct (route r); try discriminate;
        rewrite (session_requireAuth_rejects env r _ w Hc); reflexivity.
  - intros pg r w. unfold handle, Open.handle, Open.app. cbn [route anonymous].
    destruct (route r); reflexivity.
Qed.

Lemma C1_witness :
  handle (BearerBackend Demo.bearer_host) (Demo.get_todos (Some "Bearer forged") ∅) Demo.world0
    = (c_json (JsonError "invalid_token") 401, Demo.world0) /\
  handle (SessionBackend (Demo.session_host 200))
         (Demo.get_todos None (<["session" := "forged"]> ∅)) Demo.world0
    = (c_json (JsonError "unauthorized") 401, Demo.world0).
Proof.
  split.
  - apply (proj1 C1_guarded_backends_reject_before_storage
             (BearerBackend Demo.bearer_host) (Demo.get_todos (Some "Bearer forged") ∅)
             Demo.world0); reflexivity.
  - apply (proj1 C1_guarded_backends_reject_before_storage
             (SessionBackend (Demo.session_host 200))
             (Demo.get_todos None (<["session" := "forged"]> ∅))
             Demo.world0); reflexivity.
Defined.

(* ===================================================================== *)
(** ** The nonce *)
(* ===================================================================== *)

Lemma session_getOIDCConfig_frame env w r w1 :
  Session.getOIDCConfig env w = (r, w1) ->
  minted w1 = minted w /\ db w1 = db w /\ jwks w1 = jwks w.
Proof.
  unfold Session.getOIDCConfig, Session.fetch. eff.
  destruct (oidcConfig w); [intros [= <- <-]; auto|].
  destruct (Session.net env _ _) as [|res]; simpl; [intros [= <- <-]; auto|].
  destruct (Session.jsonConfig env _); simpl; intros [= <- <-]; auto.
Qed.

Lemma session_fetch_frame env rq w r w1 :
  Session.fetch env rq w = (r, w1) ->
  minted w1 = minted w /\ db w1 = db w /\
  netlog w1 = (netlog w ++ [rq])%list.
Proof.
  unfold Session.fetch.
  destruct (Session.net env _ _); intros [= <- <-]; auto.
Qed.

Lemma session_getJWKS_frame env w r w1 :
  Session.getJWKS env w = (r, w1) ->
  minted w1 = minted w /\ db w1 = db w.
Proof.
  unfold Session.getJWKS. eff.
  destruct (jwks w) as [ks|].
  - destruct (Session.createLocalJWKSet env ks); intros [= <- <-]; auto.
  - destruct (Session.getOIDCConfig env w) as [[d|e] w2] eqn:Hc;
      destruct (session_getOIDCConfig_frame _ _ _ _ Hc) as (Hm & Hd & _);
      [|intros [= <- <-]; auto].
    destruct (fields d) as [cfg|]; simpl; [|intros [= <- <-]; auto].
    destruct (Session.fetch env _ w2) as [[res|e] w3] eqn:Hf;
      destruct (session_fetch_frame _ _ _ _ _ Hf) as (Hm' & Hd' & _);
      [|intros [= <- <-]; split; congruence].
    destruct (Session.jsonJwks env _) as [ks|]; simpl;
      [|intros [= <- <-]; split; congruence].
    destruct (Session.createLocalJWKSet env ks); intros [= <- <-]; simpl;
      split; congruence.
Qed.

(** Up to the verification of the ID token, nothing is signed and no
    statement is run. *)
Lemma idTokenOfFlow_frame env c w r w' :
  Session.idTokenOfFlow env c w = (r, w') ->
  minted w' = minted w /\ db w' = db w.
Proof.
  unfold Session.idTokenOfFlow. eff.
  destruct (truthyS (params_get "error" _)); [intros [= <- <-]; auto|].
  destruct (_ || _); [intros [= <- <-]; auto|].
  destruct (Session.getOIDCConfig env w) as [[d|e] w1] eqn:Hc;
    destruct (session_getOIDCConfig_frame _ _ _ _ Hc) as (Hm1 & Hd1 & _);
    [|intros [= <- <-]; auto].
  destruct (fields d) as [cfg|]; simpl; [|intros [= <- <-]; auto].
  destruct (Session.fetch env _ w1) as [[res|e] w2] eqn:Hf;
    destruct (session_fetch_frame _ _ _ _ _ Hf) as (Hm2 & Hd2 & _);
    [|intros [= <- <-]; split; congruence].
  destruct (ok res); simpl; [|intros [= <- <-]; split; congruence].
  destruct (Session.jsonTokens env _); simpl; [|intros [= <- <-]; split; congruence].
  destruct (Session.getJWKS env w2) as [[keys|e] w3] eqn:Hj;
    destruct (session_getJWKS_frame _ _ _ _ Hj) as (Hm3 & Hd3);
    intros [= <- <-]; split; congruence.
Qed.

(** Login issues a state and a nonce: when it redirects, both go to the
    provider in the redirect and to the user agent as cookies, which the
    callback reads. *)
Lemma login_issues_nonce env c w r w' jar :
  Session.login env c w = (Val r, w') ->
  code r = 302 ->
  exists cfg state nonce,
    location r = Some (Session.toString env (Session.authorizeUrl env cfg state nonce)) /\
    params_get "nonce" (Net.query (Session.authorizeUrl env cfg state nonce)) = Some nonce /\
    Session.receive jar r !! "auth_state" = Some state /\
    Session.receive jar r !! "auth_nonce" = Some nonce.
Proof.
  unfold Session.login, Session.crypto_randomUUID. eff.
  destruct (Session.getOIDCConfig env w) as [[d|e] w1]; [|discriminate].
  destruct d as [| |cfg]; simpl; try (intros [= <- _]; discriminate).
  destruct (Session.canParse env (authorization_endpoint cfg)); simpl;
    [|intros [= <- _]; discriminate].
  intros [= <- _] _. eexists cfg, _, _. split; [reflexivity|]. split; [reflexivity|].
  unfold Session.receive. simpl. split.
  - rewrite lookup_insert_ne by discriminate. apply lookup_insert_eq.
  - apply lookup_insert_eq.
Qed.

(** Once the ID token is verified, what is left of [callback] is the
    nonce check and the session. *)
Lemma callback_after_verification env c w idToken w1 :
  Session.idTokenOfFlow env c w = (Val (Some idToken), w1) ->
  Session.callback env c w =
    (if truthyS (cookies (req c) !! "auth_nonce") &&
        strict_neq_str (Session.claim idToken "nonce")
                       (default "" (cookies (req c) !! "auth_nonce"))
     then ret (c_text "Invalid nonce" 400)
     else bind (Session.sign env (Session.sessionClaims idToken) (arrival (req c)))
            (fun session =>
               ret (c_redirect (Session.APP_URL env)
                      [SetCookie "session" session Session.sessionCookie;
                       DeleteCookie "auth_state"; DeleteCookie "auth_nonce"]))) w1.
Proof.
  unfold Session.idTokenOfFlow, Session.callback. eff.
  destruct (truthyS (params_get "error" _)); [discriminate|].
  destruct (_ || _); [discriminate|].
  destruct (Session.getOIDCConfig env w) as [[d|e] w2]; [|discriminate].
  destruct (fields d) as [cfg|]; simpl; [|discriminate].
  destruct (Session.fetch env _ w2) as [[res|e] w3]; [|discriminate].
  destruct (ok res); simpl; [|discriminate].
  destruct (Session.jsonTokens env _); simpl; [|discriminate].
  destruct (Session.getJWKS env w3) as [[keys|e] w4]; [|discriminate].
  intros [= -> <-]. reflexivity.
Qed.

(** When the flow does not reach a verified ID token, no cookie is set. *)
Lemma callback_without_verification env c w w1 r w' :
  Session.idTokenOfFlow env c w = (Val None, w1) ->
  Session.callback env c w = (Val r, w') ->
  setCookies r = [].
Proof.
  unfold Session.idTokenOfFlow, Session.callback. eff.
  destruct (truthyS (params_get "error" _)); [intros _ [= <- _]; reflexivity|].
  destruct (_ || _); [intros _ [= <- _]; reflexivity|].
  destruct (Session.getOIDCConfig env w) as [[d|e] w2]; [|discriminate].
  destruct (fields d) as [cfg|]; simpl; [|discriminate].
  destruct (Session.fetch env _ w2) as [[res|e] w3]; [|discriminate].
  destruct (ok res); simpl; [|intros _ [= <- _]; reflexivity].
  destruct (Session.jsonTokens env _); simpl; [|discriminate].
  destruct (Session.getJWKS env w3) as [[keys|e] w4]; [|discriminate].
  destruct (Session.verifyIdToken env keys _); [discriminate|].
  intros _ [= <- _]. reflexivity.
Qed.

Lemma callback_throws_with_flow env c w e w1 :
  Session.idTokenOfFlow env c w = (Throw e, w1) ->
  Session.callback env c w = (Throw e, w1).
Proof.
  unfold Session.idTokenOfFlow, Session.callback. eff.
  destruct (truthyS (params_get "error" _)); [discriminate|].
  destruct (_ || _); [discriminate|].
  destruct (Session.getOIDCConfig env w) as [[d|e'] w2]; [|intros [= -> ->]; reflexivity].
  destruct (fields d) as [cfg|]; simpl; [|intros [= -> ->]; reflexivity].
  destruct (Session.fetch env _ w2) as [[res|e'] w3]; [|intros [= -> ->]; reflexivity].
  destruct (ok res); simpl; [|discriminate].
  destruct (Session.jsonTokens env _); simpl; [|intros [= -> ->]; reflexivity].
  destruct (Session.getJWKS env w3) as [[keys|e'] w4];
    [discriminate|intros [= -> ->]; reflexivity].
Qed.

Lemma strict_neq_str_true v s : v <> JStr s -> strict_neq_str v s = true.
Proof.
  destruct v as [| |b|z|s'|fs]; simpl; try reflexivity.
  intros H. destruct (String.eqb_spec s' s) as [->|]; [contradiction|reflexivity].
Qed.

Lemma strict_neq_str_false v s : strict_neq_str v s = false -> v = JStr s.
Proof.
  destruct v as [| |b|z|s'|fs]; simpl; try discriminate.
  destruct (String.eqb_spec s' s) as [->|]; [reflexivity|discriminate].
Qed.

(** The claim C4 as worded fails: the login issues the nonce [uuid-1] and
    hands it to the user agent as a cookie; when the redirect comes back
    with the state cookie but without the nonce cookie, an ID token whose
    nonce claim is [uuid-9] is not refused: the callback signs a session
    and sets the session cookie. *)
Lemma C4_counterexample :
  let login_out := Session.handle Demo.replay_host Demo.login_request Demo.world0 in
  Session.receive ∅ (fst login_out) !! "auth_nonce" = Some "uuid-1" /\
  ~ Worded.nonce_mismatch_is_fatal Demo.replay_host "uuid-1"
      (mkCtx Demo.callback_without_nonce None) (snd login_out).
Proof.
  cbv zeta. split; [reflexivity|]. intros H.
  assert (E : Session.idTokenOfFlow Demo.replay_host
                (mkCtx Demo.callback_without_nonce None)
                (snd (Session.handle Demo.replay_host Demo.login_request Demo.world0))
              = (Val (Some Demo.replayed_payload),
                 snd (Session.idTokenOfFlow Demo.replay_host
                        (mkCtx Demo.callback_without_nonce None)
                        (snd (Session.handle Demo.replay_host Demo.login_request
                                Demo.world0)))))
    by (vm_compute; reflexivity).
  destruct (H _ _ E) as (r & w' & Hcb & Hc & _); [discriminate|].
  vm_compute in Hcb. injection Hcb as <- _. discriminate Hc.
Qed.

(** C4, amended. In the session backend the nonce is checked whenever the
    callback request brings back the nonce cookie that login issued: a
    verified ID token whose nonce claim is not that stored nonce is then
    answered 400 "Invalid nonce", the answer sets no cookie, and no
    session token was signed. When the request brings no nonce cookie, or
    an empty one, nothing is compared: a verified ID token is answered
    with the redirect that sets the session cookie, one session signed,
    whatever its nonce claim. *)
Theorem C4_nonce_mismatch_is_fatal :
  (forall (env : Session.Host) (c : Ctx) (w w' : World) (n : string) (idToken : jsval),
     cookies (req c) !! "auth_nonce" = Some n ->
     n <> "" ->
     Session.idTokenOfFlow env c w = (Val (Some idToken), w') ->
     Session.claim idToken "nonce" <> JStr n ->
     exists r,
       Session.callback env c w = (Val r, w') /\
       code r = 400 /\ body r = Text "Invalid nonce" /\
       setCookies r = [] /\
       minted w' = minted w) /\
  (forall (env : Session.Host) (c : Ctx) (w w1 : World) (idToken : jsval),
     truthyS (cookies (req c) !! "auth_nonce") = false ->
     Session.idTokenOfFlow env c w = (Val (Some idToken), w1) ->
     Session.callback env c w =
       (Val (c_redirect (Session.APP_URL env)
               [SetCookie "session"
                  (Session.signSession env (Session.sessionClaims idToken)
                     (arrival (req c)))
                  Session.sessionCookie;
                DeleteCookie "auth_state"; DeleteCookie "auth_nonce"]),
        set_minted (app (minted w1) [Session.sessionClaims idToken]) w1)).
Proof.
  split.
  - intros env c w w' n idToken Hn Hne Hflow Hmis.
    destruct (idTokenOfFlow_frame _ _ _ _ _ Hflow) as (Hm & _).
    exists (c_text "Invalid nonce" 400).
    split; [|repeat split; assumption].
    rewrite (callback_after_verification env c w idToken w' Hflow).
    rewrite Hn. simpl.
    rewrite (proj2 (String.eqb_neq n "")) by exact Hne.
    rewrite (strict_neq_str_true _ _ Hmis). reflexivity.
  - intros env c w w1 idToken Hn Hflow.
    rewrite (callback_after_verification env c w idToken w1 Hflow).
    rewrite Hn. reflexivity.
Qed.

Lemma C4_witness :
  (exists r,
     Session.callback (Demo.session_host 200)
       (mkCtx (Demo.callback_request "uuid-0" "uuid-9") None) Demo.world0
       = (Val r, snd (Session.idTokenOfFlow (Demo.session_host 200)
                        (mkCtx (Demo.callback_request "uuid-0" "uuid-9") None) Demo.world0)) /\
     code r = 400 /\ body r = Text "Invalid nonce" /\
     setCookies r = [] /\
     minted (snd (Session.idTokenOfFlow (Demo.session_host 200)
                    (mkCtx (Demo.callback_request "uuid-0" "uuid-9") None) Demo.world0))
       = minted Demo.world0) /\
  Session.callback Demo.replay_host (mkCtx Demo.callback_without_nonce None) Demo.world0 =
    (Val (c_redirect (Session.APP_URL Demo.replay_host)
            [SetCookie "session"
               (Session.signSession Demo.replay_host
                  (Session.sessionClaims Demo.replayed_payload)
                  (arrival (req (mkCtx Demo.callback_without_nonce None))))
               Session.sessionCookie;
             DeleteCookie "auth_state"; DeleteCookie "auth_nonce"]),
     set_minted
       (app (minted (snd (Session.idTokenOfFlow Demo.replay_host
                            (mkCtx Demo.callback_without_nonce None) Demo.world0)))
            [Session.sessionClaims Demo.replayed_payload])
       (snd (Session.idTokenOfFlow Demo.replay_host
               (mkCtx Demo.callback_without_nonce None) Demo.world0))).
Proof.
  split.
  - apply (proj1 C4_nonce_mismatch_is_fatal (Demo.session_host 200)
             (mkCtx (Demo.callback_request "uuid-0" "uuid-9") None) Demo.world0
             _ "uuid-9" Demo.id_payload).
    + reflexivity.
    + discriminate.
    + reflexivity.
    + discriminate.
  - apply (proj2 C4_nonce_mismatch_is_fatal Demo.replay_host
             (mkCtx Demo.callback_without_nonce None) Demo.world0).
    + reflexivity.
    + reflexivity.
Defined.

(** Conversely: a session cookie goes out only for a verified ID token
    whose nonce claim is the stored nonce, whenever a nonce is stored. *)
Lemma session_delivered_only_on_matching_nonce env c w r w' n session opts :
  cookies (req c) !! "auth_nonce" = Some n -> n <> "" ->
  Session.callback env c w = (Val r, w') ->
  In (SetCookie "session" session opts) (setCookies r) ->
  exists idToken w1,
    Session.idTokenOfFlow env c w = (Val (Some idToken), w1) /\
    Session.claim idToken "nonce" = JStr n.
Proof.
  intros Hn Hne Hcb Hin.
  destruct (Session.idTokenOfFlow env c w) as [[[idToken|]|e] w1] eqn:Hflow.
  - exists idToken, w1. split; [reflexivity|].
    rewrite (callback_after_verification env c w idToken w1 Hflow) in Hcb.
    rewrite Hn in Hcb. simpl in Hcb.
    rewrite (proj2 (String.eqb_neq n "")) in Hcb by exact Hne. simpl in Hcb.
    destruct (strict_neq_str (Session.claim idToken "nonce") n) eqn:Hs.
    + injection Hcb as <- _. destruct Hin.
    + apply strict_neq_str_false. exact Hs.
  - rewrite (callback_without_verification env c w w1 r w' Hflow Hcb) in Hin.
    destruct Hin.
  - rewrite (callback_throws_with_flow env c w e w1 Hflow) in Hcb. discriminate.
Qed.

(* ===================================================================== *)
(** ** Credentials are judged whole, as far as each side checks them *)
(* ===================================================================== *)

(** The claim C6 as worded fails in the browser: with a refresh token at
    hand, an access token that [isTokenExpired] rejects still makes
    [isAuthenticated] true and [getUser] name the user; and a refresh that
    is answered with such a token makes [getAccessToken] return it. *)
Lemma C6_counterexample :
  Auth.isTokenExpired (Demo.browser 200 "stale") Demo.now0 "h.soon.s" = true /\
  Auth.isAuthenticated (Demo.browser 200 "stale") Demo.now0 Demo.tab_soon = true /\
  Auth.getUser (Demo.browser 200 "stale") Demo.now0 Demo.tab_soon = Some Demo.user1 /\
  fst (Auth.getAccessToken (Demo.browser 200 "stale") Demo.now0 Demo.tab_soon)
    = Val (Some "h.soon.s").
Proof. vm_compute. repeat split; reflexivity. Qed.

(** A token that [getAccessToken] returns is the stored one, found
    decodable and outside the 60-second buffer, or the access token of a
    refresh answer received during the call. *)
Lemma getAccessToken_origin (env : Auth.Browser) now w t w' :
  Auth.getAccessToken env now w = (Val (Some t), w') ->
  (Auth._accessToken w = Some t /\ t <> "" /\
   Auth.isTokenExpired env now t = false /\ w' = w) \/
  (exists i rq res toks,
     (length (Auth.netlog w) <= i)%nat /\
     params_get "grant_type" (form rq) = Some "refresh_token" /\
     Auth.net env i rq = Resp res /\ ok res = true /\
     Auth.jsonTokens env (Net.text res) = Some toks /\ access_token toks = t).
Proof.
  unfold Auth.getAccessToken. eff.
  destruct (Auth.fresh env now (Auth._accessToken w)) eqn:Hf.
  - intros [= Ha <-]. left. unfold Auth.fresh in Hf. rewrite Ha in Hf.
    apply andb_prop in Hf as [Ht He].
    destruct (truthyS_some _ Ht) as (s & [= <-] & Hne).
    simpl in He. apply negb_true_iff in He. auto.
  - destruct (truthyS (Auth._refreshToken w)) eqn:Hr; [|discriminate].
    unfold Auth.refreshAccessToken, Auth.clearTokens, Auth.fetch. eff.
    rewrite Hr. simpl.
    destruct (Auth.getOIDCConfig env w) as [[d|e] w1] eqn:Hc; [|discriminate].
    destruct (getOIDCConfig_frame _ _ _ _ Hc) as (_ & _ & _ & _ & _ & Hlog).
    destruct (fields d) as [cfg|]; simpl; [|discriminate].
    destruct (Auth.net env _ _) as [|res] eqn:Hn; simpl; [discriminate|].
    destruct (ok res) eqn:Hok; simpl; [|discriminate].
    destruct (Auth.jsonTokens env (Net.text res)) as [toks|] eqn:Hj; simpl; [|discriminate].
    match goal with
    | |- context [Auth.storeTokens ?e ?a ?r ?x] =>
        destruct (storeTokens_spec e a r x) as (w2 & Hst & Ha & _)
    end.
    rewrite Hst. simpl. rewrite Ha. intros [= <- _].
    right. exists (length (Auth.netlog w1)), (Auth.refreshRequest cfg
      (default "" (Auth._refreshToken w))), res, toks.
    repeat split; try assumption.
    destruct Hlog as [-> | ->]; [lia|]. rewrite length_app. lia.
Qed.

(** C6, amended. A session cookie that does not verify gives no session.
    In the browser, where a token is judged by its decoded expiry alone:
    [getAccessToken] hands out the stored token only if it decodes and is
    outside the 60-second buffer, and otherwise only the access token of a
    refresh answer received during the call; [getUser] and
    [isAuthenticated] report nothing for a token that is missing,
    undecodable or expired when no refresh token is held, and with an
    access token and a refresh token held they report authenticated and the
    stored user whatever the state of the access token. *)
Theorem C6_credentials_as_each_side_checks_them :
  (forall (env : Session.Host) (c : Ctx),
     (forall t, cookies (req c) !! "session" = Some t -> Session.verifySession env t = None) ->
     Session.getSession env c = None) /\
  (forall (env : Auth.Browser) (now : Z) (w w' : Auth.World) (t : string),
     Auth.getAccessToken env now w = (Val (Some t), w') ->
     (Auth._accessToken w = Some t /\ t <> "" /\
      Auth.isTokenExpired env now t = false /\ w' = w) \/
     (exists i rq res toks,
        (length (Auth.netlog w) <= i)%nat /\
        params_get "grant_type" (form rq) = Some "refresh_token" /\
        Auth.net env i rq = Resp res /\ ok res = true /\
        Auth.jsonTokens env (Net.text res) = Some toks /\ access_token toks = t)) /\
  (forall (env : Auth.Browser) (now : Z) (w : Auth.World),
     Auth.fresh env now (Auth._accessToken w) = false ->
     truthyS (Auth._refreshToken w) = false ->
     Auth.isAuthenticated env now w = false /\ Auth.getUser env now w = None) /\
  (forall (env : Auth.Browser) (now : Z) (w : Auth.World),
     truthyS (Auth._accessToken w) = true ->
     truthyS (Auth._refreshToken w) = true ->
     Auth.isAuthenticated env now w = true /\ Auth.getUser env now w = Auth._user w).
Proof.
  split; [|split; [|split]].
  - intros env c H. unfold Session.getSession.
    destruct (cookies (req c) !! "session") as [t|]; simpl; [|reflexivity].
    destruct (negb (String.eqb t "")); [|reflexivity]. simpl. apply H. reflexivity.
  - intros env now w w' t. apply getAccessToken_origin.
  - intros env now w Hf Hr. unfold Auth.fresh in Hf.
    unfold Auth.isAuthenticated, Auth.getUser. rewrite Hr. simpl.
    destruct (truthyS (Auth._accessToken w)); simpl in *; [|auto].
    apply negb_false_iff in Hf. rewrite Hf. auto.
  - intros env now w Ha Hr.
    unfold Auth.isAuthenticated, Auth.getUser. rewrite Ha, Hr. simpl.
    rewrite orb_true_r, andb_false_r. auto.
Qed.

Lemma C6_witness :
  Session.getSession (Demo.session_host 200)
    (mkCtx (Demo.get_todos None (<["session" := "forged"]> ∅)) None) = None /\
  ((Auth._accessToken Demo.tab_soon = Some "h.live.s" /\ "h.live.s" <> "" /\
    Auth.isTokenExpired (Demo.browser 200 "tokens") Demo.now0 "h.live.s" = false /\
    snd (Auth.getAccessToken (Demo.browser 200 "tokens") Demo.now0 Demo.tab_soon)
      = Demo.tab_soon) \/
   (exists i rq res toks,
      (length (Auth.netlog Demo.tab_soon) <= i)%nat /\
      params_get "grant_type" (form rq) = Some "refresh_token" /\
      Auth.net (Demo.browser 200 "tokens") i rq = Resp res /\ ok res = true /\
      Auth.jsonTokens (Demo.browser 200 "tokens") (Net.text res) = Some toks /\
      access_token toks = "h.live.s")) /\
  (Auth.isAuthenticated (Demo.browser 200 "tokens") Demo.now0 Demo.tab_soon_only = false /\
   Auth.getUser (Demo.browser 200 "tokens") Demo.now0 Demo.tab_soon_only = None) /\
  (Auth.isAuthenticated (Demo.browser 200 "tokens") Demo.now0 Demo.tab_soon = true /\
   Auth.getUser (Demo.browser 200 "tokens") Demo.now0 Demo.tab_soon
     = Auth._user Demo.tab_soon).
Proof.
  split; [|split; [|split]].
  - apply (proj1 C6_credentials_as_each_side_checks_them (Demo.session_host 200)
             (mkCtx (Demo.get_todos None (<["session" := "forged"]> ∅)) None)).
    intros t Ht. vm_compute in Ht. injection Ht as <-. reflexivity.
  - apply (proj1 (proj2 C6_credentials_as_each_side_checks_them)
             (Demo.browser 200 "tokens") Demo.now0 Demo.tab_soon).
    reflexivity.
  - apply (proj1 (proj2 (proj2 C6_credentials_as_each_side_checks_them))
             (Demo.browser 200 "tokens") Demo.now0 Demo.tab_soon_only); reflexivity.
  - apply (proj2 (proj2 (proj2 C6_credentials_as_each_side_checks_them))
             (Demo.browser 200 "tokens") Demo.now0 Demo.tab_soon); reflexivity.
Defined.

(* ===================================================================== *)
(** ** The code exchange *)
(* ===================================================================== *)


Lemma session_getOIDCConfig_netlog env w r w1 :
  Session.getOIDCConfig env w = (r, w1) ->
  exists rest, netlog w1 = (netlog w ++ rest)%list /\ (length rest <= 1)%nat.
Proof.
  unfold Session.getOIDCConfig, Session.fetch. eff.
  destruct (oidcConfig w) as [cfg|]; simpl.
  - intros [= <- <-]. exists []. rewrite app_nil_r. split; [reflexivity|simpl; lia].
  - destruct (Session.net env _ _) as [|res]; simpl;
      [intros [= <- <-]; simpl; eexists; split; [reflexivity|simpl; lia]|].
    destruct (Session.jsonConfig env _) as [d|]; simpl;
      intros [= <- <-]; simpl; eexists; split; try reflexivity; simpl; lia.
Qed.




(* ===================================================================== *)
(** ** The text of a todo *)
(* ===================================================================== *)

Lemma trim_start_eq s :
  trim_start s = match white_space s with Some r => trim_start r | None => s end.
Proof.
  destruct s as [|a [|b [|c s3]]]; cbn [trim_start white_space]; try reflexivity.
  - destruct (is_space a); reflexivity.
  - destruct (is_space a); [reflexivity|]. destruct (is_space2 a b); reflexivity.
  - destruct (is_space a); [reflexivity|]. destruct (is_space2 a b); [reflexivity|].
    destruct (is_space3 a b c); reflexivity.
Qed.

Lemma white_space_shorter s r :
  white_space s = Some r -> (String.length r < String.length s)%nat.
Proof.
  destruct s as [|a [|b [|c s3]]]; cbn [white_space]; try discriminate.
  - destruct (is_space a); [intros [= <-]; simpl; lia|discriminate].
  - destruct (is_space a); [intros [= <-]; simpl; lia|].
    destruct (is_space2 a b); [intros [= <-]; simpl; lia|discriminate].
  - destruct (is_space a); [intros [= <-]; simpl; lia|].
    destruct (is_space2 a b); [intros [= <-]; simpl; lia|].
    destruct (is_space3 a b c); [intros [= <-]; simpl; lia|discriminate].
Qed.

Lemma white_space_app s r t :
  white_space s = Some r -> white_space (s ++ t) = Some (r ++ t).
Proof.
  destruct s as [|a s1]; simpl; [discriminate|].
  destruct (is_space a); [intros [= <-]; reflexivity|].
  destruct s1 as [|b s2]; simpl; [discriminate|].
  destruct (is_space2 a b); [intros [= <-]; reflexivity|].
  destruct s2 as [|c s3]; simpl; [discriminate|].
  destruct (is_space3 a b c); [intros [= <-]; reflexivity|discriminate].
Qed.

Lemma string_strong_ind (P : string -> Prop) :
  (forall s, (forall r, (String.length r < String.length s)%nat -> P r) -> P s) ->
  forall s, P s.
Proof.
  intros H s. remember (String.length s) as n eqn:E.
  revert s E. induction n as [n IH] using lt_wf_ind. intros s ->.
  apply H. intros r Hr. exact (IH _ Hr r eq_refl).
Qed.

(** What [trim_start] leaves does not begin with white space. *)
Lemma trim_start_clean s : white_space (trim_start s) = None.
Proof.
  induction s as [s IH] using string_strong_ind.
  rewrite trim_start_eq. destruct (white_space s) as [r|] eqn:E; [|exact E].
  apply IH. exact (white_space_shorter s r E).
Qed.

Lemma trim_start_fixed s : white_space s = None -> trim_start s = s.
Proof. intros H. rewrite trim_start_eq, H. reflexivity. Qed.

(** A text made of white space only, followed by [t]. *)
Lemma trim_start_app s t : trim_start s = "" -> trim_start (s ++ t) = trim_start t.
Proof.
  induction s as [s IH] using string_strong_ind. intros H.
  rewrite trim_start_eq in H.
  destruct (white_space s) as [r|] eqn:E.
  - rewrite trim_start_eq, (white_space_app s r t E).
    apply IH; [exact (white_space_shorter s r E)|exact H].
  - subst s. reflexivity.
Qed.

Lemma trim_end_split s : exists t, s = trim_end s ++ t /\ trim_start t = "".
Proof.
  induction s as [|c s IH]; [exists ""; split; reflexivity|].
  cbn [trim_end]. destruct (trim_start (String c s)) as [|d u] eqn:E.
  - exists (String c s). split; [reflexivity|exact E].
  - destruct IH as (t & Hs & Ht). exists t. split; [|exact Ht].
    change (String c s = String c (trim_end s ++ t)). now rewrite <- Hs.
Qed.

Lemma trim_end_idem s : trim_end (trim_end s) = trim_end s.
Proof.
  induction s as [|c s IH]; [reflexivity|].
  cbn [trim_end]. destruct (trim_start (String c s)) as [|d u] eqn:E; [reflexivity|].
  cbn [trim_end]. rewrite IH.
  destruct (trim_start (String c (trim_end s))) as [|d' u'] eqn:E'; [|reflexivity].
  destruct (trim_end_split s) as (t & Hs & Ht).
  assert (H : trim_start (String c (trim_end s) ++ t) = trim_start t)
    by (apply trim_start_app; exact E').
  change (String c (trim_end s) ++ t) with (String c (trim_end s ++ t)) in H.
  rewrite <- Hs in H. rewrite E, Ht in H. discriminate.
Qed.

Lemma white_space_prefix s t : white_space (s ++ t) = None -> s <> "" -> white_space s = None.
Proof.
  intros H Hne. destruct (white_space s) as [r|] eqn:E; [|reflexivity].
  rewrite (white_space_app s r t E) in H. discriminate.
Qed.

(** What [trim] returns is itself trimmed. *)
Lemma trim_idem s : trim (trim s) = trim s.
Proof.
  unfold trim.
  assert (H : trim_start (trim_end (trim_start s)) = trim_end (trim_start s)).
  { destruct (trim_end_split (trim_start s)) as (t & Hs & _).
    apply trim_start_fixed.
    destruct (trim_end (trim_start s)) as [|d u] eqn:E; [reflexivity|].
    apply (white_space_prefix _ t); [|discriminate].
    rewrite <- Hs. apply trim_start_clean. }
  rewrite H. apply trim_end_idem.
Qed.

(** A text of no-break spaces is blank; a byte order mark and a line
    separator are trimmed like blanks. *)
Example trim_unicode :
  trim (String (ascii_of_nat 194) (String (ascii_of_nat 160) "")) = "" /\
  trim (String (ascii_of_nat 239) (String (ascii_of_nat 187) (String (ascii_of_nat 191)
          (" a b " ++ String (ascii_of_nat 226) (String (ascii_of_nat 128)
                                (String (ascii_of_nat 168) ""))))))
    = "a b".
Proof. split; reflexivity. Qed.

(** Creation keeps the invariant: whatever POST stores is a non-empty,
    trimmed text, and blank text is refused with 400. *)
Lemma postTodo_stores_trimmed c w r w' :
  postTodo c w = (Val r, w') ->
  (code r = 400 /\ rows (db w') = rows (db w)) \/
  (code r = 201 /\ exists t, rows (db w') = (rows (db w) ++ [t])%list /\
                    text t <> "" /\ trim (text t) = text t).
Proof.
  unfold postTodo, run, nextval, set_rows. eff.
  destruct (json (req c)) as [b|]; simpl; [|discriminate].
  destruct (prop b "text") as [v|]; simpl; [|discriminate].
  destruct v as [| |b'|z|s|fs]; simpl; try discriminate;
    try (intros [= <- <-]; left; split; reflexivity).
  destruct (String.eqb_spec (trim s) "") as [He|He]; simpl.
  - intros [= <- <-]. left. split; reflexivity.
  - intros [= <- <-]. right. split; [reflexivity|].
    eexists. simpl. split; [reflexivity|]. simpl. split; [exact He|apply trim_idem].
Qed.

Lemma update_rows_total f n l :
  (forall r, f r <> None) ->
  exists l' hit, update_rows f n l = Some (l', hit) /\
    forall r, In r l -> id r = n -> exists r', f r = Some r' /\ In r' l'.
Proof.
  intros Hf. induction l as [|r l IH]; simpl.
  - exists [], []. split; [reflexivity|]. intros r [].
  - destruct IH as (l' & hit & -> & Hin).
    destruct (Z.eqb_spec (id r) n) as [He|He].
    + destruct (f r) as [r'|] eqn:Hr; [|now apply Hf in Hr].
      exists (r' :: l'), (r' :: hit). split; [reflexivity|].
      intros x [<-|Hx] Hid.
      * exists r'. split; [exact Hr|now left].
      * destruct (Hin x Hx Hid) as (x' & Hx' & Hi). exists x'. split; [exact Hx'|now right].
    + exists (r :: l'), hit. split; [reflexivity|].
      intros x [<-|Hx] Hid; [contradiction|].
      destruct (Hin x Hx Hid) as (x' & Hx' & Hi). exists x'. split; [exact Hx'|now right].
Qed.

(** PATCH stores the text it is sent, as it is sent, on every row it hits. *)
Lemma patchTodo_stores_text_as_sent pg ident n s c w :
  int4_in pg ident = Some n ->
  json (req c) = Some (JObj [("text", JStr s)]) ->
  exists r w',
    patchTodo pg ident c w = (Val r, w') /\
    forall t, In t (rows (db w)) -> id t = n ->
      In (mkTodo n s (completed t) (created_at t)) (rows (db w')).
Proof.
  intros Hid Hj. unfold patchTodo, run, set_rows. eff. rewrite Hj. simpl. rewrite Hid. simpl.
  destruct (update_rows_total
              (apply_update true (Some s) false None) n (rows (db w)))
    as (l' & hit & Hu & Hin).
  { intros r. unfold apply_update. discriminate. }
  unfold apply_update in *. simpl in *. rewrite Hu. simpl.
  destruct hit as [|h hit']; eexists; eexists; (split; [reflexivity|]); simpl;
    intros t Ht Hn; destruct (Hin t Ht Hn) as (t' & [= <-] & Hi); rewrite <- Hn; exact Hi.
Qed.

(** POST /api/todos {"text": "  "} is refused, and nothing is stored. *)
Example post_blank_refused :
  Open.handle Demo.pg0
    (mkHttpRequest CreateTodo None ∅ [] (Some (JObj [("text", JStr "  ")])) 100)
    Demo.world0
  = (c_json (JsonError "text is required") 400, Demo.world0).
Proof. reflexivity. Qed.

(** POST /api/todos {"text": " Buy bread "} stores the trimmed text. *)
Example post_trims :
  let out := Open.handle Demo.pg0
               (mkHttpRequest CreateTodo None ∅ []
                  (Some (JObj [("text", JStr " Buy bread ")])) 100)
               Demo.world0 in
  fst out = c_json (JsonRow (mkTodo 2 "Buy bread" false 100)) 201 /\
  rows (db (snd out)) = [mkTodo 1 "Buy milk" false 10; mkTodo 2 "Buy bread" false 100].
Proof. vm_compute. split; reflexivity. Qed.

(** C9. The code at PATCH /api/todos/1 with the body {"text": "  "}, on a
    store that holds todo 1: the answer is 200 and the stored text is the
    two blanks, a text whose trimmed form is empty. It is so without
    authentication and behind the bearer guard alike. *)
Theorem C9_patch_stores_blank_text :
  (let out := Open.handle Demo.pg0 Demo.patch_blank Demo.world0 in
   code (fst out) = 200 /\
   rows (db (snd out)) = [mkTodo 1 "  " false 10]) /\
  (let rq := mkHttpRequest (PatchTodo "1") (Some "Bearer good") ∅ []
               (Some (JObj [("text", JStr "  ")])) 100 in
   let out := Bearer.handle Demo.bearer_host rq Demo.world0 in
   code (fst out) = 200 /\
   rows (db (snd out)) = [mkTodo 1 "  " false 10]) /\
  trim "  " = "".
Proof. vm_compute. repeat split; reflexivity. Qed.

(* ===================================================================== *)
(** ** The PKCE helpers *)
(* ===================================================================== *)

Section PkceFacts.
Import Pkce.

Lemma list_ind3 {A} (P : list A -> Prop) :
  P [] -> (forall a, P [a]) -> (forall a b, P [a; b]) ->
  (forall a b c l, P l -> P (a :: b :: c :: l)) ->
  forall l, P l.
Proof.
  intros H0 H1 H2 H3 l.
  assert (H : P l /\ (forall a, P (a :: l)) /\ (forall a b, P (a :: b :: l))).
  { induction l as [|x l (IH0 & IH1 & IH2)]; [auto|].
    split; [apply IH1|]. split; [intros a; apply IH2|].
    intros a b. apply H3. exact IH0. }
  apply H.
Qed.

Lemma b64char_cases n :
  (n < 64)%nat ->
  (n < 62 /\ url_safe (b64char n) = true /\
     b64char n <> "+"%char /\ b64char n <> "/"%char /\ b64char n <> "="%char)%nat \/
  (n = 62%nat /\ b64char n = "+"%char) \/ (n = 63%nat /\ b64char n = "/"%char).
Proof.
  intros H.
  do 64 (destruct n as [|n];
         [vm_compute; first [ left; repeat split; (lia || discriminate || reflexivity)
                            | right; left; split; reflexivity
                            | right; right; split; reflexivity ] |]).
  lia.
Qed.

(** After the two replacements a sextet is a URL-safe character. *)
Lemma tr_b64char n :
  (n < 64)%nat -> url_safe (tr (b64char n)) = true /\ tr (b64char n) <> "="%char.
Proof.
  intros H. destruct (b64char_cases n H) as [(_ & Hu & Hp & Hs & He)|[[_ ->]|[_ ->]]].
  - unfold tr. rewrite (proj2 (Ascii.eqb_neq _ _) Hp), (proj2 (Ascii.eqb_neq _ _) Hs).
    auto.
  - vm_compute. split; [reflexivity|discriminate].
  - vm_compute. split; [reflexivity|discriminate].
Qed.

Lemma replace_replace s :
  replace_char "/"%char "_"%char (replace_char "+"%char "-"%char s) = map_chars tr s.
Proof. induction s as [|x s IH]; simpl; [reflexivity|]. now rewrite IH. Qed.

(** A string of URL-safe characters has no padding to strip. *)
Lemma strip_pad_clean s :
  all_chars (fun x => url_safe x && negb (Ascii.eqb x "="%char)) s = true ->
  strip_pad s = s.
Proof.
  induction s as [|x s IH]; simpl; [reflexivity|].
  intros H. apply andb_prop in H as [Hx Hs]. rewrite (IH Hs).
  apply andb_prop in Hx as [_ Hx]. apply negb_true_iff in Hx. rewrite Hx.
  destruct s; reflexivity.
Qed.

Lemma strip_pad_cons x s :
  Ascii.eqb x "="%char = false -> strip_pad (String x s) = String x (strip_pad s).
Proof. intros H. simpl. rewrite H. destruct (strip_pad s); reflexivity. Qed.

Lemma sextet_bounds a b c :
  (a < 256)%nat -> (b < 256)%nat -> (c < 256)%nat ->
  (a / 4 < 64 /\ a mod 4 * 16 + b / 16 < 64 /\ b mod 16 * 4 + c / 64 < 64 /\
   c mod 64 < 64 /\ a mod 4 * 16 < 64 /\ b mod 16 * 4 < 64)%nat.
Proof.
  intros Ha Hb Hc.
  pose proof (Nat.mod_upper_bound a 4). pose proof (Nat.mod_upper_bound b 16).
  pose proof (Nat.mod_upper_bound c 64).
  assert (a / 4 < 64)%nat by (apply Nat.Div0.div_lt_upper_bound; lia).
  assert (b / 16 < 16)%nat by (apply Nat.Div0.div_lt_upper_bound; lia).
  assert (c / 64 < 4)%nat by (apply Nat.Div0.div_lt_upper_bound; lia).
  lia.
Qed.

(** The shape of [base64url]: URL-safe characters only, four for every
    three bytes, rounded up. *)
Lemma base64url_shape bytes :
  Forall (fun b => (b < 256)%nat) bytes ->
  all_chars (fun x => url_safe x && negb (Ascii.eqb x "="%char)) (base64url bytes) = true /\
  String.length (base64url bytes) = ((4 * length bytes + 2) / 3)%nat.
Proof.
  unfold base64url. rewrite replace_replace.
  induction bytes as [|a|a b|a b c l IH] using list_ind3; intros HF.
  - split; reflexivity.
  - apply Forall_cons in HF as [Ha _].
    destruct (sextet_bounds a 0 0 Ha ltac:(lia) ltac:(lia)) as (H1 & _ & _ & _ & H2 & _).
    destruct (tr_b64char _ H1) as [U1 E1]. destruct (tr_b64char _ H2) as [U2 E2].
    apply Ascii.eqb_neq in E1, E2.
    cbn [btoa map_chars]. rewrite !strip_pad_cons by assumption.
    change (strip_pad (String (tr "="%char) (String (tr "="%char) EmptyString)))
      with EmptyString.
    cbn [all_chars String.length]. rewrite U1, U2, E1, E2. split; reflexivity.
  - apply Forall_cons in HF as [Ha HF]. apply Forall_cons in HF as [Hb _].
    destruct (sextet_bounds a b 0 Ha Hb ltac:(lia)) as (H1 & H2 & _ & _ & _ & H3).
    destruct (tr_b64char _ H1) as [U1 E1]. destruct (tr_b64char _ H2) as [U2 E2].
    destruct (tr_b64char _ H3) as [U3 E3].
    apply Ascii.eqb_neq in E1, E2, E3.
    cbn [btoa map_chars]. rewrite !strip_pad_cons by assumption.
    change (strip_pad (String (tr "="%char) EmptyString)) with EmptyString.
    cbn [all_chars String.length]. rewrite U1, U2, U3, E1, E2, E3. split; reflexivity.
  - apply Forall_cons in HF as [Ha HF]. apply Forall_cons in HF as [Hb HF].
    apply Forall_cons in HF as [Hc HF].
    destruct (IH HF) as [IHc IHl].
    destruct (sextet_bounds a b c Ha Hb Hc) as (H1 & H2 & H3 & H4 & _ & _).
    destruct (tr_b64char _ H1) as [U1 E1]. destruct (tr_b64char _ H2) as [U2 E2].
    destruct (tr_b64char _ H3) as [U3 E3]. destruct (tr_b64char _ H4) as [U4 E4].
    apply Ascii.eqb_neq in E1, E2, E3, E4.
    cbn [btoa map_chars]. rewrite !strip_pad_cons by assumption.
    cbn [all_chars String.length].
    rewrite U1, U2, U3, U4, E1, E2, E3, E4, IHc, IHl. split; [reflexivity|].
    cbn [length].
    replace (4 * S (S (S (length l))) + 2)%nat with ((4 * length l + 2) + 4 * 3)%nat by lia.
    rewrite Nat.div_add by lia. lia.
Qed.

Lemma all_chars_weaken (p q : ascii -> bool) s :
  (forall x, p x = true -> q x = true) -> all_chars p s = true -> all_chars q s = true.
Proof.
  intros H. induction s as [|x s IH]; simpl; [reflexivity|].
  intros Hs. apply andb_prop in Hs as [Hx Hs]. now rewrite (H x Hx), IH.
Qed.

End PkceFacts.

(** [btoa] on the examples of RFC 4648. *)
Example btoa_rfc4648 :
  Pkce.btoa [102; 111; 111; 98; 97; 114]%nat = "Zm9vYmFy" /\
  Pkce.btoa [102; 111; 111; 98; 97]%nat = "Zm9vYmE=" /\
  Pkce.btoa [102; 111; 111; 98]%nat = "Zm9vYg==" /\
  Pkce.base64url [251; 255; 190; 255]%nat = "-_--_w".
Proof. repeat split; reflexivity. Qed.

(** X1. For a buffer of bytes, [base64url] yields letters, digits, [-] and
    [_] only (no [+], [/] or [=] is left), four characters for every three
    bytes, rounded up: 43 characters for the 32 bytes of a SHA-256 digest. *)
Theorem X1_base64url_is_url_safe (buffer : list nat) :
  Forall (fun b => (b < 256)%nat) buffer ->
  Pkce.all_chars Pkce.url_safe (Pkce.base64url buffer) = true /\
  String.length (Pkce.base64url buffer) = ((4 * length buffer + 2) / 3)%nat /\
  (length buffer = 32%nat -> String.length (Pkce.base64url buffer) = 43%nat).
Proof.
  intros H. destruct (base64url_shape buffer H) as [Hc Hl].
  split; [|split; [exact Hl|]].
  - revert Hc. apply all_chars_weaken. intros x Hx. now apply andb_prop in Hx.
  - intros H32. rewrite Hl, H32. reflexivity.
Qed.

Lemma X1_witness :
  Pkce.all_chars Pkce.url_safe (Pkce.base64url (repeat 251%nat 32)) = true /\
  String.length (Pkce.base64url (repeat 251%nat 32))
    = ((4 * length (repeat 251%nat 32) + 2) / 3)%nat /\
  (length (repeat 251%nat 32) = 32%nat ->
   String.length (Pkce.base64url (repeat 251%nat 32)) = 43%nat).
Proof.
  apply (X1_base64url_is_url_safe (repeat 251%nat 32)).
  apply Forall_forall. intros x Hx. apply list_elem_of_In, repeat_spec in Hx. subst x. lia.
Defined.

(* ---- randomString ---- *)

Lemma concat36_cons b l :
  String.concat "" (map Auth.byte36 (b :: l)) =
  String (Auth.digit36 (b / 36))
    (String (Auth.digit36 (b mod 36)) (String.concat "" (map Auth.byte36 l))).
Proof. destruct l; reflexivity. Qed.

Lemma digit36_base36 n : (n < 36)%nat -> Pkce.base36 (Auth.digit36 n) = true.
Proof.
  intros H.
  do 36 (destruct n as [|n]; [reflexivity|]). lia.
Qed.

Lemma randomString_shape bytes : forall len,
  (len <= 2 * length bytes)%nat ->
  Forall (fun b => (b < 256)%nat) bytes ->
  let s := Auth.take_string len (String.concat "" (map Auth.byte36 bytes)) in
  String.length s = len /\ Pkce.all_chars Pkce.base36 s = true /\
  s = Auth.take_string len
        (String.concat "" (map Auth.byte36 (take ((len + 1) / 2) bytes))).
Proof.
  induction bytes as [|b l IH]; intros len Hlen HF.
  - simpl in Hlen. assert (len = 0%nat) by lia. subst. repeat split.
  - apply Forall_cons in HF as [Hb HF]. cbn zeta.
    rewrite concat36_cons.
    assert (H1 : (b / 36 < 36)%nat) by (apply Nat.Div0.div_lt_upper_bound; lia).
    pose proof (Nat.mod_upper_bound b 36 ltac:(lia)) as H2.
    destruct len as [|[|len]].
    + repeat split.
    + cbn [Auth.take_string String.length Pkce.all_chars].
      rewrite (digit36_base36 _ H1). change ((1 + 1) / 2)%nat with 1%nat.
      cbn [take]. rewrite concat36_cons. repeat split.
    + replace ((S (S len) + 1) / 2)%nat with (S ((len + 1) / 2))
        by (replace (S (S len) + 1)%nat with ((len + 1) + 1 * 2)%nat by lia;
            rewrite Nat.div_add by lia; lia).
      cbn [take]. rewrite concat36_cons.
      cbn [Auth.take_string String.length Pkce.all_chars].
      rewrite (digit36_base36 _ H1), (digit36_base36 _ H2).
      simpl in Hlen.
      destruct (IH len ltac:(lia) HF) as (Hl & Hc & Hp). cbn zeta in *.
      rewrite Hl, Hc. rewrite <- Hp. repeat split.
Qed.

(** X2. When the random source fills the array ([length] bytes), the
    string [randomString(length)] has exactly [length] characters, all
    digits or lower-case letters, and it is made of the first
    [ceil(length/2)] bytes only: the rest of the array is cut off by the
    slice. Each call takes a new draw. *)
Theorem X2_randomString_shape (env : Auth.Browser) (len : nat) (w : Auth.World) :
  length (Auth.randomBytes env (Auth.draws w) len) = len ->
  Forall (fun b => (b < 256)%nat) (Auth.randomBytes env (Auth.draws w) len) ->
  exists s,
    Auth.randomString env len w = (Val s, Auth.set_draws (S (Auth.draws w)) w) /\
    String.length s = len /\
    Pkce.all_chars Pkce.base36 s = true /\
    s = Auth.take_string len
          (String.concat ""
             (map Auth.byte36
                (take ((len + 1) / 2) (Auth.randomBytes env (Auth.draws w) len)))).
Proof.
  intros Hlen HF. eexists. split; [reflexivity|].
  apply randomString_shape; [lia|exact HF].
Qed.

Lemma X2_witness :
  exists s,
    Auth.randomString (Demo.browser 200 "tokens") 64 Demo.tab_start
      = (Val s, Auth.set_draws (S (Auth.draws Demo.tab_start)) Demo.tab_start) /\
    String.length s = 64%nat /\
    Pkce.all_chars Pkce.base36 s = true /\
    s = Auth.take_string 64
          (String.concat ""
             (map Auth.byte36
                (take ((64 + 1) / 2)
                   (Auth.randomBytes (Demo.browser 200 "tokens")
                      (Auth.draws Demo.tab_start) 64)))).
Proof.
  apply (X2_randomString_shape (Demo.browser 200 "tokens") 64 Demo.tab_start).
  - reflexivity.
  - apply Forall_forall. intros x Hx. apply list_elem_of_In, repeat_spec in Hx. subst x. simpl. lia.
Defined.

(* ===================================================================== *)
(** ** The auth module beyond the guard *)
(* ===================================================================== *)

Section AuthMore.
Import Js Net AuthFacts.

Lemma getOIDCConfig_asks_again env w :
  Auth._config w = None ->
  Auth.netlog (snd (Auth.getOIDCConfig env w)) = app (Auth.netlog w) [Auth.discovery].
Proof.
  intros E. unfold Auth.getOIDCConfig, Auth.fetch. eff. rewrite E.
  destruct (Auth.net env _ _) as [|res]; simpl; [reflexivity|].
  destruct (Auth.jsonConfig env _); reflexivity.
Qed.

Lemma session_getOIDCConfig_asks_again env w :
  Server.oidcConfig w = None ->
  Server.netlog (snd (Session.getOIDCConfig env w)) =
    app (Server.netlog w)
      [mkRequest "GET" (Session.OIDC_ISSUER env ++ ".well-known/openid-configuration") []].
Proof.
  intros E. unfold Session.getOIDCConfig, Session.fetch. eff. rewrite E.
  destruct (Session.net env _ _) as [|res]; simpl; [reflexivity|].
  destruct (Session.jsonConfig env _); reflexivity.
Qed.

(** X3. Discovery is fetched until a truthy document has come, in the
    browser and on the server alike. After a [getOIDCConfig] that
    returned a truthy document, the next call gives the same document
    without sending anything. A falsy document ([null], [false], [0] or
    the empty string) is returned as it is, without a throw, and is not
    kept: the call has sent the discovery request and the next call sends
    it again. A call that throws has sent the discovery request and cached
    nothing. The status of the answer is not looked at: the document is
    whatever the body parses to. *)
Theorem X3_discovery_is_memoized :
  (forall (env : Auth.Browser) (w w1 : Auth.World) (cfg : OIDCConfig),
     Auth.getOIDCConfig env w = (Val (Doc cfg), w1) ->
     Auth.getOIDCConfig env w1 = (Val (Doc cfg), w1)) /\
  (forall (env : Auth.Browser) (w w1 : Auth.World) (d : Document),
     Auth.getOIDCConfig env w = (Val d, w1) ->
     cached d = None ->
     Auth._config w1 = None /\
     Auth.netlog w1 = app (Auth.netlog w) [Auth.discovery] /\
     Auth.netlog (snd (Auth.getOIDCConfig env w1))
       = app (Auth.netlog w1) [Auth.discovery]) /\
  (forall (env : Auth.Browser) (w w1 : Auth.World) (e : string),
     Auth.getOIDCConfig env w = (Throw e, w1) ->
     Auth._config w1 = None /\
     Auth.netlog w1 = app (Auth.netlog w) [Auth.discovery]) /\
  (forall (env : Auth.Browser) (w : Auth.World) (res : Response) (d : Document),
     Auth._config w = None ->
     Auth.net env (length (Auth.netlog w)) Auth.discovery = Resp res ->
     Auth.jsonConfig env (Net.text res) = Some d ->
     fst (Auth.getOIDCConfig env w) = Val d) /\
  (forall (env : Session.Host) (w w1 : Server.World) (cfg : OIDCConfig),
     Session.getOIDCConfig env w = (Val (Doc cfg), w1) ->
     Session.getOIDCConfig env w1 = (Val (Doc cfg), w1)) /\
  (forall (env : Session.Host) (w w1 : Server.World) (d : Document),
     Session.getOIDCConfig env w = (Val d, w1) ->
     cached d = None ->
     Server.oidcConfig w1 = None /\
     Server.netlog (snd (Session.getOIDCConfig env w1)) =
       app (Server.netlog w1)
         [mkRequest "GET"
            (Session.OIDC_ISSUER env ++ ".well-known/openid-configuration") []]) /\
  (forall (env : Session.Host) (w w1 : Server.World) (e : string),
     Session.getOIDCConfig env w = (Throw e, w1) ->
     Server.oidcConfig w1 = None /\
     exists rq, Server.netlog w1 = app (Server.netlog w) [rq]).
Proof.
  split; [|split; [|split; [|split; [|split; [|split]]]]].
  - intros env w w1 cfg H. pose proof (getOIDCConfig_cached env w _ w1 H) as Hc.
    unfold Auth.getOIDCConfig. eff. now rewrite Hc.
  - intros env w w1 d H Hd.
    assert (Hc : Auth._config w1 = None)
      by (rewrite (getOIDCConfig_cached env w d w1 H); exact Hd).
    split; [exact Hc|]. split; [|exact (getOIDCConfig_asks_again env w1 Hc)].
    revert H. unfold Auth.getOIDCConfig, Auth.fetch. eff.
    destruct (Auth._config w) eqn:E; [intros [= <- _]; discriminate|].
    destruct (Auth.net env _ _) as [|res]; simpl; [discriminate|].
    destruct (Auth.jsonConfig env _); simpl; [|discriminate]. intros [= _ <-]. reflexivity.
  - intros env w w1 e H. revert H. unfold Auth.getOIDCConfig, Auth.fetch. eff.
    destruct (Auth._config w) eqn:E; [discriminate|].
    destruct (Auth.net env _ _) as [|res]; simpl; [intros [= _ <-]; split; [exact E|reflexivity]|].
    destruct (Auth.jsonConfig env _); simpl; [discriminate|].
    intros [= _ <-]. split; [exact E|reflexivity].
  - intros env w res d Hc Hn Hj. unfold Auth.getOIDCConfig, Auth.fetch. eff.
    rewrite Hc. simpl. rewrite Hn. simpl. rewrite Hj. reflexivity.
  - intros env w w1 cfg. unfold Session.getOIDCConfig, Session.fetch. eff.
    destruct (Server.oidcConfig w) as [c|] eqn:E.
    + intros [= <- <-]. now rewrite E.
    + destruct (Session.net env _ _) as [|res]; simpl; [discriminate|].
      destruct (Session.jsonConfig env _); simpl; [|discriminate].
      intros [= -> <-]. reflexivity.
  - intros env w w1 d H Hd.
    assert (Hc : Server.oidcConfig w1 = None).
    { revert H. unfold Session.getOIDCConfig, Session.fetch. eff.
      destruct (Server.oidcConfig w) eqn:E; [intros [= <- _]; discriminate|].
      destruct (Session.net env _ _) as [|res]; simpl; [discriminate|].
      destruct (Session.jsonConfig env _); simpl; [|discriminate].
      intros [= -> <-]. exact Hd. }
    split; [exact Hc|exact (session_getOIDCConfig_asks_again env w1 Hc)].
  - intros env w w1 e H. revert H. unfold Session.getOIDCConfig, Session.fetch. eff.
    destruct (Server.oidcConfig w) eqn:E; [discriminate|].
    destruct (Session.net env _ _) as [|res]; simpl;
      [intros [= _ <-]; split; [exact E|eexists; reflexivity]|].
    destruct (Session.jsonConfig env _); simpl; [discriminate|].
    intros [= _ <-]. split; [exact E|eexists; reflexivity].
Qed.

Lemma X3_witness :
  Auth.getOIDCConfig (Demo.browser 200 "tokens")
    (snd (Auth.getOIDCConfig (Demo.browser 200 "tokens") Demo.tab_start))
  = (Val (Doc Demo.cfg0),
     snd (Auth.getOIDCConfig (Demo.browser 200 "tokens") Demo.tab_start)) /\
  Session.getOIDCConfig (Demo.session_host 200)
    (snd (Session.getOIDCConfig (Demo.session_host 200) Demo.world0))
  = (Val (Doc Demo.cfg0),
     snd (Session.getOIDCConfig (Demo.session_host 200) Demo.world0)).
Proof.
  split.
  - apply (proj1 X3_discovery_is_memoized (Demo.browser 200 "tokens") Demo.tab_start).
    reflexivity.
  - apply (proj1 (proj2 (proj2 (proj2 (proj2 X3_discovery_is_memoized))))
             (Demo.session_host 200) Demo.world0).
    reflexivity.
Defined.

Lemma storeTokens_storage env access refresh w :
  Auth.sessionStorage (snd (Auth.storeTokens env access refresh w)) =
    (if truthyS refresh
     then <["refresh_token" := default "" refresh]>
            (<["access_token" := access]> (Auth.sessionStorage w))
     else <["access_token" := access]> (Auth.sessionStorage w)) /\
  Auth.pathname (snd (Auth.storeTokens env access refresh w)) = Auth.pathname w /\
  Auth.search (snd (Auth.storeTokens env access refresh w)) = Auth.search w.
Proof.
  unfold Auth.storeTokens, Auth.setItem. eff.
  destruct (Auth.decodePayload env access) as [p|]; simpl;
    [destruct (Auth.userOfPayload p); simpl|];
    destruct (truthyS refresh); simpl; repeat split.
Qed.

(** X4. Tokens survive a reload: after [storeTokens] with an access token
    that is not expired and a refresh token, the page loaded anew over the
    same session storage (anywhere but on /callback) and initialised by
    [initAuth] answers true and holds the same access token, refresh token
    and decoded user as before, with the storage unchanged and no request
    sent. *)
Theorem X4_tokens_survive_reload
    (env : Auth.Browser) (now : Z) (access r path : string)
    (q : list (string * string)) (w : Auth.World) :
  access <> "" -> r <> "" ->
  Auth.isTokenExpired env now access = false ->
  path <> "/callback" ->
  let w1 := snd (Auth.storeTokens env access (Some r) w) in
  exists w3,
    Auth.initAuth env now (Auth.load (Auth.sessionStorage w1) path q) = (Val true, w3) /\
    Auth._accessToken w3 = Some access /\
    Auth._refreshToken w3 = Some r /\
    Auth._user w3 = Auth._user w1 /\
    Auth.sessionStorage w3 = Auth.sessionStorage w1 /\
    Auth.netlog w3 = [].
Proof.
  intros Ha Hr Hexp Hp w1.
  destruct (storeTokens_storage env access (Some r) w) as (Hst & _ & _).
  fold w1 in Hst. cbn [truthyS] in Hst.
  rewrite (proj2 (String.eqb_neq r "")) in Hst by exact Hr. cbn [negb default] in Hst.
  assert (Hla : Auth.sessionStorage w1 !! "access_token" = Some access).
  { rewrite Hst. rewrite lookup_insert_ne by discriminate. apply lookup_insert_eq. }
  assert (Hlr : Auth.sessionStorage w1 !! "refresh_token" = Some r).
  { rewrite Hst. apply lookup_insert_eq. }
  destruct (storeTokens_spec env access (Some r) w) as (w1' & E1 & _ & _ & Hu1 & _).
  assert (w1' = w1) by (unfold w1; now rewrite E1). subst w1'.
  clear Hst E1. clearbody w1.
  set (w2 := Auth.load (Auth.sessionStorage w1) path q).
  destruct (storeTokens_spec env access (Some r) w2) as (w3 & E3 & Ha3 & Hr3 & Hu3 & Hl3 & _).
  destruct (storeTokens_storage env access (Some r) w2) as (Hs3 & _ & _).
  rewrite E3 in Hs3. cbn [snd truthyS] in Hs3, Hr3.
  rewrite (proj2 (String.eqb_neq r "")) in Hs3, Hr3 by exact Hr.
  cbn [negb default] in Hs3, Hr3.
  exists w3. split.
  - unfold Auth.initAuth. eff.
    rewrite (proj2 (String.eqb_neq path "/callback")) by exact Hp.
    assert (Ha2 : Auth._accessToken w2 = Some access) by exact Hla.
    assert (Hr2 : Auth._refreshToken w2 = Some r) by exact Hlr.
    rewrite Ha2. simpl.
    rewrite (proj2 (String.eqb_neq access "")) by exact Ha. simpl.
    rewrite Hexp. simpl. rewrite ?Hr2, ?Hlr. simpl.
    rewrite (proj2 (String.eqb_neq r "")) by exact Hr. simpl.
    fold w2. rewrite E3. reflexivity.
  - split; [exact Ha3|]. split; [exact Hr3|]. split; [now rewrite Hu3, Hu1|].
    split; [|exact Hl3].
    rewrite Hs3. subst w2. cbn [Auth.sessionStorage Auth.load].
    rewrite (insert_id _ _ _ Hla). apply insert_id. exact Hlr.
Qed.

Lemma X4_witness :
  let w1 := snd (Auth.storeTokens (Demo.browser 200 "tokens") "h.live.s" (Some "r1")
                   Demo.tab_start) in
  exists w3,
    Auth.initAuth (Demo.browser 200 "tokens") Demo.now0
      (Auth.load (Auth.sessionStorage w1) "/" []) = (Val true, w3) /\
    Auth._accessToken w3 = Some "h.live.s" /\
    Auth._refreshToken w3 = Some "r1" /\
    Auth._user w3 = Auth._user w1 /\
    Auth.sessionStorage w3 = Auth.sessionStorage w1 /\
    Auth.netlog w3 = [].
Proof.
  apply (X4_tokens_survive_reload (Demo.browser 200 "tokens") Demo.now0
           "h.live.s" "r1" "/" [] Demo.tab_start).
  - discriminate.
  - discriminate.
  - reflexivity.
  - discriminate.
Defined.

(** X5. [initAuth] sends a request in two situations only: on the
    /callback page, and when it holds an expired access token together with
    a refresh token. In every other state it sends nothing, and it answers
    false, leaving the state as it is, whenever the stored access token is
    missing or expired: an expired token without a refresh token stays
    where it is. *)
Theorem X5_initAuth_is_quiet (env : Auth.Browser) (now : Z) (w : Auth.World) :
  Auth.pathname w <> "/callback" ->
  (Auth.fresh env now (Auth._accessToken w) = true \/
   truthyS (Auth._accessToken w) = false \/
   truthyS (Auth._refreshToken w) = false) ->
  Auth.netlog (snd (Auth.initAuth env now w)) = Auth.netlog w /\
  (Auth.fresh env now (Auth._accessToken w) = false ->
   Auth.initAuth env now w = (Val false, w)).
Proof.
  intros Hp Hcase. unfold Auth.initAuth, Auth.fresh in *. eff.
  rewrite (proj2 (String.eqb_neq _ "/callback")) by exact Hp.
  destruct (truthyS (Auth._accessToken w)) eqn:Ha; simpl in *; [|split; reflexivity].
  destruct (Auth.isTokenExpired env now _) eqn:He; simpl in *.
  - destruct Hcase as [H|[H|H]]; try discriminate. rewrite H. split; reflexivity.
  - split; [|discriminate].
    match goal with
    | |- context [Auth.storeTokens ?e ?a ?r ?x] =>
        destruct (storeTokens_spec e a r x) as (w3 & E3 & _ & _ & _ & Hl3 & _)
    end.
    rewrite E3. simpl. exact Hl3.
Qed.

Lemma X5_witness :
  Auth.netlog (snd (Auth.initAuth (Demo.browser 200 "tokens") Demo.now0 Demo.tab_soon_only))
    = Auth.netlog Demo.tab_soon_only /\
  (Auth.fresh (Demo.browser 200 "tokens") Demo.now0 (Auth._accessToken Demo.tab_soon_only)
     = false ->
   Auth.initAuth (Demo.browser 200 "tokens") Demo.now0 Demo.tab_soon_only
     = (Val false, Demo.tab_soon_only)).
Proof.
  apply (X5_initAuth_is_quiet (Demo.browser 200 "tokens") Demo.now0 Demo.tab_soon_only).
  - discriminate.
  - right. right. reflexivity.
Defined.

Section LoggedOut.
Variable env : Auth.Browser.









End LoggedOut.


(** X7. The authorization code is used once: a [handleCallback] that
    succeeded has replaced the location by [/] without query, so running
    it again on the same page answers false and sends nothing. *)
Theorem X7_callback_is_not_replayed (env : Auth.Browser) (w w' : Auth.World) :
  Auth.handleCallback env w = (Val true, w') ->
  Auth.pathname w' = "/" /\ Auth.search w' = [] /\
  Auth.handleCallback env w' = (Val false, w').
Proof.
  intros H.
  assert (Hloc : Auth.pathname w' = "/" /\ Auth.search w' = []).
  { revert H. unfold Auth.handleCallback, Auth.getItem, Auth.fetch, Auth.removeItem. eff.
    destruct (truthyS (params_get "error" _)); [discriminate|].
    destruct (truthyS (params_get "code" _)); simpl; [|discriminate].
    destruct (bool_decide _); simpl; [|discriminate].
    destruct (truthyS (Auth.sessionStorage w !! "pkce_verifier")); simpl; [|discriminate].
    destruct (Auth.getOIDCConfig env w) as [[d|e] w1]; [|discriminate].
    destruct (fields d) as [cfg|]; simpl; [|discriminate].
    destruct (Auth.net env _ _) as [|res]; simpl; [discriminate|].
    destruct (ok res); simpl; [|discriminate].
    destruct (Auth.jsonTokens env (Net.text res)) as [toks|]; simpl; [|discriminate].
    match goal with
    | |- context [Auth.storeTokens ?e ?a ?r ?x] =>
        destruct (storeTokens_spec e a r x) as (w2 & Hst & _)
    end.
    rewrite Hst. simpl. intros [= <-]. split; reflexivity. }
  destruct Hloc as [Hp Hs]. split; [exact Hp|]. split; [exact Hs|].
  unfold Auth.handleCallback. eff. rewrite Hs. reflexivity.
Qed.

Lemma X7_witness :
  Auth.pathname (snd (Auth.handleCallback (Demo.browser 200 "tokens") Demo.tab_returned))
    = "/" /\
  Auth.search (snd (Auth.handleCallback (Demo.browser 200 "tokens") Demo.tab_returned))
    = [] /\
  Auth.handleCallback (Demo.browser 200 "tokens")
    (snd (Auth.handleCallback (Demo.browser 200 "tokens") Demo.tab_returned))
  = (Val false, snd (Auth.handleCallback (Demo.browser 200 "tokens") Demo.tab_returned)).
Proof.
  apply (X7_callback_is_not_replayed (Demo.browser 200 "tokens") Demo.tab_returned).
  reflexivity.
Defined.

(** X8. [login] binds the redirect to what it stores: when it returns, the
    browser is sent to the authorization endpoint of the cached discovery
    document, the state in the URL is the one kept under [auth_state], the
    challenge in the URL is the encoded hash of the verifier kept under
    [pkce_verifier], the method is S256, and tokens and user are as they
    were. *)
Theorem X8_login_binds_flow (env : Auth.Browser) (w w' : Auth.World) :
  Auth.login env w = (Val tt, w') ->
  exists cfg url verifier state,
    Auth._config w' = Some cfg /\
    Auth.href w' = Some url /\
    Net.base url = authorization_endpoint cfg /\
    params_get "response_type" (Net.query url) = Some "code" /\
    params_get "code_challenge_method" (Net.query url) = Some "S256" /\
    params_get "state" (Net.query url) = Some state /\
    params_get "code_challenge" (Net.query url)
      = Some (Auth.sha256_base64url env verifier) /\
    Auth.sessionStorage w' !! "pkce_verifier" = Some verifier /\
    Auth.sessionStorage w' !! "auth_state" = Some state /\
    Auth._accessToken w' = Auth._accessToken w /\
    Auth._refreshToken w' = Auth._refreshToken w /\
    Auth._user w' = Auth._user w.
Proof.
  unfold Auth.login, Auth.createPKCE, Auth.randomString, Auth.setItem. eff.
  destruct (Auth.getOIDCConfig env w) as [[d|e] w1] eqn:Hc; [|discriminate].
  destruct (getOIDCConfig_frame _ _ _ _ Hc) as (Ha & Hr & Hu & _).
  pose proof (getOIDCConfig_cached _ _ _ _ Hc) as Hcfg.
  destruct d as [| |cfg]; simpl; try discriminate.
  destruct (Auth.canParse env (authorization_endpoint cfg)); simpl; [|discriminate].
  intros [= <-]. exists cfg. eexists _, _, _. simpl.
  split; [exact Hcfg|].
  do 6 (split; [reflexivity|]). split.
  - rewrite lookup_insert_ne by discriminate. apply lookup_insert_eq.
  - split; [apply lookup_insert_eq|]. auto.
Qed.

Lemma X8_witness :
  exists cfg url verifier state,
    Auth._config Demo.tab_after_login = Some cfg /\
    Auth.href Demo.tab_after_login = Some url /\
    Net.base url = authorization_endpoint cfg /\
    params_get "response_type" (Net.query url) = Some "code" /\
    params_get "code_challenge_method" (Net.query url) = Some "S256" /\
    params_get "state" (Net.query url) = Some state /\
    params_get "code_challenge" (Net.query url)
      = Some (Auth.sha256_base64url (Demo.browser 200 "tokens") verifier) /\
    Auth.sessionStorage Demo.tab_after_login !! "pkce_verifier" = Some verifier /\
    Auth.sessionStorage Demo.tab_after_login !! "auth_state" = Some state /\
    Auth._accessToken Demo.tab_after_login = Auth._accessToken Demo.tab_start /\
    Auth._refreshToken Demo.tab_after_login = Auth._refreshToken Demo.tab_start /\
    Auth._user Demo.tab_after_login = Auth._user Demo.tab_start.
Proof.
  apply (X8_login_binds_flow (Demo.browser 200 "tokens") Demo.tab_start
           Demo.tab_after_login).
  reflexivity.
Defined.

End AuthMore.

(* ===================================================================== *)
(** ** The todo routes *)
(* ===================================================================== *)

Section TodoFacts.
Import Store.

Lemma insert_desc_perm t l : Permutation (insert_desc t l) (t :: l).
Proof.
  induction l as [|x l IH]; simpl; [reflexivity|].
  destruct (created_at x <? created_at t); [reflexivity|].
  rewrite IH. apply perm_swap.
Qed.

Lemma order_desc_perm l : Permutation (order_desc l) l.
Proof.
  induction l as [|x l IH]; simpl; [reflexivity|].
  fold (order_desc l). rewrite insert_desc_perm. now rewrite IH.
Qed.

Lemma insert_desc_hd t l a :
  newer_or_same a t -> HdRel newer_or_same a l -> HdRel newer_or_same a (insert_desc t l).
Proof.
  intros Ht Hl. destruct l as [|x l]; simpl; [now constructor|].
  destruct (created_at x <? created_at t); constructor; [exact Ht|].
  now inversion Hl.
Qed.

Lemma insert_desc_sorted t l :
  Sorted newer_or_same l -> Sorted newer_or_same (insert_desc t l).
Proof.
  induction l as [|x l IH]; simpl; intros Hs.
  - repeat constructor.
  - inversion Hs as [|? ? Hs' Hh]; subst.
    destruct (Z.ltb_spec (created_at x) (created_at t)).
    + constructor; [exact Hs|]. constructor. unfold newer_or_same. lia.
    + constructor; [apply IH; exact Hs'|].
      apply insert_desc_hd; [unfold newer_or_same; lia|exact Hh].
Qed.

Lemma order_desc_sorted l : Sorted newer_or_same (order_desc l).
Proof.
  induction l as [|x l IH]; simpl; [constructor|].
  apply insert_desc_sorted. exact IH.
Qed.

(** The newest row, added last, is listed first. *)
Lemma order_desc_newest l t :
  Forall (fun r => created_at r < created_at t) l ->
  order_desc (l ++ [t]) = t :: order_desc l.
Proof.
  intros H. unfold order_desc. rewrite foldr_app. simpl.
  induction H as [|x l Hx Hl IH]; simpl; [reflexivity|].
  rewrite IH. simpl.
  destruct (Z.ltb_spec (created_at t) (created_at x)); [lia|reflexivity].
Qed.

Lemma getTodos_eq (c : Ctx) (w : World) :
  getTodos c w =
    (Val (c_json (JsonRows (order_desc (rows (db w)))) 200),
     set_db (mkDb (rows (db w)) (next_id (db w))
               (app (statements (db w))
                    ["SELECT * FROM todos ORDER BY created_at DESC"])) w).
Proof. reflexivity. Qed.

Lemma postTodo_eq (c : Ctx) (w : World) (b : jsval) (s : string) :
  json (req c) = Some b ->
  prop b "text" = Some (JStr s) ->
  trim s <> "" ->
  postTodo c w =
    (Val (c_json (JsonRow (mkTodo (next_id (db w)) (trim s) false (arrival (req c)))) 201),
     set_db (mkDb (app (rows (db w))
                       [mkTodo (next_id (db w)) (trim s) false (arrival (req c))])
                  (next_id (db w) + 1)
                  (app (statements (db w))
                       ["INSERT INTO todos (text) VALUES ($1) RETURNING *"])) w).
Proof.
  intros Hj Hp Hne. unfold postTodo, run, nextval, set_rows. eff.
  rewrite Hj. simpl. rewrite Hp. simpl.
  rewrite (proj2 (String.eqb_neq (trim s) "")) by exact Hne. reflexivity.
Qed.

(** X9. GET /api/todos answers 200 with all the stored rows, each once,
    newest first, and changes nothing in the table: only the statement is
    logged. *)
Theorem X9_list_is_sorted_permutation (c : Ctx) (w : World) :
  exists l,
    getTodos c w =
      (Val (c_json (JsonRows l) 200),
       set_db (mkDb (rows (db w)) (next_id (db w))
                 (app (statements (db w))
                      ["SELECT * FROM todos ORDER BY created_at DESC"])) w) /\
    Permutation l (rows (db w)) /\
    Sorted newer_or_same l.
Proof.
  exists (order_desc (rows (db w))). split; [apply getTodos_eq|].
  split; [apply order_desc_perm|apply order_desc_sorted].
Qed.

(** X10. A todo that POST creates is what GET lists first afterwards, with
    the trimmed text, not completed, under the next id of the sequence,
    provided its creation time is later than that of every stored row; the
    rows listed after it are the ones stored before. *)
Theorem X10_created_todo_is_listed_first
    (c c' : Ctx) (w : World) (b : jsval) (s : string) :
  json (req c) = Some b ->
  prop b "text" = Some (JStr s) ->
  trim s <> "" ->
  Forall (fun r => created_at r < arrival (req c)) (rows (db w)) ->
  let t := mkTodo (next_id (db w)) (trim s) false (arrival (req c)) in
  exists w1 w2 rest,
    postTodo c w = (Val (c_json (JsonRow t) 201), w1) /\
    getTodos c' w1 = (Val (c_json (JsonRows (t :: rest)) 200), w2) /\
    Permutation rest (rows (db w)).
Proof.
  intros Hj Hp Hne Hnew t. subst t.
  eexists _, _, (order_desc (rows (db w))).
  split; [apply (postTodo_eq c w b s Hj Hp Hne)|]. split.
  - rewrite getTodos_eq. cbn [rows db set_db].
    rewrite order_desc_newest by exact Hnew. reflexivity.
  - apply order_desc_perm.
Qed.

Lemma X10_witness :
  let c := mkCtx (mkHttpRequest CreateTodo None ∅ []
                    (Some (JObj [("text", JStr " Buy bread ")])) 100) None in
  let t := mkTodo (next_id (db Demo.world0)) (trim " Buy bread ") false (arrival (req c)) in
  exists w1 w2 rest,
    postTodo c Demo.world0 = (Val (c_json (JsonRow t) 201), w1) /\
    getTodos c w1 = (Val (c_json (JsonRows (t :: rest)) 200), w2) /\
    Permutation rest (rows (db Demo.world0)).
Proof.
  apply (X10_created_todo_is_listed_first
           (mkCtx (mkHttpRequest CreateTodo None ∅ []
                     (Some (JObj [("text", JStr " Buy bread ")])) 100) None)
           (mkCtx (mkHttpRequest CreateTodo None ∅ []
                     (Some (JObj [("text", JStr " Buy bread ")])) 100) None)
           Demo.world0 (JObj [("text", JStr " Buy bread ")]) " Buy bread ").
  - reflexivity.
  - reflexivity.
  - discriminate.
  - repeat constructor.
Defined.

(* ---- PATCH ---- *)

Lemma apply_update_patched n (t : option string) (d : option bool) r :
  id r = n ->
  apply_update (bool_decide (is_Some t)) t (bool_decide (is_Some d)) d r
    = Some (patched n t d r).
Proof.
  intros E. unfold patched. rewrite (proj2 (Z.eqb_eq _ _) E).
  destruct t, d; reflexivity.
Qed.

Lemma patched_other n t d r : id r <> n -> patched n t d r = r.
Proof. intros E. unfold patched. now rewrite (proj2 (Z.eqb_neq _ _) E). Qed.

Lemma update_rows_patched n (t : option string) (d : option bool) l :
  update_rows
    (apply_update (bool_decide (is_Some t)) t (bool_decide (is_Some d)) d) n l =
  Some (map (patched n t d) l,
        map (patched n t d) (filter (fun r => id r = n) l)).
Proof.
  induction l as [|r l IH]; [reflexivity|].
  cbn [update_rows]. rewrite IH. rewrite filter_cons. cbn [map].
  destruct (Z.eqb_spec (id r) n) as [E|E].
  - rewrite decide_True by exact E.
    rewrite (apply_update_patched n t d r E). reflexivity.
  - rewrite decide_False by exact E. rewrite (patched_other n t d r E). reflexivity.
Qed.

Lemma patched_id n t d r : id (patched n t d r) = id r.
Proof. unfold patched. destruct (id r =? n); reflexivity. Qed.

(** X11. PATCH /api/todos/:id with a string text and a boolean completed,
    either of which may be missing but not both: when the id reads as an
    integer, the rows with that id get the fields that were sent and keep
    the others, every other row and the sequence are untouched, ids and
    creation times never change; the answer is 200 with the updated row,
    or 404 "not found" when no row has the id, and then the table is as
    before. The text is stored as sent. *)
Theorem X11_patch_updates_sent_fields_only
    (pg : Pg) (ident : string) (n : Z) (c : Ctx) (w : World)
    (b : jsval) (t : option string) (d : option bool) :
  int4_in pg ident = Some n ->
  json (req c) = Some b ->
  prop b "text" = Some (from_option JStr JUndefined t) ->
  prop b "completed" = Some (from_option JBool JUndefined d) ->
  is_Some t \/ is_Some d ->
  exists r w',
    patchTodo pg ident c w = (Val r, w') /\
    rows (db w') = map (patched n t d) (rows (db w)) /\
    map id (rows (db w')) = map id (rows (db w)) /\
    map created_at (rows (db w')) = map created_at (rows (db w)) /\
    next_id (db w') = next_id (db w) /\
    match filter (fun x => id x = n) (rows (db w)) with
    | [] => r = c_json (JsonError "not found") 404 /\ rows (db w') = rows (db w)
    | x :: _ => r = c_json (JsonRow (patched n t d x)) 200
    end.
Proof.
  intros Hid Hj Ht Hd Hsome.
  unfold patchTodo, run, set_rows. eff. rewrite Hj. simpl. rewrite Ht, Hd. simpl.
  assert (Hdt : defined (from_option JStr JUndefined t) = bool_decide (is_Some t))
    by (destruct t; reflexivity).
  assert (Hdd : defined (from_option JBool JUndefined d) = bool_decide (is_Some d))
    by (destruct d; reflexivity).
  assert (Htp : text_param pg (from_option JStr JUndefined t) = t)
    by (destruct t; reflexivity).
  rewrite Hdt, Hdd.
  assert (Hnot : negb (bool_decide (is_Some t)) && negb (bool_decide (is_Some d)) = false).
  { destruct Hsome as [[? ->]|[? ->]]; [reflexivity|apply andb_false_r]. }
  rewrite Hnot.
  assert (Hbp : forall x, bool_param pg (from_option JBool JUndefined d) x = (Val d, x))
    by (intros x; destruct d; reflexivity).
  rewrite Hbp. rewrite Hid. simpl. rewrite Htp.
  rewrite update_rows_patched. simpl.
  assert (Hids : map id (map (patched n t d) (rows (db w))) = map id (rows (db w))).
  { rewrite map_map. apply map_ext. intros x. apply patched_id. }
  assert (Hcr : map created_at (map (patched n t d) (rows (db w)))
                = map created_at (rows (db w))).
  { rewrite map_map. apply map_ext. intros x. unfold patched.
    destruct (id x =? n); reflexivity. }
  destruct (filter (fun x => id x = n) (rows (db w))) as [|x xs] eqn:Hf; simpl.
  - eexists _, _. split; [reflexivity|]. simpl.
    assert (Hsame : map (patched n t d) (rows (db w)) = rows (db w)).
    { rewrite <- (map_id (rows (db w))) at 2. apply map_ext_in. intros y Hy.
      apply patched_other. intros E.
      assert (Hin : y ∈ filter (fun x => id x = n) (rows (db w))).
      { apply list_elem_of_filter. split; [exact E|now apply list_elem_of_In]. }
      rewrite Hf in Hin. inversion Hin. }
    repeat split; assumption.
  - eexists _, _. split; [reflexivity|]. simpl. repeat split; assumption.
Qed.

Lemma X11_witness :
  exists r w',
    patchTodo Demo.pg0 "1"
      (mkCtx (mkHttpRequest (PatchTodo "1") None ∅ []
                (Some (JObj [("completed", JBool true)])) 100) None)
      Demo.world0 = (Val r, w') /\
    rows (db w') = map (patched 1 None (Some true)) (rows (db Demo.world0)) /\
    map id (rows (db w')) = map id (rows (db Demo.world0)) /\
    map created_at (rows (db w')) = map created_at (rows (db Demo.world0)) /\
    next_id (db w') = next_id (db Demo.world0) /\
    match filter (fun x => id x = 1) (rows (db Demo.world0)) with
    | [] => r = c_json (JsonError "not found") 404 /\ rows (db w') = rows (db Demo.world0)
    | x :: _ => r = c_json (JsonRow (patched 1 None (Some true) x)) 200
    end.
Proof.
  apply (X11_patch_updates_sent_fields_only Demo.pg0 "1" 1
           (mkCtx (mkHttpRequest (PatchTodo "1") None ∅ []
                     (Some (JObj [("completed", JBool true)])) 100) None)
           Demo.world0 (JObj [("completed", JBool true)]) None (Some true)).
  - reflexivity.
  - reflexivity.
  - reflexivity.
  - reflexivity.
  - right. eexists. reflexivity.
Defined.

(* ---- DELETE ---- *)

Lemma filter_length_same {A} (P : A -> Prop) `{forall x, Decision (P x)} (l : list A) :
  length (filter P l) = length l -> filter P l = l.
Proof.
  induction l as [|x l IH]; [reflexivity|].
  rewrite filter_cons. destruct (decide (P x)); simpl.
  - intros [= E]. now rewrite IH.
  - intros E. pose proof (length_filter P l). lia.
Qed.

Lemma filter_all {A} (P : A -> Prop) `{forall x, Decision (P x)} (l : list A) :
  Forall P l -> filter P l = l.
Proof.
  induction 1 as [|x l Hx Hl IH]; [reflexivity|].
  rewrite filter_cons, decide_True by exact Hx. now rewrite IH.
Qed.

Lemma filter_shorter {A} (P : A -> Prop) `{forall x, Decision (P x)} (l : list A) :
  Exists (fun x => ~ P x) l -> (length (filter P l) < length l)%nat.
Proof.
  induction 1 as [x l Hx|x l Hl IH]; rewrite filter_cons.
  - rewrite decide_False by exact Hx. pose proof (length_filter P l). simpl. lia.
  - destruct (decide (P x)); simpl; [lia|].
    pose proof (length_filter P l). lia.
Qed.

Lemma deleteTodo_eq (pg : Pg) (ident : string) (n : Z) (c : Ctx) (w : World) :
  int4_in pg ident = Some n ->
  let keep := filter (fun r => bool_decide (id r <> n)) (rows (db w)) in
  deleteTodo pg ident c w =
    (Val (if (length keep =? length (rows (db w)))%nat
          then c_json (JsonError "not found") 404 else c_json JsonOk 200),
     set_db (mkDb keep (next_id (db w))
               (app (statements (db w)) ["DELETE FROM todos WHERE id = $1"])) w).
Proof.
  intros Hid keep. unfold deleteTodo, run, set_rows. eff. rewrite Hid. simpl.
  fold keep. destruct (length keep =? length (rows (db w)))%nat; reflexivity.
Qed.

(** X12. DELETE /api/todos/:id, when the id reads as an integer, removes
    the rows with that id and no other: it answers 200 when there was one
    and 404 "not found" when there was none, leaving the rows as they were;
    a second DELETE of the same id is therefore answered 404. *)
Theorem X12_delete_removes_that_id_only
    (pg : Pg) (ident : string) (n : Z) (c c' : Ctx) (w : World) :
  int4_in pg ident = Some n ->
  exists r w',
    deleteTodo pg ident c w = (Val r, w') /\
    next_id (db w') = next_id (db w) /\
    (forall x, x ∈ rows (db w') <-> x ∈ rows (db w) /\ id x <> n) /\
    (Forall (fun x => id x <> n) (rows (db w)) ->
       r = c_json (JsonError "not found") 404 /\ rows (db w') = rows (db w)) /\
    (Exists (fun x => id x = n) (rows (db w)) -> r = c_json JsonOk 200) /\
    fst (deleteTodo pg ident c' w') = Val (c_json (JsonError "not found") 404) /\
    rows (db (snd (deleteTodo pg ident c' w'))) = rows (db w').
Proof.
  intros Hid. rewrite (deleteTodo_eq pg ident n c w Hid). cbn zeta.
  set (keep := filter (fun r => bool_decide (id r <> n)) (rows (db w))).
  eexists _, _. split; [reflexivity|]. cbn [db set_db rows next_id].
  split; [reflexivity|].
  assert (Hmem : forall x, x ∈ keep <-> x ∈ rows (db w) /\ id x <> n).
  { intros x. unfold keep. rewrite list_elem_of_filter.
    rewrite bool_decide_spec. tauto. }
  split; [exact Hmem|].
  assert (Hagain : filter (fun r => bool_decide (id r <> n)) keep = keep).
  { apply filter_all. apply Forall_forall. intros x Hx.
    apply bool_decide_spec. now apply Hmem in Hx. }
  split; [|split; [|split]].
  - intros Hall.
    assert (Hk : keep = rows (db w)).
    { unfold keep. apply filter_all. eapply Forall_impl; [exact Hall|].
      intros x Hx. apply bool_decide_spec. exact Hx. }
    rewrite Hk, Nat.eqb_refl. split; reflexivity.
  - intros Hex.
    assert (Hlt : (length keep < length (rows (db w)))%nat).
    { unfold keep. apply filter_shorter. eapply Exists_impl; [exact Hex|].
      intros x Hx Hb. apply bool_decide_spec in Hb. contradiction. }
    rewrite (proj2 (Nat.eqb_neq _ _)) by lia. reflexivity.
  - rewrite (deleteTodo_eq pg ident n c' _ Hid). cbn [fst db set_db rows].
    rewrite Hagain, Nat.eqb_refl. reflexivity.
  - rewrite (deleteTodo_eq pg ident n c' _ Hid). cbn [snd db set_db rows].
    exact Hagain.
Qed.

Lemma X12_witness :
  exists r w',
    deleteTodo Demo.pg0 "1" (mkCtx (mkHttpRequest (DeleteTodo "1") None ∅ [] None 100) None) Demo.world0 = (Val r, w') /\
    next_id (db w') = next_id (db Demo.world0) /\
    (forall x, x ∈ rows (db w') <-> x ∈ rows (db Demo.world0) /\ id x <> 1) /\
    (Forall (fun x => id x <> 1) (rows (db Demo.world0)) ->
       r = c_json (JsonError "not found") 404 /\ rows (db w') = rows (db Demo.world0)) /\
    (Exists (fun x => id x = 1) (rows (db Demo.world0)) -> r = c_json JsonOk 200) /\
    fst (deleteTodo Demo.pg0 "1" (mkCtx (mkHttpRequest (DeleteTodo "1") None ∅ [] None 100) None) w')
      = Val (c_json (JsonError "not found") 404) /\
    rows (db (snd (deleteTodo Demo.pg0 "1" (mkCtx (mkHttpRequest (DeleteTodo "1") None ∅ [] None 100) None) w')))
      = rows (db w').
Proof.
  apply (X12_delete_removes_that_id_only Demo.pg0 "1" 1
           (mkCtx (mkHttpRequest (DeleteTodo "1") None ∅ [] None 100) None) (mkCtx (mkHttpRequest (DeleteTodo "1") None ∅ [] None 100) None) Demo.world0).
  reflexivity.
Defined.


(* ---- POST ---- *)

(** X13. POST /api/todos writes only for a text that is a string with
    something left after trimming: every other request leaves the process
    exactly as it was, no statement run. A text that is a number, a
    boolean or an object is answered 500 by the framework, since it has no
    [trim], where a missing, null or blank text is answered 400. *)
Theorem X13_post_writes_only_nonblank_strings (c : Ctx) (w : World) :
  let out := serve (postTodo c) w in
  (snd out = w \/
   exists b s, json (req c) = Some b /\ prop b "text" = Some (JStr s) /\
               trim s <> "" /\ code (fst out) = 201) /\
  (forall b v, json (req c) = Some b -> prop b "text" = Some v ->
     match v with
     | JNum _ | JBool _ | JObj _ => out = (c_text "Internal Server Error" 500, w)
     | JUndefined | JNull => out = (c_json (JsonError "text is required") 400, w)
     | JStr s =>
         trim s = "" -> out = (c_json (JsonError "text is required") 400, w)
     end).
Proof.
  cbn zeta. unfold serve, postTodo, run, nextval, set_rows. eff. split.
  - destruct (json (req c)) as [b|] eqn:Hj; simpl; [|now left].
    destruct (prop b "text") as [v|] eqn:Hp; simpl; [|now left].
    destruct v as [| |b'|z|s|fs]; simpl; try (now left).
    destruct (String.eqb_spec (trim s) "") as [E|E]; simpl; [now left|].
    right. exists b, s. auto.
  - intros b v Hj Hp. rewrite Hj. simpl. rewrite Hp. simpl.
    destruct v as [| |b'|z|s|fs]; simpl; try reflexivity.
    intros ->. reflexivity.
Qed.

(* ---- the keys ---- *)

Lemma well_keyed_same d d' :
  rows d' = rows d -> next_id d' = next_id d -> well_keyed d -> well_keyed d'.
Proof. unfold well_keyed. intros -> ->. auto. Qed.

Lemma getTodos_keys c w : well_keyed (db w) -> well_keyed (db (snd (getTodos c w))).
Proof. rewrite getTodos_eq. apply well_keyed_same; reflexivity. Qed.

Lemma postTodo_keys c w : well_keyed (db w) -> well_keyed (db (snd (postTodo c w))).
Proof.
  intros Hk. unfold postTodo, run, nextval, set_rows. eff.
  destruct (json (req c)) as [b|]; simpl; [|exact Hk].
  destruct (prop b "text") as [v|]; simpl; [|exact Hk].
  destruct v as [| |b'|z|s|fs]; simpl; try exact Hk.
  destruct (String.eqb (trim s) ""); simpl; [exact Hk|].
  destruct Hk as [Hnd Hlt]. unfold well_keyed. simpl. split.
  - rewrite map_app. simpl. apply NoDup_app. split; [exact Hnd|].
    split; [|apply NoDup_singleton].
    intros x Hx Hx'. apply list_elem_of_singleton in Hx'. subst x.
    apply list_elem_of_fmap in Hx as (r & Hr & Hin).
    rewrite Forall_forall in Hlt. specialize (Hlt r Hin). simpl in Hlt. lia.
  - apply Forall_app. split.
    + eapply Forall_impl; [exact Hlt|]. simpl. intros; lia.
    + constructor; [simpl; lia|constructor].
Qed.

Lemma update_rows_ids f n l l' hit :
  (forall r r', f r = Some r' -> id r' = id r) ->
  update_rows f n l = Some (l', hit) -> map id l' = map id l.
Proof.
  intros Hf. revert l' hit. induction l as [|r l IH]; simpl; intros l' hit.
  - intros [= <- _]. reflexivity.
  - destruct (update_rows f n l) as [[rest h]|]; [|discriminate].
    destruct (id r =? n).
    + destruct (f r) as [r'|] eqn:E; [|discriminate].
      intros [= <- _]. simpl. now rewrite (Hf _ _ E), (IH rest h).
    + intros [= <- _]. simpl. now rewrite (IH rest h).
Qed.

Lemma apply_update_id a t b d r r' : apply_update a t b d r = Some r' -> id r' = id r.
Proof.
  unfold apply_update.
  destruct (if a then t else Some (text r)); [|discriminate].
  destruct (if b then d else Some (completed r)); [|discriminate].
  intros [= <-]. reflexivity.
Qed.

Lemma well_keyed_ids d d' :
  map id (rows d') = map id (rows d) -> next_id d' = next_id d ->
  well_keyed d -> well_keyed d'.
Proof.
  unfold well_keyed. intros Hi Hn [Hnd Hlt]. rewrite Hi, Hn. split; [exact Hnd|].
  apply Forall_forall. intros r Hr.
  assert (Hin : id r ∈ map id (rows d)).
  { rewrite <- Hi. apply list_elem_of_fmap. eauto. }
  apply list_elem_of_fmap in Hin as (r0 & -> & Hr0).
  rewrite Forall_forall in Hlt. now apply Hlt.
Qed.

Lemma patchTodo_keys pg i c w :
  well_keyed (db w) -> well_keyed (db (snd (patchTodo pg i c w))).
Proof.
  intros Hk. unfold patchTodo, run, set_rows. eff.
  destruct (json (req c)) as [b|]; simpl; [|exact Hk].
  destruct (prop b "text") as [tv|]; simpl; [|exact Hk].
  destruct (prop b "completed") as [dv|]; simpl; [|exact Hk].
  destruct (negb (defined tv) && negb (defined dv)); simpl; [exact Hk|].
  assert (Hlog : forall st, well_keyed (mkDb (rows (db w)) (next_id (db w)) st))
    by (intros st; exact Hk).
  destruct (bool_param pg dv _) as [[d|e] w1] eqn:Hb.
  - assert (w1 = set_db (mkDb (rows (db w)) (next_id (db w))
                  (app (statements (db w))
                       [update_sql (defined tv) (defined dv)])) w).
    { revert Hb. unfold bool_param. eff.
      destruct dv; simpl; try (intros [= _ <-]; reflexivity);
        match goal with
        | |- context [bool_in pg ?x] => destruct (bool_in pg x)
        end; simpl; intros [= _ <-]; reflexivity. }
    subst w1. destruct (int4_in pg i) as [n|]; simpl; [|apply Hlog].
    destruct (update_rows _ n (rows (db w))) as [[l' hit]|] eqn:Hu; simpl; [|apply Hlog].
    assert (Hids : map id l' = map id (rows (db w))).
    { eapply update_rows_ids; [|exact Hu]. intros r r'. apply apply_update_id. }
    destruct hit; simpl; apply (well_keyed_ids (db w)); auto.
  - assert (db w1 = mkDb (rows (db w)) (next_id (db w))
                  (app (statements (db w))
                       [update_sql (defined tv) (defined dv)])).
    { revert Hb. unfold bool_param. eff.
      destruct dv; simpl; try discriminate;
        match goal with
        | |- context [bool_in pg ?x] => destruct (bool_in pg x)
        end; simpl; try discriminate; intros [= _ <-]; reflexivity. }
    simpl. rewrite H. apply Hlog.
Qed.

Lemma deleteTodo_keys pg i c w :
  well_keyed (db w) -> well_keyed (db (snd (deleteTodo pg i c w))).
Proof.
  intros Hk. unfold deleteTodo, run, set_rows. eff.
  destruct (int4_in pg i) as [n|]; simpl; [|exact Hk].
  set (keep := filter _ (rows (db w))).
  assert (Hkeep : well_keyed (mkDb keep (next_id (db w))
            (app (statements (db w)) ["DELETE FROM todos WHERE id = $1"]))).
  { destruct Hk as [Hnd Hlt]. split; simpl.
    - unfold keep. clear Hlt. induction (rows (db w)) as [|r l IH]; [constructor|].
      rewrite filter_cons. simpl in Hnd. apply NoDup_cons in Hnd as [Hr Hl].
      destruct (decide _); [|apply IH; exact Hl].
      simpl. apply NoDup_cons. split; [|apply IH; exact Hl].
      intros Hin. apply Hr. apply list_elem_of_fmap in Hin as (r0 & E & Hin).
      apply list_elem_of_filter in Hin as [_ Hin].
      apply list_elem_of_fmap. eauto.
    - apply Forall_forall. intros r Hr. apply list_elem_of_filter in Hr as [_ Hr].
      rewrite Forall_forall in Hlt. now apply Hlt. }
  destruct (length keep =? length (rows (db w)))%nat; simpl; exact Hkeep.
Qed.

End TodoFacts.

(* ===================================================================== *)
(** ** Screen, guard and routes together *)
(* ===================================================================== *)

Section Together.
Import Store.

Lemma bearer_guard_open (env : Bearer.Host) (r : HttpRequest) (w : World)
    (t : string) (p : jsval) :
  protected (route r) = true ->
  bearerToken r = Some t ->
  Bearer.jwtVerify env t = Some p ->
  Bearer.handle env r w = Open.handle (Bearer.pg env) r w.
Proof.
  intros Hp Ht Hv.
  assert (Hreq : forall next,
    Bearer.requireAuth env (mkCtx r None) next
      = next (mkCtx r (Some (Bearer.userOf p)))).
  { intros next. unfold Bearer.requireAuth. cbn [req]. cbv zeta.
    unfold bearerToken in Ht. destruct (authorization r) as [h|]; [|discriminate].
    destruct (startsWith "Bearer " h); [|discriminate].
    assert (E : slice 7 h = t) by congruence. rewrite E, Hv. reflexivity. }
  unfold Bearer.handle, Open.handle, Bearer.app, Open.app.
  destruct (route r); try discriminate; rewrite Hreq; reflexivity.
Qed.

Lemma session_guard_open (env : Session.Host) (r : HttpRequest) (w : World) (p : jsval) :
  protected (route r) = true ->
  Session.getSession env (mkCtx r None) = Some p ->
  Session.handle env r w = Open.handle (Session.pg env) r w.
Proof.
  intros Hp Hs.
  assert (Hreq : forall next,
    Session.requireAuth env (mkCtx r None) next
      = next (mkCtx r (Some (mkUser (Session.claim p "sub")
                               (Session.claim p "email") (Session.claim p "name"))))).
  { intros next. unfold Session.requireAuth. now rewrite Hs. }
  unfold Session.handle, Open.handle, Session.app, Open.app.
  destruct (route r); try discriminate; rewrite Hreq; reflexivity.
Qed.

(** X14. A valid credential makes the guard transparent: on a todo route,
    the bearer backend given a well-formed header whose token verifies, and
    the session backend given a session cookie that verifies, answer and
    act exactly as the backend without authentication does on the same
    request. *)
Theorem X14_guard_is_transparent_for_valid_credentials :
  (forall (env : Bearer.Host) (r : HttpRequest) (w : World) (t : string) (p : jsval),
     protected (route r) = true ->
     bearerToken r = Some t ->
     Bearer.jwtVerify env t = Some p ->
     Bearer.handle env r w = Open.handle (Bearer.pg env) r w) /\
  (forall (env : Session.Host) (r : HttpRequest) (w : World) (p : jsval),
     protected (route r) = true ->
     Session.getSession env (mkCtx r None) = Some p ->
     Session.handle env r w = Open.handle (Session.pg env) r w).
Proof.
  split; [exact bearer_guard_open|exact session_guard_open].
Qed.

Lemma X14_witness :
  Bearer.handle Demo.bearer_host (Demo.get_todos (Some "Bearer good") ∅) Demo.world0
    = Open.handle (Bearer.pg Demo.bearer_host)
        (Demo.get_todos (Some "Bearer good") ∅) Demo.world0 /\
  Session.handle (Demo.session_host 200)
      (Demo.get_todos None (<["session" := "session-u1"]> ∅)) Demo.world0
    = Open.handle (Session.pg (Demo.session_host 200))
        (Demo.get_todos None (<["session" := "session-u1"]> ∅)) Demo.world0.
Proof.
  split.
  - apply (proj1 X14_guard_is_transparent_for_valid_credentials Demo.bearer_host
             (Demo.get_todos (Some "Bearer good") ∅) Demo.world0 "good" Demo.payload_live);
      reflexivity.
  - apply (proj2 X14_guard_is_transparent_for_valid_credentials (Demo.session_host 200)
             (Demo.get_todos None (<["session" := "session-u1"]> ∅)) Demo.world0
             Demo.payload_live); reflexivity.
Defined.

(** On a todo route a backend either leaves the process as it is or does
    what the backend without authentication does. *)
Lemma handle_todo_route (b : Backend) (r : HttpRequest) (w : World) :
  protected (route r) = true ->
  snd (handle b r w) = w \/ handle b r w = Open.handle (pg_of b) r w.
Proof.
  intros Hp. destruct b as [env|pg|env]; cbn [handle pg_of].
  - destruct (credential (BearerBackend env) r) as [p|] eqn:Hc.
    + right. cbn [credential] in Hc.
      destruct (bearerToken r) as [t|] eqn:Ht; [|discriminate].
      exact (bearer_guard_open env r w t p Hp Ht Hc).
    + left. unfold Bearer.handle, Bearer.app, serve.
      destruct (route r); try discriminate;
        rewrite (bearer_requireAuth_rejects env r _ w Hc); reflexivity.
  - now right.
  - destruct (Session.getSession env (mkCtx r None)) as [p|] eqn:Hs.
    + right. exact (session_guard_open env r w p Hp Hs).
    + left. unfold Session.handle, Session.app, serve.
      assert (Hreq : forall next,
        Session.requireAuth env (mkCtx r None) next w =
        (Val (c_json (JsonError "unauthorized") 401), w)).
      { intros next. unfold Session.requireAuth. now rewrite Hs. }
      destruct (route r); try discriminate; rewrite Hreq; reflexivity.
Qed.

(** The auth routes of the session backend never touch the table. *)
Lemma session_auth_routes_keep_db (env : Session.Host) (r : HttpRequest) (w : World) :
  protected (route r) = false ->
  db (snd (Session.handle env r w)) = db w.
Proof.
  intros Hp. unfold Session.handle, serve, Session.app.
  destruct (route r); try discriminate.
  - unfold Session.me. destruct (Session.getSession env _); reflexivity.
  - unfold Session.login, Session.crypto_randomUUID. eff.
    destruct (Session.getOIDCConfig env w) as [[d|e] w1] eqn:Hc;
      destruct (session_getOIDCConfig_frame _ _ _ _ Hc) as (_ & Hd & _); [|exact Hd].
    destruct (newURL _ d _); exact Hd.
  - destruct (Session.idTokenOfFlow env (mkCtx r None) w) as [[[idToken|]|e] w1] eqn:Hf;
      destruct (idTokenOfFlow_frame _ _ _ _ _ Hf) as (_ & Hd).
    + rewrite (callback_after_verification env _ w idToken w1 Hf).
      destruct (_ && _); simpl; [exact Hd|]. unfold Session.sign. eff. exact Hd.
    + revert Hf. unfold Session.idTokenOfFlow, Session.callback. eff.
      destruct (truthyS (params_get "error" _)); [intros [= <-]; reflexivity|].
      destruct (_ || _); [intros [= <-]; reflexivity|].
      destruct (Session.getOIDCConfig env w) as [[d|e] w2]; [|discriminate].
      destruct (fields d) as [cfg|]; simpl; [|discriminate].
      destruct (Session.fetch env _ w2) as [[res|e] w3]; [|discriminate].
      destruct (ok res); simpl; [|intros [= <-]; exact Hd].
      destruct (Session.jsonTokens env _); simpl; [|discriminate].
      destruct (Session.getJWKS env w3) as [[keys|e] w4]; [|discriminate].
      destruct (Session.verifyIdToken env keys _); [discriminate|].
      intros [= <-]. exact Hd.
    + rewrite (callback_throws_with_flow env _ w e w1 Hf). exact Hd.
  - unfold Session.logout. eff.
    destruct (Session.getOIDCConfig env w) as [[d|e] w1] eqn:Hc;
      destruct (session_getOIDCConfig_frame _ _ _ _ Hc) as (_ & Hd & _); [|exact Hd].
    destruct (newURL _ d _); exact Hd.
Qed.

Lemma open_keys (pg : Pg) (r : HttpRequest) (w : World) :
  well_keyed (db w) -> well_keyed (db (snd (Open.handle pg r w))).
Proof.
  intros Hk. unfold Open.handle, serve, Open.app.
  destruct (route r) as [| |i|i| | | |].
  - pose proof (getTodos_keys (mkCtx r None) w Hk) as H.
    destruct (getTodos _ w) as [[x|e] w1]; exact H.
  - pose proof (postTodo_keys (mkCtx r None) w Hk) as H.
    destruct (postTodo _ w) as [[x|e] w1]; exact H.
  - pose proof (patchTodo_keys pg i (mkCtx r None) w Hk) as H.
    destruct (patchTodo _ _ _ w) as [[x|e] w1]; exact H.
  - pose proof (deleteTodo_keys pg i (mkCtx r None) w Hk) as H.
    destruct (deleteTodo _ _ _ w) as [[x|e] w1]; exact H.
  - exact Hk.
  - exact Hk.
  - exact Hk.
  - exact Hk.
Qed.

(** X15. Whatever request any of the three backends serves, and however
    it ends, the ids of the table stay unique and below the sequence: POST
    takes the next value, PATCH never changes an id, DELETE only removes
    rows, and the auth routes do not touch the table. *)
Theorem X15_ids_stay_unique (b : Backend) (r : HttpRequest) (w : World) :
  well_keyed (db w) -> well_keyed (db (snd (handle b r w))).
Proof.
  intros Hk. destruct (protected (route r)) eqn:Hp.
  - destruct (handle_todo_route b r w Hp) as [-> | ->]; [exact Hk|].
    apply open_keys. exact Hk.
  - destruct b as [env|pg|env]; cbn [handle].
    + unfold Bearer.handle, serve, Bearer.app.
      destruct (route r); try discriminate; exact Hk.
    + apply open_keys. exact Hk.
    + rewrite (session_auth_routes_keep_db env r w Hp). exact Hk.
Qed.

Lemma X15_witness :
  well_keyed (db (snd (handle (OpenBackend Demo.pg0)
                         (mkHttpRequest CreateTodo None ∅ []
                            (Some (JObj [("text", JStr "Buy bread")])) 100)
                         Demo.world0))).
Proof.
  apply (X15_ids_stay_unique (OpenBackend Demo.pg0)
           (mkHttpRequest CreateTodo None ∅ []
              (Some (JObj [("text", JStr "Buy bread")])) 100) Demo.world0).
  split.
  - apply NoDup_singleton.
  - repeat constructor.
Defined.

Lemma bearer_header t :
  startsWith "Bearer " ("Bearer " ++ t) = true /\ slice 7 ("Bearer " ++ t) = t.
Proof. split; reflexivity. Qed.

(** X16. [apiFetch] and the bearer guard fit together. When [apiFetch]
    issues a call, the token [getAccessToken] returned is not empty and
    the guard reads that same token back out of the Authorization header;
    so on a todo route the bearer backend answers the call as the backend
    without authentication would when the token verifies, and 401
    [invalid_token] when it does not, never [unauthorized]. When
    [getAccessToken] returns null, [apiFetch] throws "No token" and no
    call is issued. *)
Theorem X16_apiFetch_header_round_trip :
  (forall (env : Auth.Browser) (now : Z) (rq : Route * option jsval)
          (w w' : Auth.World) (call : App.ApiCall),
     App.apiFetch env now rq w = (Val call, w') ->
     exists t,
       Auth.getAccessToken env now w = (Val (Some t), w') /\ t <> "" /\
       call = App.mkApiCall (fst rq) (Some ("Bearer " ++ t)) (snd rq) /\
       forall (host : Bearer.Host) (jar : gmap string string) (at_ : Z) (sw : World),
         bearerToken (App.deliver call jar at_) = Some t /\
         (protected (fst rq) = true ->
          Bearer.handle host (App.deliver call jar at_) sw =
            match Bearer.jwtVerify host t with
            | Some _ => Open.handle (Bearer.pg host) (App.deliver call jar at_) sw
            | None => (c_json (JsonError "invalid_token") 401, sw)
            end)) /\
  (forall (env : Auth.Browser) (now : Z) (rq : Route * option jsval) (w : Auth.World),
     fst (Auth.getAccessToken env now w) = Val None ->
     App.apiFetch env now rq w = (Throw "No token", snd (Auth.getAccessToken env now w))).
Proof.
  split.
  - intros env now rq w w' call. unfold App.apiFetch. eff.
    destruct (Auth.getAccessToken env now w) as [[token|e] w1]; [|discriminate].
    destruct (truthyS token) eqn:Ht; simpl; [|discriminate].
    destruct (truthyS_some _ Ht) as (t & -> & Hne).
    intros [= <- <-]. exists t. split; [reflexivity|]. split; [exact Hne|].
    split; [reflexivity|].
    intros host jar at_ sw.
    assert (Hb : bearerToken (App.deliver (App.mkApiCall (fst rq)
                    (Some ("Bearer " ++ t)) (snd rq)) jar at_) = Some t).
    { unfold bearerToken, App.deliver. cbn [authorization App.call_authorization].
      destruct (bearer_header t) as [-> ->]. reflexivity. }
    split; [exact Hb|]. intros Hp.
    destruct (Bearer.jwtVerify host t) as [p|] eqn:Hv.
    + apply bearer_guard_open with (t := t) (p := p); [exact Hp | exact Hb | exact Hv].
    + unfold Bearer.handle, Bearer.app, serve.
      assert (Hc : credential (BearerBackend host)
                     (App.deliver (App.mkApiCall (fst rq)
                        (Some ("Bearer " ++ t)) (snd rq)) jar at_) = None).
      { cbn [credential]. now rewrite Hb. }
      assert (Hr : rejection (BearerBackend host)
                     (App.deliver (App.mkApiCall (fst rq)
                        (Some ("Bearer " ++ t)) (snd rq)) jar at_) = "invalid_token").
      { unfold rejection. now rewrite Hb. }
      cbn [route App.deliver App.call_route] in *.
      destruct (fst rq); try discriminate;
        rewrite (bearer_requireAuth_rejects host _ _ sw Hc), Hr; reflexivity.
  - intros env now rq w H. unfold App.apiFetch. eff.
    destruct (Auth.getAccessToken env now w) as [[token|e] w1]; simpl in *;
      [|discriminate].
    injection H as ->. reflexivity.
Qed.

Lemma X16_witness :
  exists t,
    Auth.getAccessToken (Demo.browser 200 "tokens") Demo.now0 Demo.tab_soon
      = (Val (Some t),
         snd (App.apiFetch (Demo.browser 200 "tokens") Demo.now0 (ListTodos, None)
                Demo.tab_soon)) /\
    t <> "" /\
    App.mkApiCall ListTodos (Some "Bearer h.live.s") None
      = App.mkApiCall (fst (ListTodos, @None jsval)) (Some ("Bearer " ++ t))
          (snd (ListTodos, @None jsval)) /\
    forall (host : Bearer.Host) (jar : gmap string string) (at_ : Z) (sw : World),
      bearerToken (App.deliver (App.mkApiCall ListTodos (Some "Bearer h.live.s") None)
                     jar at_) = Some t /\
      (protected (fst (ListTodos, @None jsval)) = true ->
       Bearer.handle host
         (App.deliver (App.mkApiCall ListTodos (Some "Bearer h.live.s") None) jar at_) sw =
         match Bearer.jwtVerify host t with
         | Some _ =>
             Open.handle (Bearer.pg host)
               (App.deliver (App.mkApiCall ListTodos (Some "Bearer h.live.s") None)
                  jar at_) sw
         | None => (c_json (JsonError "invalid_token") 401, sw)
         end).
Proof.
  apply (proj1 X16_apiFetch_header_round_trip (Demo.browser 200 "tokens") Demo.now0
           (ListTodos, None) Demo.tab_soon).
  reflexivity.
Defined.

End Together.

(* ===================================================================== *)
(** ** What the screens send *)
(* ===================================================================== *)

Section ScreenFacts.
Import Store.

Lemma tidy_same_text (r r' : Todo) : text r' = text r -> tidy r -> tidy r'.
Proof. unfold tidy. intros ->. auto. Qed.

Lemma update_rows_texts f n l l' hit :
  (forall r r', f r = Some r' -> text r' = text r) ->
  update_rows f n l = Some (l', hit) ->
  Forall tidy l -> Forall tidy l'.
Proof.
  intros Hf. revert l' hit. induction l as [|r l IH]; simpl; intros l' hit.
  - intros [= <- _] _. constructor.
  - destruct (update_rows f n l) as [[rest h]|]; [|discriminate].
    intros H Hall. inversion Hall as [|? ? Hr Hl]; subst.
    destruct (id r =? n).
    + destruct (f r) as [r'|] eqn:Hfr; [|discriminate].
      injection H as <- _. constructor.
      * exact (tidy_same_text r r' (Hf r r' Hfr) Hr).
      * exact (IH rest h eq_refl Hl).
    + injection H as <- _. constructor; [exact Hr|exact (IH rest h eq_refl Hl)].
Qed.

Lemma postTodo_tidy c w :
  Forall tidy (rows (db w)) -> Forall tidy (rows (db (snd (postTodo c w)))).
Proof.
  intros Hk. unfold postTodo, run, nextval, set_rows. eff.
  destruct (json (req c)) as [b|]; simpl; [|exact Hk].
  destruct (prop b "text") as [v|]; simpl; [|exact Hk].
  destruct v as [| |b'|z|s|fs]; simpl; try exact Hk.
  destruct (String.eqb (trim s) "") eqn:He; simpl; [exact Hk|].
  apply Forall_app. split; [exact Hk|].
  constructor; [|constructor]. split; simpl.
  - apply String.eqb_neq. exact He.
  - apply trim_idem.
Qed.

Lemma deleteTodo_tidy pg i c w :
  Forall tidy (rows (db w)) -> Forall tidy (rows (db (snd (deleteTodo pg i c w)))).
Proof.
  intros Hk. unfold deleteTodo, run, set_rows. eff.
  destruct (int4_in pg i) as [n|]; simpl; [|exact Hk].
  match goal with
  | |- context [filter ?P ?l] =>
      assert (Hf : Forall tidy (filter P l))
  end.
  { apply Forall_forall. intros x Hx. apply list_elem_of_filter in Hx as [_ Hx].
    rewrite Forall_forall in Hk. exact (Hk x Hx). }
  destruct (_ =? _)%nat; exact Hf.
Qed.

Lemma patchTodo_tidy pg i c w :
  (forall b, json (req c) = Some b -> prop b "text" = Some JUndefined) ->
  Forall tidy (rows (db w)) -> Forall tidy (rows (db (snd (patchTodo pg i c w)))).
Proof.
  intros Hb Hk. unfold patchTodo, run, set_rows. eff.
  destruct (json (req c)) as [b|]; simpl; [|exact Hk].
  rewrite (Hb b eq_refl). simpl.
  destruct (prop b "completed") as [v|]; simpl; [|exact Hk].
  destruct (negb (defined v)); simpl; [exact Hk|].
  match goal with
  | |- context [bool_param pg v ?w1] =>
      assert (Hw : snd (bool_param pg v w1) = w1);
      [|destruct (bool_param pg v w1) as [[d|e] w2]; simpl in Hw; subst w2; simpl;
        [|exact Hk]]
  end.
  { destruct v; simpl; try reflexivity; unfold lift_opt, bind, ret, throw;
      match goal with |- context [bool_in pg ?s] => destruct (bool_in pg s) end;
      reflexivity. }
  destruct (int4_in pg i) as [n|]; simpl; [|exact Hk].
  destruct (update_rows _ n (rows (db w))) as [[l' hit]|] eqn:Hu; simpl; [|exact Hk].
  assert (Hl : Forall tidy l').
  { eapply update_rows_texts; [|exact Hu|exact Hk].
    intros r r'. unfold apply_update.
    destruct (if defined v then d else Some (completed r)); [|discriminate].
    intros [= <-]. reflexivity. }
  destruct hit; exact Hl.
Qed.

(** Every request the three backends accept on a todo route keeps the
    stored texts non-empty and trimmed, unless it is a PATCH that carries
    a [text]. *)
Lemma open_tidy pg r w :
  (forall i b, route r = PatchTodo i -> json r = Some b ->
               prop b "text" = Some JUndefined) ->
  Forall tidy (rows (db w)) -> Forall tidy (rows (db (snd (Open.handle pg r w)))).
Proof.
  intros Hb Hk. unfold Open.handle, serve, Open.app.
  destruct (route r) as [| |i|i| | | |] eqn:Hr.
  - rewrite getTodos_eq. exact Hk.
  - pose proof (postTodo_tidy (mkCtx r None) w Hk) as H.
    destruct (postTodo _ w) as [[x|e] w1]; exact H.
  - pose proof (patchTodo_tidy pg i (mkCtx r None) w (fun b => Hb i b eq_refl) Hk) as H.
    destruct (patchTodo _ _ _ w) as [[x|e] w1]; exact H.
  - pose proof (deleteTodo_tidy pg i (mkCtx r None) w Hk) as H.
    destruct (deleteTodo _ _ _ w) as [[x|e] w1]; exact H.
  - exact Hk.
  - exact Hk.
  - exact Hk.
  - exact Hk.
Qed.

Lemma request_protected show a rq :
  App.request show a = Some rq -> protected (fst rq) = true.
Proof.
  destruct a as [input|t|i|]; cbn [App.request]; unfold App.add.
  - destruct (String.eqb (trim input) ""); [discriminate|]. now intros [= <-].
  - now intros [= <-].
  - now intros [= <-].
  - now intros [= <-].
Qed.

Lemma request_patch_has_no_text show a rq i b :
  App.request show a = Some rq -> fst rq = PatchTodo i -> snd rq = Some b ->
  prop b "text" = Some JUndefined.
Proof.
  destruct a as [input|t|j|]; cbn [App.request]; unfold App.add.
  - destruct (String.eqb (trim input) ""); [discriminate|]. intros [= <-]. discriminate.
  - intros [= <-]. cbn. intros _ [= <-]. reflexivity.
  - intros [= <-]. discriminate.
  - intros [= <-]. discriminate.
Qed.

(** X17. The screens never break the shape of the stored texts. Whatever
    the user does on a screen ([add], [toggle], [remove], [loadTodos]),
    the request it sends, received by any of the three backends with any
    headers and cookies, leaves every stored text non-empty and trimmed if
    they all were: [add] sends a trimmed non-blank text and [toggle] sends
    [completed] alone, so the PATCH that stores a text as sent is never
    given one by the screens. *)
Theorem X17_screen_requests_keep_texts_tidy
    (show_number : Z -> string) (a : App.Action) (rq : Route * option jsval)
    (b : Backend) (r : HttpRequest) (w : World) :
  App.request show_number a = Some rq ->
  route r = fst rq ->
  json r = snd rq ->
  Forall tidy (rows (db w)) ->
  Forall tidy (rows (db (snd (handle b r w)))).
Proof.
  intros Ha Hr Hj Hk.
  assert (Hp : protected (route r) = true)
    by (rewrite Hr; exact (request_protected show_number a rq Ha)).
  destruct (handle_todo_route b r w Hp) as [-> | ->]; [exact Hk|].
  apply open_tidy; [|exact Hk].
  intros i body Hri Hbody.
  apply (request_patch_has_no_text show_number a rq i body Ha); congruence.
Qed.

Lemma X17_witness :
  Forall tidy (rows (db Demo.world0)) /\
  Forall tidy (rows (db (snd (handle (OpenBackend Demo.pg0)
     (mkHttpRequest (PatchTodo "1") None ∅ []
        (Some (JObj [("completed", JBool true)])) 100) Demo.world0)))).
Proof.
  assert (H : Forall tidy (rows (db Demo.world0))).
  { constructor; [split; [discriminate|reflexivity]|constructor]. }
  split; [exact H|].
  apply (X17_screen_requests_keep_texts_tidy
           (fun _ => "1") (App.Toggle (mkTodo 1 "Buy milk" false 10))
           (PatchTodo "1", Some (JObj [("completed", JBool true)]))).
  - reflexivity.
  - reflexivity.
  - reflexivity.
  - exact H.
Defined.

End ScreenFacts.

(* ===================================================================== *)
(** ** The session backend between sign-in and sign-out *)
(* ===================================================================== *)

Section SessionFacts.







(** X20. The key set is fetched once. A [getJWKS] that returns has left
    the key set cached after at most two requests (discovery and the key
    set), none when it was cached before; calling it again returns the
    same keys, sends nothing and changes nothing. *)
Theorem X20_key_set_is_fetched_once
    (env : Session.Host) (w w1 : World) (k : string) :
  Session.getJWKS env w = (Val k, w1) ->
  is_Some (jwks w1) /\
  Session.getJWKS env w1 = (Val k, w1) /\
  (length (netlog w1) <= length (netlog w) + 2)%nat /\
  (is_Some (jwks w) -> w1 = w).
Proof.
  unfold Session.getJWKS. unfold bind at 1, gets.
  destruct (jwks w) as [ks|] eqn:Hj.
  - unfold bind, ret, lift_opt, throw.
    destruct (Session.createLocalJWKSet env ks) as [k'|] eqn:Hk; [|discriminate].
    intros [= <- <-]. rewrite Hj. split; [eauto|]. unfold bind, gets. simpl.
    rewrite Hk. split; [reflexivity|]. split; [lia|reflexivity].
  - unfold bind at 1. unfold bind at 1.
    destruct (Session.getOIDCConfig env w) as [[d|e] w2] eqn:Hc; [|discriminate].
    assert (Hn2 : (length (netlog w2) <= length (netlog w) + 1)%nat).
    { destruct (session_getOIDCConfig_netlog _ _ _ _ Hc) as (rest & -> & Hle).
      rewrite length_app. lia. }
    unfold bind at 1, lift_opt at 1.
    destruct (fields d) as [cfg|]; [|discriminate]. unfold ret at 1.
    unfold bind at 1, Session.fetch.
    destruct (Session.net env _ _) as [|res]; [discriminate|].
    unfold bind at 1, lift_opt at 1.
    destruct (Session.jsonJwks env (Net.text res)) as [ks|]; [|discriminate].
    unfold bind at 1, modify, ret at 1. unfold ret at 1.
    unfold lift_opt, ret, throw.
    destruct (Session.createLocalJWKSet env ks) as [k'|] eqn:Hk; [|discriminate].
    intros [= <- <-]. simpl. split; [eauto|]. split.
    + unfold bind, gets. simpl. rewrite Hk. reflexivity.
    + split; [|intros [? [=]]]. rewrite length_app. simpl. lia.
Qed.

Lemma X20_witness :
  is_Some (jwks (snd (Session.getJWKS (Demo.session_host 200) Demo.world0))) /\
  Session.getJWKS (Demo.session_host 200)
    (snd (Session.getJWKS (Demo.session_host 200) Demo.world0))
    = (Val "document", snd (Session.getJWKS (Demo.session_host 200) Demo.world0)) /\
  (length (netlog (snd (Session.getJWKS (Demo.session_host 200) Demo.world0)))
     <= length (netlog Demo.world0) + 2)%nat /\
  (is_Some (jwks Demo.world0) ->
   snd (Session.getJWKS (Demo.session_host 200) Demo.world0) = Demo.world0).
Proof.
  apply (X20_key_set_is_fetched_once (Demo.session_host 200) Demo.world0
           (snd (Session.getJWKS (Demo.session_host 200) Demo.world0)) "document").
  reflexivity.
Defined.

End SessionFacts.

(* ===================================================================== *)
(** ** A login that cannot build its redirect *)
(* ===================================================================== *)

Section LoginFailures.


(** X21. A [login] in the browser that throws leaves the location and the
    tokens as they were. Either discovery threw, and then nothing was
    stored; or discovery gave a document whose authorization endpoint
    [new URL] refuses (the document is falsy, or the endpoint is missing
    or no absolute URL), and then a new verifier and a new state are
    already in session storage, two random draws spent. *)
Theorem X21_login_throws_after_storing
    (env : Auth.Browser) (w w' : Auth.World) (e : string) :
  Auth.login env w = (Throw e, w') ->
  Auth.href w' = Auth.href w /\
  Auth._accessToken w' = Auth._accessToken w /\
  Auth._refreshToken w' = Auth._refreshToken w /\
  ((fst (Auth.getOIDCConfig env w) = Throw e /\
    Auth.sessionStorage w' = Auth.sessionStorage w /\
    Auth.draws w' = Auth.draws w)
   \/
   (exists d verifier state,
      fst (Auth.getOIDCConfig env w) = Val d /\
      newURL (Auth.canParse env) d authorization_endpoint = None /\
      Auth.sessionStorage w' =
        <["auth_state" := state]> (<["pkce_verifier" := verifier]> (Auth.sessionStorage w)) /\
      Auth.draws w' = S (S (Auth.draws w)))).
Proof.
  unfold Auth.login, Auth.createPKCE, Auth.randomString, Auth.setItem. eff.
  destruct (Auth.getOIDCConfig env w) as [[d|e'] w1] eqn:Hc.
  - assert (Hfr : Auth._accessToken w1 = Auth._accessToken w /\
                  Auth._refreshToken w1 = Auth._refreshToken w /\
                  Auth.sessionStorage w1 = Auth.sessionStorage w /\
                  Auth.href w1 = Auth.href w /\ Auth.draws w1 = Auth.draws w).
    { revert Hc. unfold Auth.getOIDCConfig, Auth.fetch. eff.
      destruct (Auth._config w); [intros [= _ <-]; auto|].
      destruct (Auth.net env _ _) as [|res]; simpl; [discriminate|].
      destruct (Auth.jsonConfig env _); simpl; [|discriminate].
      intros [= _ <-]. simpl. auto. }
    destruct Hfr as (Ha & Hr & Hs & Hh & Hd).
    destruct (newURL (Auth.canParse env) d authorization_endpoint) as [url|] eqn:Hu;
      simpl; [discriminate|].
    intros [= <- <-]. simpl. do 3 (split; [assumption|]).
    right. eexists d, _, _. split; [reflexivity|]. split; [exact Hu|].
    split; [now rewrite Hs|now rewrite Hd].
  - intros [= <- <-].
    assert (Hfr : Auth._accessToken w1 = Auth._accessToken w /\
                  Auth._refreshToken w1 = Auth._refreshToken w /\
                  Auth.sessionStorage w1 = Auth.sessionStorage w /\
                  Auth.href w1 = Auth.href w /\ Auth.draws w1 = Auth.draws w).
    { revert Hc. unfold Auth.getOIDCConfig, Auth.fetch. eff.
      destruct (Auth._config w); [discriminate|].
      destruct (Auth.net env _ _) as [|res]; simpl; [intros [= _ <-]; simpl; auto|].
      destruct (Auth.jsonConfig env _); simpl; [discriminate|].
      intros [= _ <-]. simpl. auto. }
    destruct Hfr as (Ha & Hr & Hs & Hh & Hd).
    do 3 (split; [assumption|]). left. auto.
Qed.

Lemma X21_witness :
  let w := Auth.load ∅ "/" [] in
  let env := Auth.mkBrowser "https://todo.snir.sh" (Demo.provider 200 "tokens")
               (fun _ => Some DocEmpty) Demo.json_tokens Demo.atob_json (fun _ => NaN)
               (fun n len => repeat (n + 7)%nat len) (fun v => "challenge-of-" ++ v)
               (startsWith "https://") in
  Auth.href (snd (Auth.login env w)) = Auth.href w /\
  Auth._accessToken (snd (Auth.login env w)) = Auth._accessToken w /\
  Auth._refreshToken (snd (Auth.login env w)) = Auth._refreshToken w /\
  ((fst (Auth.getOIDCConfig env w) = Throw "TypeError" /\
    Auth.sessionStorage (snd (Auth.login env w)) = Auth.sessionStorage w /\
    Auth.draws (snd (Auth.login env w)) = Auth.draws w)
   \/
   (exists d verifier state,
      fst (Auth.getOIDCConfig env w) = Val d /\
      newURL (Auth.canParse env) d authorization_endpoint = None /\
      Auth.sessionStorage (snd (Auth.login env w)) =
        <["auth_state" := state]> (<["pkce_verifier" := verifier]> (Auth.sessionStorage w)) /\
      Auth.draws (snd (Auth.login env w)) = S (S (Auth.draws w)))).
Proof.
  cbv zeta.
  apply (X21_login_throws_after_storing
           (Auth.mkBrowser "https://todo.snir.sh" (Demo.provider 200 "tokens")
              (fun _ => Some DocEmpty) Demo.json_tokens Demo.atob_json (fun _ => NaN)
              (fun n len => repeat (n + 7)%nat len) (fun v => "challenge-of-" ++ v)
              (startsWith "https://"))
           (Auth.load ∅ "/" [])).
  reflexivity.
Defined.



End LoginFailures.
